(** * Starter pack to list conversion: a model of the background service

    The development embeds the conversion pipeline of the extension
    ([ListConverter] in [src/background/list-converter.js]), the message
    handler that drives it ([MessageHandler.handleCreateList]) and the
    navigation listener of [scripts/background.js], and states the properties
    of the design document against them.

    JavaScript promises are modelled by their fate ([Outcome]): a promise is
    resolved with a value, rejected with an error, or never settles.  An
    [async] function is a function from the history of the calls issued so far
    to the fate of its promise and the calls it issues itself.  Everything the
    code obtains from outside (the URL parser of the platform, the network, the
    SDK agent, the OAuth client, the clock and the random generator) is a field
    of the environment [Env]; replies may depend on the whole history.

    A thrown value is always an [Error] object and is represented by its
    [message]. *)

From Stdlib Require Import String Ascii List Arith NArith Bool Lia DecimalString.
Import ListNotations.
Local Open Scope string_scope.
Local Open Scope list_scope.

Set Implicit Arguments.

(** ** JavaScript strings and arrays *)

Module Js.

(** [s.startsWith(p)] *)
Definition startsWith (s p : string) : bool := String.prefix p s.

(** [s.split(sep)] for a separator of one character.  As in JavaScript the
    empty string splits into one empty segment. *)
Fixpoint split (sep : ascii) (s : string) : list string :=
  match s with
  | EmptyString => [EmptyString]
  | String c rest =>
      if Ascii.eqb c sep then EmptyString :: split sep rest
      else match split sep rest with
           | [] => [String c EmptyString]
           | seg :: segs => String c seg :: segs
           end
  end.

(** [(segment) => segment !== ''] *)
Definition nonEmpty (s : string) : bool :=
  match s with EmptyString => false | String _ _ => true end.

(** [pathname.split('/').filter((segment) => segment !== '')] *)
Definition segmentsOf (pathname : string) : list string :=
  filter nonEmpty (split "/"%char pathname).

(** [array[i]]: [None] stands for [undefined]. *)
Definition index {A} (l : list A) (i : nat) : option A := nth_error l i.

(** Interpolation of a possibly undefined value in a template literal. *)
Definition interpolate (v : option string) : string :=
  match v with Some s => s | None => "undefined" end.

(** Interpolation of a number (the HTTP status) in a template literal. *)
Definition showNat (n : nat) : string := NilEmpty.string_of_uint (Nat.to_uint n).

(** [true] when the character occurs in the string. *)
Fixpoint occurs (c : ascii) (s : string) : bool :=
  match s with
  | EmptyString => false
  | String d rest => Ascii.eqb d c || occurs c rest
  end.

End Js.

(** ** Promises *)

Inductive Outcome (A : Type) : Type :=
| Resolved (a : A)
| Rejected (message : string)
| Pending.

Arguments Resolved {A} a.
Arguments Rejected {A} message.
Arguments Pending {A}.

(** The result of a synchronous computation that may throw. *)
Inductive Completion (A : Type) : Type :=
| Normal (a : A)
| Throw (message : string).

Arguments Normal {A} a.
Arguments Throw {A} message.

(** ** Data *)

(** The part of a [URL] object that the code reads. [href] is what the object
    converts to when it is passed where a string is expected. *)
Record URL : Type := mkURL {
  href : string;
  hostname : string;
  pathname : string
}.

(** The argument of [new URL(...)]: a string, a [URL] object or [undefined]. *)
Inductive UrlArg : Type :=
| ArgString (s : string)
| ArgURL (u : URL)
| ArgUndefined.

(** [chrome.runtime.MessageSender]: the tab is absent when the message does not
    come from a content script, and so is its URL without the permission. *)
Record Tab : Type := mkTab { tab_url : option string }.
Record Sender : Type := mkSender { tab : option Tab }.

(** [data.starterPack] of [app.bsky.graph.getStarterPack]; [list] is optional
    in the lexicon. *)
Record ListRef : Type := mkListRef { listref_uri : string }.
Record StarterPackView : Type := mkStarterPackView { sp_list : option ListRef }.

(** [data] of [app.bsky.graph.getList]. *)
Record ListView : Type := mkListView {
  list_name : string;
  list_description : option string
}.
Record Subject : Type := mkSubject { did : string }.
Record ListItemView : Type := mkListItemView { subject : Subject }.
Record ListData : Type := mkListData {
  data_list : ListView;   (* [data.list] *)
  items : list ListItemView
}.

(** A JSON object, as far as the code reads it: the properties [url] (short
    link redirector), [starterPack] (pack read), [list] and [items] (list
    read).  An absent property reads as [undefined]. *)
Record Json : Type := mkJson {
  json_url : option string;
  json_starterPack : option StarterPackView;
  json_list : option ListView;
  json_items : option (list ListItemView)
}.

(** [Response] of the global [fetch]; [json] is the promise of
    [response.json()]. *)
Record Response : Type := mkResponse {
  ok : bool;
  status : nat;
  json : Outcome Json
}.

(** The [headers] option of [fetch]. *)
Definition Headers : Type := list (string * string).

(** The [record] of a [com.atproto.repo.createRecord] request. *)
Inductive RecordBody : Type :=
| ListRecord (purpose name : string) (description : option string) (createdAt : string)
| ListItemRecord (subject_did list_uri createdAt : string).

Record CreateRecordReq : Type := mkCreateRecordReq {
  repo : string;
  collection : string;
  record : RecordBody
}.

(** [response.data] of [createRecord]. *)
Record RecordRef : Type := mkRecordRef { uri : string; cid : string }.

(** The session handed out by the OAuth client. *)
Record Session : Type := mkSession { sub : string }.

(** The response sent back to the content script. *)
Record ListPayload : Type := mkListPayload { payload_list : RecordRef }.
Record HandlerResponse : Type := mkHandlerResponse {
  success : bool;
  data : option ListPayload;
  error : option string
}.

(** ** Calls and environment *)

(** What the code sends out.  A [fetch] carries the budget (in milliseconds)
    of the abort signal it is given, if any; the calls made through the SDK
    agent and the OAuth client are given none by this code. *)
Inductive Call : Type :=
| CallFetch (url : string) (headers : Headers) (signal : option N)
| CallOAuthInit
| CallGetStarterPack (starterPack : string)
| CallGetList (listUri : string)
| CallCreateRecord (req : CreateRecordReq).

Definition Trace : Type := list Call.

(** The wording of the errors raised by the JavaScript engine and the
    platform, which no standard fixes. *)
Record Engine : Type := mkEngine {
  msgInvalidURL : string;                 (* [new URL] on an unparsable input *)
  msgAborted : string;                    (* [fetch] whose signal was aborted *)
  msgReadOfUndefined : string -> string;  (* property read on [undefined] *)
  msgDestructureUndefined : string -> string;
  msgNotDefined : string -> string        (* unbound identifier *)
}.

(** What the network does with a request when nobody aborts it: [latency] is
    the time in milliseconds after which [fetch] settles ([None]: never) and
    [arrival] how it settles. *)
Record NetReply : Type := mkNetReply {
  latency : option N;
  arrival : Completion Response
}.

Record Env : Type := mkEnv {
  engine : Engine;
  parseURL : string -> option URL;
  network : Trace -> string -> Headers -> NetReply;
  randomSuffix : Trace -> string;   (* [Math.random().toString(36).substring(7)] *)
  now : Trace -> string;            (* [new Date().toISOString()] *)
  oauth_init : Trace -> Outcome (option Session);
  assertDid : Completion string;    (* [agent.assertDid] *)
  agent_getStarterPack : Trace -> string -> Outcome StarterPackView;
  agent_getList : Trace -> string -> Outcome ListData;
  agent_createRecord : Trace -> CreateRecordReq -> Outcome RecordRef
}.

(** ** Asynchronous computations *)

(** An asynchronous computation is run after a history of calls and yields
    the fate of its promise together with the calls it has issued. *)
Definition Async (A : Type) : Type := Trace -> Outcome A * Trace.

Definition ret {A} (a : A) : Async A := fun _ => (Resolved a, []).

Definition throw {A} (message : string) : Async A := fun _ => (Rejected message, []).

Definition bind {A B} (m : Async A) (k : A -> Async B) : Async B :=
  fun h =>
    match m h with
    | (Resolved a, s) => let (o, s') := k a (h ++ s) in (o, s ++ s')
    | (Rejected e, s) => (Rejected e, s)
    | (Pending, s) => (Pending, s)
    end.

(** [try { m } catch (error) { handler error }] *)
Definition tryCatch {A} (m : Async A) (handler : string -> Async A) : Async A :=
  fun h =>
    match m h with
    | (Rejected e, s) => let (o, s') := handler e (h ++ s) in (o, s ++ s')
    | r => r
    end.

(** A synchronous computation inside an asynchronous one. *)
Definition lift {A} (c : Completion A) : Async A :=
  match c with
  | Normal a => ret a
  | Throw e => throw e
  end.

(** [await p] for a promise that already exists. *)
Definition await {A} (p : Outcome A) : Async A := fun _ => (p, []).

Definition cbind {A B} (c : Completion A) (k : A -> Completion B) : Completion B :=
  match c with
  | Normal a => k a
  | Throw e => Throw e
  end.

Declare Scope async_scope.
Delimit Scope async_scope with async.
Notation "x <- m ;; k" := (bind m (fun x => k))
  (at level 61, m at next level, right associativity) : async_scope.
Notation "'do' x <- c ; k" := (cbind c (fun x => k))
  (at level 61, x name, c at next level, right associativity) : async_scope.
Local Open Scope async_scope.

(** The promises made by [array.map(f)] when [f] returns a promise: every
    element is visited, whatever becomes of the promises made before. *)
Fixpoint mapPromises {A B} (f : A -> Async B) (l : list A) (h : Trace)
  : list (Outcome B) * Trace :=
  match l with
  | [] => ([], [])
  | x :: xs =>
      let (p, s) := f x h in
      let (ps, s') := mapPromises f xs (h ++ s) in
      (p :: ps, s ++ s')
  end.

Fixpoint firstRejection {A} (ps : list (Outcome A)) : option string :=
  match ps with
  | [] => None
  | Rejected e :: _ => Some e
  | _ :: rest => firstRejection rest
  end.

Fixpoint allResolved {A} (ps : list (Outcome A)) : option (list A) :=
  match ps with
  | [] => Some []
  | Resolved a :: rest => option_map (cons a) (allResolved rest)
  | _ :: _ => None
  end.

(** [Promise.all(ps)]: rejected as soon as one promise is, resolved when all
    are, pending otherwise.  The order in which promises settle is not
    modelled: the rejection reported is that of the first rejected promise of
    the array. *)
Definition Promise_all {A} (ps : list (Outcome A)) : Outcome (list A) :=
  match firstRejection ps with
  | Some e => Rejected e
  | None =>
      match allResolved ps with
      | Some vs => Resolved vs
      | None => Pending
      end
  end.

(** ** The platform *)

Section Platform.

Variable env : Env.

(** [new URL(x)]: the argument is converted to a string and parsed; an
    unparsable input is a [TypeError]. *)
Definition new_URL (x : UrlArg) : Completion URL :=
  let input :=
    match x with
    | ArgString s => s
    | ArgURL u => href u
    | ArgUndefined => "undefined"
    end in
  match parseURL env input with
  | Some u => Normal u
  | None => Throw (msgInvalidURL (engine env))
  end.

(** The global [fetch(url, { headers, signal })].  With a signal
    that is aborted after [budget] milliseconds the promise is rejected
    unless the network settles it before. *)
Definition fetch (url : string) (headers : Headers) (signal : option N) : Async Response :=
  fun h =>
    let reply := network env h url headers in
    let settled :=
      match arrival reply with
      | Normal r => Resolved r
      | Throw e => Rejected e
      end in
    (match signal, latency reply with
     | None, Some _ => settled
     | None, None => Pending
     | Some budget, Some ms =>
         if (ms <? budget)%N then settled else Rejected (msgAborted (engine env))
     | Some budget, None => Rejected (msgAborted (engine env))
     end,
     [CallFetch url headers signal]).

Definition Math_random_suffix : Async string :=
  fun h => (Resolved (randomSuffix env h), []).

Definition Date_now_iso : Async string :=
  fun h => (Resolved (now env h), []).

End Platform.

(** ** [src/background/list-converter.js] *)

Record HttpClient : Type := mkHttpClient { timeout : N }.

(** [new HttpClient()]: [constructor(timeout = 5000)] *)
Definition new_HttpClient : HttpClient := {| timeout := 5000%N |}.

Record ListConverter : Type := mkListConverter {
  httpClient : HttpClient;
  CONTENT_TYPE_JSON : string
}.

(** [new ListConverter(agent)]; the agent is the one of the environment. *)
Definition new_ListConverter : ListConverter :=
  {| httpClient := new_HttpClient; CONTENT_TYPE_JSON := "application/json" |}.

Record ListConfig : Type := mkListConfig {
  name : string;
  description : option string
}.

Record AddUsersParams : Type := mkAddUsersParams {
  listUri : string;
  users : list ListItemView
}.

(** The argument of [createRecord] in [#createBskyList] *)
Definition listRequest (repo : string) (config : ListConfig) (suffix createdAt : string)
  : CreateRecordReq :=
  {| repo := repo;
     collection := "app.bsky.graph.list";
     record := ListRecord "app.bsky.graph.defs#curatelist"
                          (name config ++ " - " ++ suffix)%string
                          (description config)
                          createdAt |}.

(** The argument of [createRecord] in [#addUsersToList] *)
Definition listItemRequest (repo : string) (user : ListItemView) (listUri createdAt : string)
  : CreateRecordReq :=
  {| repo := repo;
     collection := "app.bsky.graph.listitem";
     record := ListItemRecord (did (subject user)) listUri createdAt |}.

Section ListConverter.

Variable env : Env.

(** [HttpClient.fetch(url, options)] with [options = { headers }].
    The body is read by [return response.json()], which is not awaited inside
    the [try]: its rejection is not rewritten by the [catch]. *)
Definition HttpClient_fetch (this : HttpClient) (url : string) (headers : Headers)
  : Async Json :=
  response <-
    tryCatch
      (response <- fetch env url headers (Some (timeout this)) ;;
       if negb (ok response)
       then throw ("HTTP error! status: " ++ Js.showNat (status response))%string
       else ret response)
      (fun error => throw ("Network request failed: " ++ error)%string) ;;
  await (json response).

Definition fetchStarterPackRedirect (this : ListConverter) (code : string)
  : Async Json :=
  HttpClient_fetch (httpClient this) ("https://go.bsky.app/" ++ code)%string
                   [("accept", CONTENT_TYPE_JSON this)].

(** [#getShortCode(url)].  After the length check [segments[1]] is defined;
    the default of [nth] is never returned. *)
Definition getShortCode (url : URL) : Completion string :=
  if negb (Js.nonEmpty (pathname url)) then Throw "Invalid URL object"
  else
    let segments := Js.segmentsOf (pathname url) in
    if (length segments <? 2)%nat then Throw "Invalid URL path structure"
    else Normal (nth 1 segments "").

(** [#getAtUri(starterPackUrl)] *)
Definition getAtUri (starterPackUrl : UrlArg) : Completion string :=
  do url <- new_URL env starterPackUrl ;
  let segments := Js.segmentsOf (pathname url) in
  let handleOrDid := Js.index segments 1 in
  let rkey := Js.index segments 2 in
  Normal ("at://" ++ Js.interpolate handleOrDid
            ++ "/app.bsky.graph.list/" ++ Js.interpolate rkey)%string.

(** [starterPackRedirect.url] as an argument of [new URL] *)
Definition redirectTarget (body : Json) : UrlArg :=
  match json_url body with
  | Some s => ArgString s
  | None => ArgUndefined
  end.

(** [#getStarterPackUri(url)] *)
Definition getStarterPackUri (this : ListConverter) (url : URL) : Async string :=
  if Js.startsWith (pathname url) "/starter-pack-short/" then
    shortCode <- lift (getShortCode url) ;;
    starterPackRedirect <- fetchStarterPackRedirect this shortCode ;;
    lift (getAtUri (redirectTarget starterPackRedirect))
  else
    lift (getAtUri (ArgURL url)).

(** [#getStarterPack(atUri)]: [data.starterPack] of the agent's reply *)
Definition getStarterPack (atUri : string) : Async StarterPackView :=
  fun h => (agent_getStarterPack env h atUri, [CallGetStarterPack atUri]).

(** [#getList(atUri)]: [data] of the agent's reply *)
Definition getList (atUri : string) : Async ListData :=
  fun h => (agent_getList env h atUri, [CallGetList atUri]).

(** [agent.com.atproto.repo.createRecord(req)], then [response.data] *)
Definition createRecord (req : CreateRecordReq) : Async RecordRef :=
  fun h => (agent_createRecord env h req, [CallCreateRecord req]).

(** [#createBskyList(config)] *)
Definition createBskyList (config : ListConfig) : Async RecordRef :=
  repo <- lift (assertDid env) ;;
  suffix <- Math_random_suffix env ;;
  createdAt <- Date_now_iso env ;;
  createRecord (listRequest repo config suffix createdAt).

(** The callback of [params.users.map] in [#addUsersToList].  It is not an
    [async] function and does not await: its [try] covers the evaluation of
    the request and the call itself, and what it returns is the promise of
    [createRecord], whose rejection the [catch] does not see.  When building
    the request throws, the callback returns a rejected promise instead. *)
Definition addUser (listUri : string) (user : ListItemView) : Async RecordRef :=
  fun h =>
    match (do repo <- assertDid env ;
           Normal (listItemRequest repo user listUri (now env h))) with
    | Normal req => createRecord req h
    | Throw error =>
        (Rejected ("Error adding user " ++ did (subject user)
                     ++ " to list: " ++ error)%string, [])
    end.

(** [#addUsersToList(params)].  The [catch] block starts by logging a
    message built from the identifier [listUri], which is bound nowhere in
    the module (the parameter is [params]): evaluating it raises a
    [ReferenceError], and [throw error] is not reached. *)
Definition addUsersToList (params : AddUsersParams) : Async unit :=
  fun h =>
    let (addUserPromises, s) := mapPromises (addUser (listUri params)) (users params) h in
    let (o, s') :=
      tryCatch
        (_ <- await (Promise_all addUserPromises) ;; ret tt)
        (fun error =>
           _ <- @throw unit (msgNotDefined (engine env) "listUri") ;;
           throw error)
        (h ++ s) in
    (o, s ++ s').

(** [starterPack.list.uri] *)
Definition starterPackListUri (starterPack : StarterPackView) : Completion string :=
  match sp_list starterPack with
  | Some l => Normal (listref_uri l)
  | None => Throw (msgReadOfUndefined (engine env) "uri")
  end.

(** [createListFromStarterPack(url)] *)
Definition createListFromStarterPack (this : ListConverter) (url : URL)
  : Async RecordRef :=
  tryCatch
    (atUri <- getStarterPackUri this url ;;
     starterPack <- getStarterPack atUri ;;
     listAtUri <- lift (starterPackListUri starterPack) ;;
     listData <- getList listAtUri ;;
     newList <- createBskyList
                  {| name := list_name (data_list listData);
                     description := list_description (data_list listData) |} ;;
     _ <- addUsersToList {| listUri := uri newList; users := items listData |} ;;
     ret newList)
    (fun error => throw ("Failed to create list: " ++ error)%string).

End ListConverter.

(** ** The message handler of the background service *)

Section MessageHandler.

Variable env : Env.

(** [createResponse = (success, data = null, error = null) => ...] *)
Definition createResponse (success : bool) (data : option ListPayload)
           (error : option string) : HandlerResponse :=
  {| success := success; data := data; error := error |}.

(** [sender?.tab?.url] *)
Definition senderTabUrl (sender : Sender) : UrlArg :=
  match tab sender with
  | Some t =>
      match tab_url t with
      | Some s => ArgString s
      | None => ArgUndefined
      end
  | None => ArgUndefined
  end.

(** [isStarterPackUrl(url)] *)
Definition isStarterPackUrl (url : UrlArg) : Completion bool :=
  do urlObj <- new_URL env url ;
  Normal (String.eqb (hostname urlObj) "bsky.app"
          && (Js.startsWith (pathname urlObj) "/starter-pack/"
              || Js.startsWith (pathname urlObj) "/starter-pack-short/"
              || Js.startsWith (pathname urlObj) "/start/")).

(** [this.auth.init()], that is [oauthClient.init()] *)
Definition auth_init : Async (option Session) :=
  fun h => (oauth_init env h, [CallOAuthInit]).

(** [const { session } = ...]: destructuring [undefined] is a [TypeError]. *)
Definition destructureSession (result : option Session) : Completion Session :=
  match result with
  | Some s => Normal s
  | None => Throw (msgDestructureUndefined (engine env) "session")
  end.

(** [handleCreateList(sender)].  The agent built from the session is the
    one of the environment. *)
Definition handleCreateList (sender : Sender) : Async HandlerResponse :=
  isPack <- lift (isStarterPackUrl (senderTabUrl sender)) ;;
  if negb isPack then ret (createResponse false None (Some "Invalid URL"))
  else
    tryCatch
      (result <- auth_init ;;
       _ <- lift (destructureSession result) ;;
       let listConverter := new_ListConverter in
       url <- lift (new_URL env (senderTabUrl sender)) ;;
       newList <- createListFromStarterPack env listConverter url ;;
       ret (createResponse true (Some {| payload_list := newList |}) None))
      (fun error => ret (createResponse false None (Some error))).

End MessageHandler.

(** ** [scripts/background.js]: the navigation listener

    The script that runs on [chrome.webNavigation.onCompleted] resolves the
    page it is given and logs the list.  Its [isStarterPackUrl],
    [getShortCode] and [getAtUri] are those above, word for word; its reads
    go through the global [fetch]. *)

(** The [details] of a navigation event. *)
Record NavigationDetails : Type := mkNavigationDetails { details_url : string }.

Module Navigation.

Section Listener.

Variable env : Env.

(** [fetchStarterPackRedirect(code)]: the [catch] logs and rethrows. *)
Definition fetchStarterPackRedirect (code : string) : Async Json :=
  tryCatch
    (response <- fetch env ("https://go.bsky.app/" ++ code)%string
                       [("accept", "application/json")] None ;;
     if negb (ok response)
     then throw ("HTTP error! status: " ++ Js.showNat (status response))%string
     else await (json response))
    (fun error => throw error).

(** [getStarterPack(atUri)]: [data.starterPack] *)
Definition getStarterPack (atUri : string) : Async (option StarterPackView) :=
  response <- fetch env
                ("https://public.api.bsky.app/xrpc/app.bsky.graph.getStarterPack?starterPack="
                   ++ atUri)%string
                [("Content-Type", "application/json")] (Some 5000%N) ;;
  data <- await (json response) ;;
  ret (json_starterPack data).

(** [getList(atUri)]: [data] *)
Definition getList (atUri : string) : Async Json :=
  response <- fetch env
                ("https://public.api.bsky.app/xrpc/app.bsky.graph.getList?list="
                   ++ atUri)%string
                [("Content-Type", "application/json")] (Some 5000%N) ;;
  data <- await (json response) ;;
  ret data.

(** [starterPack.list.uri], where [starterPack] itself may be [undefined] *)
Definition starterPackListUri (starterPack : option StarterPackView)
  : Completion string :=
  match starterPack with
  | Some v => starterPackListUri env v
  | None => Throw (msgReadOfUndefined (engine env) "list")
  end.

(** [listener(details)] *)
Definition listener (details : NavigationDetails) : Async unit :=
  isPack <- lift (isStarterPackUrl env (ArgString (details_url details))) ;;
  if isPack then
    url <- lift (new_URL env (ArgString (details_url details))) ;;
    atUri <-
      (if Js.startsWith (pathname url) "/starter-pack-short/" then
         shortCode <- lift (getShortCode url) ;;
         starterPackRedirect <- fetchStarterPackRedirect shortCode ;;
         lift (getAtUri env (redirectTarget starterPackRedirect))
       else
         lift (getAtUri env (ArgURL url))) ;;
    starterPack <- getStarterPack atUri ;;
    listAtUri <- lift (starterPackListUri starterPack) ;;
    _ <- getList listAtUri ;;
    ret tt
  else ret tt.

End Listener.

End Navigation.

(** ** Test doubles

    A browser-like environment for the scenarios: Chrome's error wording, a
    parser for [http] and [https] addresses, a fixed clock and random
    suffix, an OAuth client with a stored session, and the four remote
    services as parameters. *)

Module Mock.

Definition v8 : Engine :=
  {| msgInvalidURL := "Failed to construct 'URL': Invalid URL";
     msgAborted := "signal is aborted without reason";
     msgReadOfUndefined :=
       fun p => ("Cannot read properties of undefined (reading '" ++ p ++ "')")%string;
     msgDestructureUndefined :=
       fun p => ("Cannot destructure property '" ++ p
                   ++ "' of '(intermediate value)' as it is undefined.")%string;
     msgNotDefined := fun x => (x ++ " is not defined")%string |}.

(** The longest prefix without a character of [stop], and the rest. *)
Fixpoint span (stop : ascii -> bool) (s : string) : string * string :=
  match s with
  | EmptyString => (EmptyString, EmptyString)
  | String c rest =>
      if stop c then (EmptyString, s)
      else let (a, b) := span stop rest in (String c a, b)
  end.

Definition endsHost (c : ascii) : bool :=
  Ascii.eqb c "/" || Ascii.eqb c "?" || Ascii.eqb c "#".

Definition endsPath (c : ascii) : bool :=
  Ascii.eqb c "?" || Ascii.eqb c "#".

(** ASCII letters in lower case, as the scheme and the host are. *)
Definition lowerChar (c : ascii) : ascii :=
  let n := N_of_ascii c in
  if ((65 <=? n) && (n <=? 90))%N then ascii_of_N (n + 32) else c.

Fixpoint lower (s : string) : string :=
  match s with
  | EmptyString => EmptyString
  | String c rest => String (lowerChar c) (lower rest)
  end.

(** The number written by a string of decimal digits. *)
Fixpoint decimal (acc : N) (s : string) : option N :=
  match s with
  | EmptyString => Some acc
  | String c rest =>
      let n := N_of_ascii c in
      if ((48 <=? n) && (n <=? 57))%N then decimal (10 * acc + (n - 48)) rest
      else None
  end.

(** The text before and after the last occurrence of a character. *)
Fixpoint splitLast (c : ascii) (s : string) : option (string * string) :=
  match s with
  | EmptyString => None
  | String d rest =>
      match splitLast c rest with
      | Some (a, b) => Some (String d a, b)
      | None => if Ascii.eqb d c then Some (EmptyString, rest) else None
      end
  end.

(** The scheme of an address, its default port, and what follows [://]. *)
Definition schemeOf (s : string) : option (string * N * string) :=
  if String.eqb (lower (String.substring 0 8 s)) "https://" then
    Some ("https", 443%N, String.substring 8 (String.length s - 8) s)
  else if String.eqb (lower (String.substring 0 7 s)) "http://" then
    Some ("http", 80%N, String.substring 7 (String.length s - 7) s)
  else None.

(** The authority of an address: what stands between [://] and the path,
    user information and port included. *)
Definition authority (s : string) : option string :=
  match schemeOf s with
  | Some (_, _, rest) => Some (fst (span endsHost rest))
  | None => None
  end.

(** The user information of an authority as [href] shows it ([name@],
    [name:password@] or nothing), and what follows it. *)
Definition userinfoOf (auth : string) : string * string :=
  match splitLast "@" auth with
  | Some (user, hostport) =>
      let (name, password) := span (Ascii.eqb ":") user in
      match name, password with
      | EmptyString, (EmptyString | String _ EmptyString) => (EmptyString, hostport)
      | _, (EmptyString | String _ EmptyString) => ((name ++ "@")%string, hostport)
      | _, _ => ((name ++ password ++ "@")%string, hostport)
      end
  | None => (EmptyString, auth)
  end.

(** The host and the port of [host] or [host:port]; the port is a number of
    at most 65535. *)
Definition hostPortOf (hostport : string) : option (string * option N) :=
  match splitLast ":" hostport with
  | Some (host, EmptyString) => Some (host, None)
  | Some (host, digits) =>
      match decimal 0 digits with
      | Some port => if (port <=? 65535)%N then Some (host, Some port) else None
      | None => None
      end
  | None => Some (hostport, None)
  end.

(** What [new URL] makes of an [http] or [https] address
    [scheme://userinfo@host:port/path?query#fragment] written in plain ASCII:
    the scheme and the host are put in lower case, [hostname] is the host
    without user information and port, a port that is the default of the
    scheme is dropped from [href], [pathname] stops before the query and the
    fragment, and an empty path is [/].  Anything else is refused.  What the
    URL standard does beyond that (IP address literals, percent-encoding, dot
    segments, backslashes, white space) is left out: no scenario has such an
    address. *)
Definition parseHttp (s : string) : option URL :=
  match schemeOf s with
  | None => None
  | Some (scheme, defaultPort, afterScheme) =>
      let (auth, rest) := span endsHost afterScheme in
      let (user, hostport) := userinfoOf auth in
      match hostPortOf hostport with
      | None => None
      | Some (host, port) =>
          if Js.nonEmpty host then
            let shownPort :=
              match port with
              | Some n =>
                  if (n =? defaultPort)%N then EmptyString
                  else (":" ++ NilEmpty.string_of_uint (N.to_uint n))%string
              | None => EmptyString
              end in
            let origin := (scheme ++ "://" ++ user ++ lower host ++ shownPort)%string in
            if Js.startsWith rest "/" then
              Some {| href := (origin ++ rest)%string;
                      hostname := lower host;
                      pathname := fst (span endsPath rest) |}
            else
              Some {| href := (origin ++ "/" ++ rest)%string;
                      hostname := lower host;
                      pathname := "/" |}
          else None
      end
  end.

Definition scenario
           (redirector : string -> NetReply)
           (getStarterPack : string -> Outcome StarterPackView)
           (getList : string -> Outcome ListData)
           (createRecord : CreateRecordReq -> Outcome RecordRef) : Env :=
  {| engine := v8;
     parseURL := parseHttp;
     network := fun _ url _ => redirector url;
     randomSuffix := fun _ => "k3x9q";
     now := fun _ => "2024-11-20T10:00:00.000Z";
     oauth_init := fun _ => Resolved (Some {| sub := "did:plc:owner" |});
     assertDid := Normal "did:plc:owner";
     agent_getStarterPack := fun _ => getStarterPack;
     agent_getList := fun _ => getList;
     agent_createRecord := fun _ => createRecord |}.

Definition offline (_ : string) : NetReply :=
  {| latency := Some 10%N; arrival := Throw "Failed to fetch" |}.

Definition redirectsTo (target : string) : Json :=
  {| json_url := Some target; json_starterPack := None;
     json_list := None; json_items := None |}.

Definition answers (body : Json) (_ : string) : NetReply :=
  {| latency := Some 120%N;
     arrival := Normal {| ok := true; status := 200; json := Resolved body |} |}.

Definition packWithList (listUri : string) (_ : string) : Outcome StarterPackView :=
  Resolved {| sp_list := Some {| listref_uri := listUri |} |}.

Definition member (d : string) : ListItemView := {| subject := {| did := d |} |}.

Definition listOf (n : string) (d : option string) (ms : list string) (_ : string)
  : Outcome ListData :=
  Resolved {| data_list := {| list_name := n; list_description := d |};
              items := map member ms |}.

Definition created : RecordRef :=
  {| uri := "at://did:plc:owner/app.bsky.graph.list/new1"; cid := "bafy1" |}.

Definition accepts (_ : CreateRecordReq) : Outcome RecordRef := Resolved created.

(** A service that accepts the list and every member but the given one. *)
Definition refusesMember (d : string) (req : CreateRecordReq) : Outcome RecordRef :=
  match record req with
  | ListItemRecord d' _ _ =>
      if String.eqb d d' then Rejected "Rate Limit Exceeded" else Resolved created
  | ListRecord _ _ _ _ => Resolved created
  end.

Definition pageOf (address : string) : Sender :=
  {| tab := Some {| tab_url := Some address |} |}.

End Mock.

(** ** The components of the design document

    The design document splits [createListFromStarterPack] into a resolver
    chain and a list replicator.  The code has one function; the two slices
    of its body are named here so that statements can refer to them. *)

Section Components.

Variable env : Env.

Definition configOf (sourceList : ListData) : ListConfig :=
  {| name := list_name (data_list sourceList);
     description := list_description (data_list sourceList) |}.

(** Resolver chain: the first three awaits of [createListFromStarterPack]. *)
Definition resolveSource (this : ListConverter) (url : URL) : Async ListData :=
  atUri <- getStarterPackUri env this url ;;
  starterPack <- getStarterPack env atUri ;;
  listAtUri <- lift (starterPackListUri env starterPack) ;;
  getList env listAtUri.

(** List replicator: the rest of the body. *)
Definition replicate (sourceList : ListData) : Async RecordRef :=
  newList <- createBskyList env (configOf sourceList) ;;
  _ <- addUsersToList env {| listUri := uri newList; users := items sourceList |} ;;
  ret newList.

(** The promises held by [addUserPromises]. *)
Definition memberPromises (listUri : string) (users : list ListItemView) (h : Trace)
  : list (Outcome RecordRef) :=
  fst (mapPromises (addUser env listUri) users h).

End Components.

(** ** Observations on a run *)

Definition isRejected {A} (p : Outcome A) : bool :=
  match p with Rejected _ => true | _ => false end.

Definition isResolved {A} (p : Outcome A) : bool :=
  match p with Resolved _ => true | _ => false end.

(** The number of promises of each fate in an array of promises. *)
Definition rejections {A} (ps : list (Outcome A)) : nat := length (filter isRejected ps).
Definition fulfilments {A} (ps : list (Outcome A)) : nat := length (filter isResolved ps).

(** [r[property]] on the [response.data] of [createRecord], the object that
    [#createBskyList] and [createListFromStarterPack] return as it is: it has
    the properties [uri] and [cid] that the record keeps, and a property that
    an object does not have reads as [undefined] ([None]). *)
Definition RecordRef_read (r : RecordRef) (property : string) : option string :=
  if String.eqb property "uri" then Some (uri r)
  else if String.eqb property "cid" then Some (cid r)
  else None.

Definition isMemberCreate (c : Call) : bool :=
  match c with
  | CallCreateRecord req => String.eqb (collection req) "app.bsky.graph.listitem"
  | _ => false
  end.

Definition isListCreate (c : Call) : bool :=
  match c with
  | CallCreateRecord req => String.eqb (collection req) "app.bsky.graph.list"
  | _ => false
  end.

(** A request to the short link redirector. *)
Definition isRedirect (c : Call) : bool :=
  match c with
  | CallFetch url _ _ => Js.startsWith url "https://go.bsky.app/"
  | _ => false
  end.

Definition memberCreateCalls (tr : Trace) : Trace := filter isMemberCreate tr.
Definition listCreateCalls (tr : Trace) : Trace := filter isListCreate tr.
Definition redirectCalls (tr : Trace) : Trace := filter isRedirect tr.

(** The member a member-create call is about. *)
Definition subjectOfCall (c : Call) : option string :=
  match c with
  | CallCreateRecord req =>
      match record req with
      | ListItemRecord d _ _ => Some d
      | ListRecord _ _ _ _ => None
      end
  | _ => None
  end.

(** The redirect request [#fetchStarterPackRedirect] sends for a code. *)
Definition redirectCall (this : ListConverter) (code : string) : Call :=
  CallFetch ("https://go.bsky.app/" ++ code) [("accept", CONTENT_TYPE_JSON this)]
            (Some (timeout (httpClient this))).

(** A read through the SDK agent. *)
Definition isRead (c : Call) : bool :=
  match c with
  | CallGetStarterPack _ | CallGetList _ => true
  | _ => false
  end.

(** The promise an [async] function makes of a synchronous completion. *)
Definition outcomeOf {A} (c : Completion A) : Outcome A :=
  match c with
  | Normal a => Resolved a
  | Throw e => Rejected e
  end.

(** The network does not settle a request within the budget. *)
Definition expires (budget : N) (reply : NetReply) : bool :=
  match latency reply with
  | Some ms => negb (ms <? budget)%N
  | None => true
  end.

(** The budget of the cancellation scope a call is wrapped in, if any. *)
Definition callBudget (c : Call) : option N :=
  match c with
  | CallFetch _ _ signal => signal
  | _ => None
  end.

(** A call made through the SDK agent. *)
Definition isAgentCall (c : Call) : bool :=
  match c with
  | CallGetStarterPack _ | CallGetList _ | CallCreateRecord _ => true
  | _ => false
  end.

(** The stages of the resolver chain in the design document. *)
Inductive Stage : Type := redirect | uriDerivation | packFetch | listFetch.

Section Stages.

Variable env : Env.

(** The stage at which the pack and list fetches fail, if they do. *)
Definition failingFetch (atUri : string) (h : Trace) : option Stage :=
  match getStarterPack env atUri h with
  | (Resolved starterPack, s) =>
      match starterPackListUri env starterPack with
      | Throw _ => Some packFetch
      | Normal listAtUri =>
          match getList env listAtUri (h ++ s) with
          | (Rejected _, _) => Some listFetch
          | _ => None
          end
      end
  | (Rejected _, _) => Some packFetch
  | (Pending, _) => None
  end.

(** The stage of the design document at which the resolver chain fails on a
    page, if it does: [redirect] for the short link request and its body,
    [uriDerivation] for the identifier, [packFetch] for the pack and its
    list reference, [listFetch] for the list.  A short link without a code
    is refused before the chain starts and has no stage. *)
Definition failingStage (this : ListConverter) (url : URL) (h : Trace) : option Stage :=
  if Js.startsWith (pathname url) "/starter-pack-short/" then
    match getShortCode url with
    | Throw _ => None
    | Normal shortCode =>
        match fetchStarterPackRedirect env this shortCode h with
        | (Resolved body, s) =>
            match getAtUri env (redirectTarget body) with
            | Throw _ =>
                match json_url body with
                | None => Some redirect
                | Some _ => Some uriDerivation
                end
            | Normal atUri => failingFetch atUri (h ++ s)
            end
        | (Rejected _, _) => Some redirect
        | (Pending, _) => None
        end
    end
  else
    match getAtUri env (ArgURL url) with
    | Throw _ => Some uriDerivation
    | Normal atUri => failingFetch atUri h
    end.

End Stages.

(** ** Scenarios *)

(** The scenario of the design document: a pack page of [bob] whose list has
    two members. *)
Definition friendsEnv : Env :=
  Mock.scenario Mock.offline
                (Mock.packWithList "at://bob/app.bsky.graph.list/xyz")
                (Mock.listOf "Friends" (Some "d") ["did:1"; "did:2"])
                Mock.accepts.

Definition friendsList : ListData :=
  {| data_list := {| list_name := "Friends"; list_description := Some "d" |};
     items := [Mock.member "did:1"; Mock.member "did:2"] |}.

Definition bobPage : URL :=
  {| href := "https://bsky.app/starter-pack/bob/xyz";
     hostname := "bsky.app";
     pathname := "/starter-pack/bob/xyz" |}.

(** The same, with a service that refuses the second member. *)
Definition flakyEnv : Env :=
  Mock.scenario Mock.offline
                (Mock.packWithList "at://bob/app.bsky.graph.list/xyz")
                (Mock.listOf "Friends" (Some "d") ["did:1"; "did:2"])
                (Mock.refusesMember "did:2").

(** The same, with a service that refuses every record. *)
Definition readOnlyEnv : Env :=
  Mock.scenario Mock.offline
                (Mock.packWithList "at://bob/app.bsky.graph.list/xyz")
                (Mock.listOf "Friends" (Some "d") ["did:1"; "did:2"])
                (fun _ => Rejected "Unauthorized").

(** A source list without members. *)
Definition emptyEnv : Env :=
  Mock.scenario Mock.offline
                (Mock.packWithList "at://bob/app.bsky.graph.list/xyz")
                (Mock.listOf "Friends" (Some "d") [])
                Mock.accepts.

Definition emptyList : ListData :=
  {| data_list := {| list_name := "Friends"; list_description := Some "d" |};
     items := [] |}.

(** The pack service is down. *)
Definition packDownEnv : Env :=
  Mock.scenario Mock.offline
                (fun _ => Rejected "Upstream Failure")
                (Mock.listOf "Friends" (Some "d") ["did:1"; "did:2"])
                Mock.accepts.

(** The list service is down, with the same complaint. *)
Definition listDownEnv : Env :=
  Mock.scenario Mock.offline
                (Mock.packWithList "at://bob/app.bsky.graph.list/xyz")
                (fun _ => Rejected "Upstream Failure")
                Mock.accepts.

(** The pack service never answers. *)
Definition stalledEnv : Env :=
  Mock.scenario Mock.offline
                (fun _ => Pending)
                (Mock.listOf "Friends" (Some "d") ["did:1"; "did:2"])
                Mock.accepts.

(** The short link of the design document: code [xyz789] leads to a pack
    page of [carol]. *)
Definition carolEnv : Env :=
  Mock.scenario
    (Mock.answers (Mock.redirectsTo "https://bsky.app/starter-pack/carol/k1"))
    (Mock.packWithList "at://carol/app.bsky.graph.list/k1")
    (Mock.listOf "Friends" (Some "d") ["did:1"; "did:2"])
    Mock.accepts.

Definition shortPage : URL :=
  {| href := "https://bsky.app/starter-pack-short/xyz789";
     hostname := "bsky.app";
     pathname := "/starter-pack-short/xyz789" |}.

(** The redirector answers after six seconds. *)
Definition slowRedirectEnv : Env :=
  Mock.scenario
    (fun _ =>
       {| latency := Some 6000%N;
          arrival := Normal {| ok := true; status := 200;
                               json := Resolved (Mock.redirectsTo
                                 "https://bsky.app/starter-pack/carol/k1") |} |})
    (Mock.packWithList "at://carol/app.bsky.graph.list/k1")
    (Mock.listOf "Friends" (Some "d") ["did:1"; "did:2"])
    Mock.accepts.

(** The public read API behind the global [fetch], for the navigation
    script: the pack of [bob] and its list. *)
Definition publicApi (url : string) : NetReply :=
  if Js.startsWith url "https://public.api.bsky.app/xrpc/app.bsky.graph.getStarterPack?"
  then
    {| latency := Some 80%N;
       arrival := Normal
         {| ok := true; status := 200;
            json := Resolved
              {| json_url := None;
                 json_starterPack :=
                   Some {| sp_list := Some {| listref_uri := "at://bob/app.bsky.graph.list/xyz" |} |};
                 json_list := None; json_items := None |} |} |}
  else if Js.startsWith url "https://public.api.bsky.app/xrpc/app.bsky.graph.getList?"
  then
    {| latency := Some 90%N;
       arrival := Normal
         {| ok := true; status := 200;
            json := Resolved
              {| json_url := None; json_starterPack := None;
                 json_list := Some (data_list friendsList);
                 json_items := Some (items friendsList) |} |} |}
  else Mock.offline url.

Definition navigationEnv : Env :=
  Mock.scenario publicApi
                (fun _ => Rejected "not used")
                (fun _ => Rejected "not used")
                (fun _ => Rejected "not used").

(** The pack page of [bob] served on another port: the authority of the
    address is [bsky.app:8443], its host name [bsky.app]. *)
Definition otherPortAddress : string := "https://bsky.app:8443/starter-pack/bob/xyz".

(** A pack address without handle and key. *)
Definition barePage : URL :=
  {| href := "https://bsky.app/starter-pack/";
     hostname := "bsky.app";
     pathname := "/starter-pack/" |}.

(** A message that does not come from a tab. *)
Definition noTab : Sender := {| tab := None |}.

(** A redirector whose answer has no [url]. *)
Definition emptyJson : Json :=
  {| json_url := None; json_starterPack := None; json_list := None; json_items := None |}.

Definition silentRedirectEnv : Env :=
  Mock.scenario (Mock.answers emptyJson)
                (fun _ => Pending) (fun _ => Pending) (fun _ => Pending).

(** The scenario of the design document without a stored session: the OAuth
    client resolves with [undefined]. *)
Definition loggedOutEnv : Env :=
  {| engine := engine friendsEnv;
     parseURL := parseURL friendsEnv;
     network := network friendsEnv;
     randomSuffix := randomSuffix friendsEnv;
     now := now friendsEnv;
     oauth_init := fun _ => Resolved None;
     assertDid := assertDid friendsEnv;
     agent_getStarterPack := agent_getStarterPack friendsEnv;
     agent_getList := agent_getList friendsEnv;
     agent_createRecord := agent_createRecord friendsEnv |}.

(** A request that the navigation script can send: a [fetch] addressed to the
    short link redirector, or to the [getStarterPack] or the [getList] query
    of the public API. *)
Definition isNavigationRequest (c : Call) : bool :=
  match c with
  | CallFetch url _ _ =>
      Js.startsWith url "https://go.bsky.app/"
      || Js.startsWith
           url "https://public.api.bsky.app/xrpc/app.bsky.graph.getStarterPack?starterPack="
      || Js.startsWith url "https://public.api.bsky.app/xrpc/app.bsky.graph.getList?list="
  | _ => false
  end.

(** The address of the pack read of the navigation script. *)
Definition packReadUrl (atUri : string) : string :=
  "https://public.api.bsky.app/xrpc/app.bsky.graph.getStarterPack?starterPack=" ++ atUri.

(** A public API that answers after seven seconds. *)
Definition slowApiEnv : Env :=
  Mock.scenario
    (fun url => {| latency := Some 7000%N; arrival := arrival (publicApi url) |})
    (fun _ => Rejected "not used")
    (fun _ => Rejected "not used")
    (fun _ => Rejected "not used").

(** A redirector that never answers. *)
Definition deadRedirectorEnv : Env :=
  Mock.scenario
    (fun url => {| latency := None; arrival := Throw "Failed to fetch" |})
    (fun _ => Rejected "not used")
    (fun _ => Rejected "not used")
    (fun _ => Rejected "not used").

(** * The session layer

    The rest of the background service keeps two entries in
    [chrome.storage.local]: the subject of the OAuth session, written by the
    OAuth client, and the profile of the user, written by the message
    handler.  The code of this layer is run on a world made of the storage
    area and of the history of the calls to the OAuth library, to the
    identity API of the browser and to the agent; what those answer is given
    by [AuthEnv], and may depend on the history.  Requests on the storage area
    itself succeed. *)

(** ** [chrome.storage.local] *)

(** [data] of [agent.getProfile]. *)
Record Profile : Type := mkProfile {
  profile_did : string;
  profile_handle : string;
  profile_displayName : option string;
  profile_avatar : option string
}.

(** A value kept in the storage area. *)
Inductive StoredValue : Type :=
| StoredString (s : string)
| StoredProfile (p : Profile).

(** [if (v)], [!v]: [undefined] and the empty string are falsy. *)
Definition truthy (v : option StoredValue) : bool :=
  match v with
  | None => false
  | Some (StoredString s) => Js.nonEmpty s
  | Some (StoredProfile _) => true
  end.

Definition LocalStorage : Type := list (string * StoredValue).

(** [(await chrome.storage.local.get(key))[key]] *)
Fixpoint local_get (key : string) (area : LocalStorage) : option StoredValue :=
  match area with
  | [] => None
  | (k, v) :: rest => if String.eqb k key then Some v else local_get key rest
  end.

(** [chrome.storage.local.remove(key)] *)
Definition local_remove (key : string) (area : LocalStorage) : LocalStorage :=
  filter (fun kv => negb (String.eqb (fst kv) key)) area.

(** [chrome.storage.local.set({ [key]: value })] *)
Definition local_set (key : string) (value : StoredValue) (area : LocalStorage)
  : LocalStorage :=
  (key, value) :: local_remove key area.

(** ** Calls of the session layer *)

(** [{ session, state }] of [OAuthClient.callback]. *)
Record CallbackResult : Type := mkCallbackResult {
  cb_session : Session;
  cb_state : option string
}.

Inductive AuthCall : Type :=
| CallRestore (stored : StoredValue) (refresh : option bool)  (* [super.restore] *)
| CallCallback (params : string)                              (* [super.callback] *)
| CallRevoke (stored : string)                                (* [super.revoke] *)
| CallSignOut (session : Session)                             (* [session.signOut()] *)
| CallGetProfile (actor : string)                             (* [agent.getProfile] *)
| CallAuthorize (input : option string)                       (* [oauthClient.authorize] *)
| CallLaunchWebAuthFlow (url : string).                       (* [chrome.identity] *)

Record AuthEnv : Type := mkAuthEnv {
  auth_engine : Engine;
  super_restore : list AuthCall -> StoredValue -> option bool -> Outcome Session;
  super_callback : list AuthCall -> string -> Outcome CallbackResult;
  super_revoke : list AuthCall -> string -> Outcome unit;
  session_signOut : list AuthCall -> Session -> Outcome unit;
  agent_assertDid : Session -> Completion string;
  agent_getProfile : list AuthCall -> string -> Outcome Profile;
  super_authorize : list AuthCall -> option string -> Outcome string;
  launchWebAuthFlow : list AuthCall -> string -> Outcome (option string);
  urlHash : string -> option string   (* [new URL(s).hash]; [None]: unparsable *)
}.

Record World : Type := mkWorld {
  area : LocalStorage;
  history : list AuthCall
}.

(** ** Jobs: asynchronous code over a world *)

(** A job is run in a world and yields the fate of its promise and the world
    it leaves, also when it fails. *)
Definition Job (A : Type) : Type := World -> Outcome A * World.

Definition jret {A} (a : A) : Job A := fun w => (Resolved a, w).

Definition jthrow {A} (message : string) : Job A := fun w => (Rejected message, w).

Definition jbind {A B} (m : Job A) (k : A -> Job B) : Job B :=
  fun w =>
    match m w with
    | (Resolved a, w') => k a w'
    | (Rejected e, w') => (Rejected e, w')
    | (Pending, w') => (Pending, w')
    end.

(** [try { m } catch (error) { handler error }] *)
Definition jtry {A} (m : Job A) (handler : string -> Job A) : Job A :=
  fun w =>
    match m w with
    | (Rejected e, w') => handler e w'
    | r => r
    end.

Definition jlift {A} (c : Completion A) : Job A :=
  match c with
  | Normal a => jret a
  | Throw e => jthrow e
  end.

(** A call to the outside: it is answered from the history before it and
    added to the history. *)
Definition ask {A} (c : AuthCall) (answer : list AuthCall -> Outcome A) : Job A :=
  fun w => (answer (history w), {| area := area w; history := history w ++ [c] |}).

Declare Scope job_scope.
Delimit Scope job_scope with job.
Notation "x <~ m ;; k" := (jbind m (fun x => k))
  (at level 61, m at next level, right associativity) : job_scope.
Local Open Scope job_scope.

(** ** [utils/chrome-extension-storage.js] *)

Record ChromeExtensionStorage : Type := mkChromeExtensionStorage { namespace : string }.

(** [`${this.namespace}(${key})`] *)
Definition storageKey (this : ChromeExtensionStorage) (key : string) : string :=
  (namespace this ++ "(" ++ key ++ ")")%string.

Definition getValue (this : ChromeExtensionStorage) (key : string)
  : Job (option StoredValue) :=
  fun w => (Resolved (local_get (storageKey this key) (area w)), w).

Definition setValue (this : ChromeExtensionStorage) (key : string) (value : StoredValue)
  : Job unit :=
  fun w => (Resolved tt,
            {| area := local_set (storageKey this key) value (area w);
               history := history w |}).

Definition removeValue (this : ChromeExtensionStorage) (key : string) : Job unit :=
  fun w => (Resolved tt,
            {| area := local_remove (storageKey this key) (area w);
               history := history w |}).

(** ** [oauth/chrome-extension-oauth-client.js] *)

Module OAuthClient.

(** [NAMESPACE] *)
Definition NAMESPACE : string := "@@oauth-client-chrome-extension".

(** [this.storage = new ChromeExtensionStorage(NAMESPACE)] *)
Definition storage : ChromeExtensionStorage := {| namespace := NAMESPACE |}.

Section Client.

Variable env : AuthEnv.

(** [restore(sub, refresh)] *)
Definition restore (stored : StoredValue) (refresh : option bool) : Job Session :=
  session <~ ask (CallRestore stored refresh)
                 (fun past => super_restore env past stored refresh) ;;
  _ <~ setValue storage "sub" (StoredString (sub session)) ;;
  jret session.

(** [init(refresh)]: [{ session }], or [undefined] when no subject is
    stored. *)
Definition init (refresh : option bool) : Job (option Session) :=
  stored <~ getValue storage "sub" ;;
  match stored with
  | Some v =>
      if truthy stored then
        jtry (session <~ restore v refresh ;; jret (Some session))
             (fun err => _ <~ removeValue storage "sub" ;; jthrow err)
      else jret None
  | None => jret None
  end.

(** [callback(params)] *)
Definition callback (params : string) : Job CallbackResult :=
  result <~ ask (CallCallback params) (fun past => super_callback env past params) ;;
  _ <~ setValue storage "sub" (StoredString (sub (cb_session result))) ;;
  jret result.

(** [revoke(sub)] *)
Definition revoke (stored : string) : Job unit :=
  _ <~ removeValue storage "sub" ;;
  ask (CallRevoke stored) (fun past => super_revoke env past stored).

End Client.

End OAuthClient.

(** ** [background/auth.js] *)

Module BskyAuth.

(** The configuration read from [process.env]: a field is a string or
    [undefined]. *)
Record Config : Type := mkConfig {
  serverUrl : option string;
  redirectUri : option string;
  clientId : option string;
  handleResolver : option string
}.

(** [config[field]] *)
Definition field (config : Config) (name : string) : option string :=
  if String.eqb name "serverUrl" then serverUrl config
  else if String.eqb name "redirectUri" then redirectUri config
  else if String.eqb name "clientId" then clientId config
  else if String.eqb name "handleResolver" then handleResolver config
  else None.

(** [!value] *)
Definition falsy (value : option string) : bool :=
  match value with
  | Some s => negb (Js.nonEmpty s)
  | None => true
  end.

(** [array.join(sep)] *)
Fixpoint join (sep : string) (l : list string) : string :=
  match l with
  | [] => ""
  | [x] => x
  | x :: rest => (x ++ sep ++ join sep rest)%string
  end.

Definition requiredFields : list string :=
  ["serverUrl"; "redirectUri"; "clientId"; "handleResolver"].

(** [missingFields] of [validateConfig] *)
Definition missingFields (config : Config) : list string :=
  filter (fun name => falsy (field config name)) requiredFields.

(** [validateConfig(config)] *)
Definition validateConfig (config : Config) : Completion unit :=
  if (0 <? length (missingFields config))%nat
  then Throw ("Missing required configuration: " ++ join ", " (missingFields config))%string
  else Normal tt.

(** A [BskyAuth] object. *)
Record t : Type := mk { config : Config }.

(** [new BskyAuth(config)] *)
Definition new (config : Config) : Completion t :=
  do _ <- validateConfig config ;
  Normal {| config := config |}.

Section Auth.

Variable env : AuthEnv.

(** [init()] *)
Definition init (this : t) : Job (option Session) := OAuthClient.init env None.

(** [#handleOAuthCallback(redirectUrl)].  [new URLSearchParams(...)] is an
    object, so the test on [hashParams] never fires; the parameters are
    represented by the string they are parsed from. *)
Definition handleOAuthCallback (this : t) (redirectUrl : option string)
  : Job CallbackResult :=
  match redirectUrl with
  | Some r =>
      if Js.nonEmpty r then
        hash <~ jlift (match urlHash env r with
                       | Some hash => Normal hash
                       | None => Throw (msgInvalidURL (auth_engine env))
                       end) ;;
        let hashParams := String.substring 1 (String.length hash - 1) hash in
        result <~ OAuthClient.callback env hashParams ;;
        jret {| cb_session := cb_session result; cb_state := cb_state result |}
      else jthrow "no redirect url present"
  | None => jthrow "no redirect url present"
  end.

(** [startOAuthFlow()]: the [catch] logs and rethrows. *)
Definition startOAuthFlow (this : t) : Job CallbackResult :=
  jtry
    (authUrl <~ ask (CallAuthorize (handleResolver (config this)))
                    (fun past => super_authorize env past (handleResolver (config this))) ;;
     authResult <~ ask (CallLaunchWebAuthFlow authUrl)
                       (fun past => launchWebAuthFlow env past authUrl) ;;
     handleOAuthCallback this authResult)
    (fun error => jthrow error).

End Auth.

End BskyAuth.

(** ** The session handlers of [MessageHandler] *)

(** [{ profile }] *)
Record ProfilePayload : Type := mkProfilePayload {
  payload_profile : option StoredValue
}.

(** The response of the session handlers: [data] is [{ profile }] or [null]. *)
Record SessionResponse : Type := mkSessionResponse {
  session_success : bool;
  session_data : option ProfilePayload;
  session_error : option string
}.

(** [createResponse(success, data = null, error = null)] for these handlers *)
Definition createSessionResponse (success : bool) (data : option ProfilePayload)
           (error : option string) : SessionResponse :=
  {| session_success := success; session_data := data; session_error := error |}.

(** [NAMESPACE] of the background service *)
Definition HANDLER_NAMESPACE : string := "@@sp-to-list-chrome-extension".

(** A [MessageHandler] object. *)
Record MessageHandler : Type := mkMessageHandler {
  auth : BskyAuth.t;
  storage : ChromeExtensionStorage
}.

(** [new MessageHandler()], for the configuration found in [process.env] *)
Definition new_MessageHandler (processEnv : BskyAuth.Config) : Completion MessageHandler :=
  do a <- BskyAuth.new processEnv ;
  Normal {| auth := a; storage := {| namespace := HANDLER_NAMESPACE |} |}.

Section SessionHandlers.

Variable env : AuthEnv.

(** [fetchProfile(forceRefresh = false)]: the profile, or [null]. *)
Definition fetchProfile (this : MessageHandler) (forceRefresh : bool)
  : Job (option StoredValue) :=
  profile <~ getValue (storage this) "profile" ;;
  if negb (truthy profile) || forceRefresh then
    result <~ BskyAuth.init env (auth this) ;;
    match result with
    | Some session =>
        actor <~ jlift (agent_assertDid env session) ;;
        data <~ ask (CallGetProfile actor) (fun past => agent_getProfile env past actor) ;;
        _ <~ setValue (storage this) "profile" (StoredProfile data) ;;
        jret (Some (StoredProfile data))
    | None => jret None
    end
  else jret profile.

(** [clearProfile()] *)
Definition clearProfile (this : MessageHandler) : Job unit :=
  removeValue (storage this) "profile".

(** [handleSessionStatus()] *)
Definition handleSessionStatus (this : MessageHandler) : Job SessionResponse :=
  jtry
    (profile <~ fetchProfile this false ;;
     jret (createSessionResponse true (Some {| payload_profile := profile |}) None))
    (fun error => jret (createSessionResponse false None (Some error))).

(** [handleLogout()] *)
Definition handleLogout (this : MessageHandler) : Job SessionResponse :=
  result <~ BskyAuth.init env (auth this) ;;
  _ <~ match result with
       | Some session =>
           ask (CallSignOut session) (fun past => session_signOut env past session)
       | None => jret tt
       end ;;
  _ <~ clearProfile this ;;
  jret (createSessionResponse true None None).

(** [handleAuthenticate()].  [startOAuthFlow] resolves with an object that
    has a session, so the test on [result?.session] holds whenever it is
    reached. *)
Definition handleAuthenticate (this : MessageHandler) : Job SessionResponse :=
  jtry
    (result <~ BskyAuth.startOAuthFlow env (auth this) ;;
     profile <~ fetchProfile this true ;;
     jret (createSessionResponse true (Some {| payload_profile := profile |}) None))
    (fun error => jret (createSessionResponse false None (Some error))).

End SessionHandlers.

(** The names under which the two entries are kept. *)
Definition subKey : string := storageKey OAuthClient.storage "sub".
Definition profileKey : string :=
  storageKey {| namespace := HANDLER_NAMESPACE |} "profile".

(** The fate of a session handler that answers: not a rejection, and when
    resolved, a response of one of the two shapes. *)
Definition wellFormedAnswer (o : Outcome SessionResponse) : Prop :=
  match o with
  | Resolved r =>
      (session_success r = true
       /\ (exists payload, session_data r = Some payload)
       /\ session_error r = None)
      \/ (session_success r = false
          /\ session_data r = None
          /\ exists e, session_error r = Some e)
  | Rejected _ => False
  | Pending => True
  end.

(** ** Scenarios of the session layer *)

Definition completeConfig : BskyAuth.Config :=
  {| BskyAuth.serverUrl := Some "https://example.org";
     BskyAuth.redirectUri := Some "https://abc.chromiumapp.org/";
     BskyAuth.clientId := Some "https://example.org/client-metadata.json";
     BskyAuth.handleResolver := Some "https://bsky.social" |}.

Definition theHandler : MessageHandler :=
  {| auth := {| BskyAuth.config := completeConfig |};
     storage := {| namespace := HANDLER_NAMESPACE |} |}.

Definition aliceSession : Session := {| sub := "did:plc:alice" |}.

Definition aliceProfile : Profile :=
  {| profile_did := "did:plc:alice";
     profile_handle := "alice.test";
     profile_displayName := Some "Alice";
     profile_avatar := None |}.

(** An OAuth library and an agent that know [alice]: her session is
    restored, her profile is served, the authorization window comes back with
    a code. *)
Definition aliceAuthEnv : AuthEnv :=
  {| auth_engine := Mock.v8;
     super_restore := fun _ _ _ => Resolved aliceSession;
     super_callback := fun _ _ => Resolved {| cb_session := aliceSession;
                                              cb_state := None |};
     super_revoke := fun _ _ => Resolved tt;
     session_signOut := fun _ _ => Resolved tt;
     agent_assertDid := fun session => Normal (sub session);
     agent_getProfile := fun _ _ => Resolved aliceProfile;
     super_authorize := fun _ _ => Resolved "https://bsky.social/oauth/authorize?request_uri=r1";
     launchWebAuthFlow :=
       fun _ _ => Resolved (Some "https://abc.chromiumapp.org/#code=c1&state=s1");
     urlHash := fun s => if Js.startsWith s "https://abc.chromiumapp.org/"
                         then Some "#code=c1&state=s1" else None |}.

(** The same, after the session has been revoked on the server: restoring
    fails, signing out fails, and the user closes the authorization window. *)
Definition revokedAuthEnv : AuthEnv :=
  {| auth_engine := Mock.v8;
     super_restore := fun _ _ _ => Rejected "The session was deleted by another process";
     super_callback := fun _ _ => Rejected "Unknown authorization session";
     super_revoke := fun _ _ => Rejected "Failed to fetch";
     session_signOut := fun _ _ => Rejected "Failed to fetch";
     agent_assertDid := fun session => Normal (sub session);
     agent_getProfile := fun _ _ => Rejected "Failed to fetch";
     super_authorize := fun _ _ => Resolved "https://bsky.social/oauth/authorize?request_uri=r1";
     launchWebAuthFlow := fun _ _ => Resolved None;
     urlHash := fun _ => None |}.

Definition emptyWorld : World := {| area := []; history := [] |}.

(** A browser in which [alice] is logged in and her profile is cached. *)
Definition aliceWorld : World :=
  {| area := [ (storageKey {| namespace := HANDLER_NAMESPACE |} "profile",
                StoredProfile aliceProfile);
               (storageKey OAuthClient.storage "sub", StoredString "did:plc:alice") ];
     history := [] |}.

(** A browser in which [alice] is logged in and no profile is cached. *)
Definition aliceLoggedInWorld : World :=
  {| area := [ (storageKey OAuthClient.storage "sub", StoredString "did:plc:alice") ];
     history := [] |}.

(** * [oauth/chrome-extension-oauth-database.js]

    The stores that the OAuth library is given.  An object store of
    IndexedDB is a map from keys to items; requests on it succeed.  The time
    read by [new Date()] and [Date.now()] in an operation is an argument of
    the operation, in milliseconds.  [null] and [undefined] are both [None]. *)

Module OAuthDatabase.

(** [STORES] *)
Definition STORES : list string :=
  [ "state"; "session"; "didCache"; "dpopNonceCache"; "handleCache";
    "authorizationServerMetadataCache"; "protectedResourceMetadataCache" ].

(** A [CryptoKeyPair], opaque. *)
Definition KeyPair : Type := string.

(** A [WebcryptoKey], as far as the code reads it. *)
Record Key : Type := mkKey {
  kid : option string;
  cryptoKeyPair : KeyPair
}.

(** What is kept of a key. *)
Record EncodedKey : Type := mkEncodedKey {
  keyId : option string;
  keyPair : option KeyPair
}.

(** [!s] for a string that may be [undefined] *)
Definition absent (s : option string) : bool :=
  match s with
  | Some v => negb (Js.nonEmpty v)
  | None => true
  end.

(** [encodeKey(key)] *)
Definition encodeKey (key : Key) : Completion EncodedKey :=
  if absent (kid key) then Throw "Invalid key object"
  else Normal {| keyId := kid key; keyPair := Some (cryptoKeyPair key) |}.

(** [decodeKey(encoded)], for the [WebcryptoKey.fromKeypair] of the
    environment.  A [DatabaseError] goes through the [catch] as it is; the
    only other error of the [try] is that of [fromKeypair]. *)
Definition decodeKey (fromKeypair : KeyPair -> string -> Outcome Key)
           (encoded : option EncodedKey) : Outcome Key :=
  match encoded with
  | Some {| keyId := Some id; keyPair := Some kp |} =>
      if Js.nonEmpty id then
        match fromKeypair kp id with
        | Rejected e => Rejected ("Failed to decode key: " ++ e)%string
        | settled => settled
        end
      else Rejected "Invalid encoded key data"
  | _ => Rejected "Invalid encoded key data"
  end.

(** An item of an object store. *)
Record Item (E : Type) : Type := mkItem {
  value : option E;
  expiresAt : option N
}.

Arguments mkItem {E} value expiresAt.
Arguments value {E} i.
Arguments expiresAt {E} i.

Definition ObjectStore (E : Type) : Type := list (string * Item E).

(** [store.get(key)] *)
Fixpoint lookup {E} (key : string) (s : ObjectStore E) : option (Item E) :=
  match s with
  | [] => None
  | (k, item) :: rest => if String.eqb k key then Some item else lookup key rest
  end.

(** [store.delete(key)] *)
Definition delete {E} (key : string) (s : ObjectStore E) : ObjectStore E :=
  filter (fun entry => negb (String.eqb (fst entry) key)) s.

(** [store.put(item, key)] *)
Definition put {E} (key : string) (item : Item E) (s : ObjectStore E) : ObjectStore E :=
  (key, item) :: delete key s.

(** An operation on an object store. *)
Definition StoreJob (E R : Type) : Type := ObjectStore E -> Outcome R * ObjectStore E.

(** What [createStore] returns. *)
Record Store (A E : Type) : Type := mkStore {
  get : N -> string -> StoreJob E (option A);
  set : N -> string -> option A -> StoreJob E unit;
  del : string -> StoreJob E unit
}.

Arguments get {A E} s now key.
Arguments set {A E} s now key v.
Arguments del {A E} s key.

(** [item.expiresAt && new Date(item.expiresAt) < new Date()] *)
Definition expired {E} (item : Item E) (now : N) : bool :=
  match expiresAt item with
  | Some t => (t <? now)%N
  | None => false
  end.

(** [createStore(name, { encode, decode, expiresAt })], on the object store of
    that name.  [expiresAt] is given the time it reads with [Date.now()]. *)
Definition createStore {A E}
           (encode : option A -> Completion (option E))
           (decode : option E -> Outcome (option A))
           (expiry : option A -> N -> Completion (option N)) : Store A E :=
  {| get := fun now key s =>
       match lookup key s with
       | None => (Resolved None, s)
       | Some item =>
           if expired item now then (Resolved None, delete key s)
           else (decode (value item), s)
       end;
     set := fun now key v s =>
       match encode v with
       | Throw e => (Rejected e, s)
       | Normal encoded =>
           match expiry v now with
           | Throw e => (Rejected e, s)
           | Normal t => (Resolved tt, put key {| value := encoded; expiresAt := t |} s)
           end
       end;
     del := fun key s => (Resolved tt, delete key s) |}.

(** The caches: [encode] and [decode] are the identity, an entry expires
    after a fixed time. *)
Definition cache {V} (ttl : N) : Store V V :=
  createStore (fun v => Normal v) (fun e => Resolved e)
              (fun _ now => Normal (Some (now + ttl)%N)).

Definition getDpopNonceCache {V} : Store V V := cache 600000.
Definition getDidCache {V} : Store V V := cache 60000.
Definition getHandleCache {V} : Store V V := cache 60000.
Definition getAuthorizationServerMetadataCache {V} : Store V V := cache 60000.
Definition getProtectedResourceMetadataCache {V} : Store V V := cache 60000.

(** Data with a DPoP key: [{ dpopKey, ...rest }]. *)
Record Keyed (R : Type) : Type := mkKeyed {
  dpopKey : option Key;
  rest : R
}.

Arguments mkKeyed {R} dpopKey rest.
Arguments dpopKey {R} k.
Arguments rest {R} k.

Record EncodedKeyed (R : Type) : Type := mkEncodedKeyed {
  encoded_dpopKey : option EncodedKey;
  encoded_rest : R
}.

Arguments mkEncodedKeyed {R} encoded_dpopKey encoded_rest.
Arguments encoded_dpopKey {R} e.
Arguments encoded_rest {R} e.

(** [encode] of the session and state stores *)
Definition encodeKeyed {R} (data : option (Keyed R)) : Completion (option (EncodedKeyed R)) :=
  match data with
  | None => Normal None
  | Some d =>
      match dpopKey d with
      | None => Normal (Some {| encoded_dpopKey := None; encoded_rest := rest d |})
      | Some key =>
          do encodedKey <- encodeKey key ;
          Normal (Some {| encoded_dpopKey := Some encodedKey; encoded_rest := rest d |})
      end
  end.

(** [decode] of the session and state stores *)
Definition decodeKeyed {R} (fromKeypair : KeyPair -> string -> Outcome Key)
           (encoded : option (EncodedKeyed R)) : Outcome (option (Keyed R)) :=
  match encoded with
  | None => Resolved None
  | Some e =>
      match encoded_dpopKey e with
      | None => Resolved (Some {| dpopKey := None; rest := encoded_rest e |})
      | Some encodedKey =>
          match decodeKey fromKeypair (Some encodedKey) with
          | Resolved key => Resolved (Some {| dpopKey := Some key; rest := encoded_rest e |})
          | Rejected e' => Rejected e'
          | Pending => Pending
          end
      end
  end.

(** [getStateStore()]: an entry expires after ten minutes. *)
Definition getStateStore {R} (fromKeypair : KeyPair -> string -> Outcome Key)
  : Store (Keyed R) (EncodedKeyed R) :=
  createStore encodeKeyed (decodeKeyed fromKeypair)
              (fun _ now => Normal (Some (now + 600000)%N)).

(** The [tokenSet] of a session, as far as the code reads it.  [expires_at]
    is a date: the record keeps the time it stands for, in milliseconds, which
    may be one that [Date] cannot hold. *)
Record TokenSet : Type := mkTokenSet {
  refresh_token : option string;
  expires_at : option N;
  access_token : string
}.

(** The largest time that a [Date] holds, in milliseconds. *)
Definition MAX_TIME : N := 8640000000000000.

(** [new Date(t).toISOString()]: a time out of the range of [Date] makes an
    invalid date, on which [toISOString] throws a [RangeError]. *)
Definition toISOString (rangeMessage : string) (t : N) : Completion N :=
  if (t <=? MAX_TIME)%N then Normal t else Throw rangeMessage.

(** [expiresAt(value)?.toISOString()] for the [expiresAt] of the session
    store: [null] with a refresh token or without an expiry, the date of the
    expiry otherwise.  Destructuring a value that is [null] throws, and so
    does [toISOString] on a date that is invalid. *)
Definition sessionExpiry (destructureMessage rangeMessage : string)
           (data : option (Keyed TokenSet)) (now : N) : Completion (option N) :=
  match data with
  | None => Throw destructureMessage
  | Some d =>
      if negb (absent (refresh_token (rest d))) then Normal None
      else
        match expires_at (rest d) with
        | None => Normal None
        | Some t => do iso <- toISOString rangeMessage t ; Normal (Some iso)
        end
  end.

(** [getSessionStore()] *)
Definition getSessionStore (destructureMessage rangeMessage : string)
           (fromKeypair : KeyPair -> string -> Outcome Key)
  : Store (Keyed TokenSet) (EncodedKeyed TokenSet) :=
  createStore encodeKeyed (decodeKeyed fromKeypair)
              (sessionExpiry destructureMessage rangeMessage).

End OAuthDatabase.

(** ** Scenarios of the database *)

Definition aliceKey : OAuthDatabase.Key :=
  {| OAuthDatabase.kid := Some "dpop-1"; OAuthDatabase.cryptoKeyPair := "pair-1" |}.

(** A [WebcryptoKey.fromKeypair] that builds the key of a pair and an id. *)
Definition importKey (kp : OAuthDatabase.KeyPair) (id : string)
  : Outcome OAuthDatabase.Key :=
  Resolved {| OAuthDatabase.kid := Some id; OAuthDatabase.cryptoKeyPair := kp |}.

Definition aliceTokens : OAuthDatabase.TokenSet :=
  {| OAuthDatabase.refresh_token := Some "refresh-1";
     OAuthDatabase.expires_at := Some 1700000000000%N;
     OAuthDatabase.access_token := "access-1" |}.

Definition aliceSessionData : OAuthDatabase.Keyed OAuthDatabase.TokenSet :=
  {| OAuthDatabase.dpopKey := Some aliceKey; OAuthDatabase.rest := aliceTokens |}.

(** A session without a refresh token, whose tokens expire at a given time. *)
Definition expiringSessionData (limit : N) : OAuthDatabase.Keyed OAuthDatabase.TokenSet :=
  {| OAuthDatabase.dpopKey := Some aliceKey;
     OAuthDatabase.rest :=
       {| OAuthDatabase.refresh_token := None;
          OAuthDatabase.expires_at := Some limit;
          OAuthDatabase.access_token := "access-2" |} |}.

(** * [popup/popup.js]

    The popup shows the profile of the user or the login button.  Of the
    document it changes the classes of three elements and the text of four;
    that is the view below. *)

Module Popup.

Record View : Type := mkView {
  profileVisible : bool;            (* [#user-profile] has class [visible] *)
  userHandle : option string;       (* value given to [#user-handle].textContent *)
  userDisplayName : option string;  (* value given to [#user-displayName].textContent *)
  avatarSrc : option string;        (* value given to [#user-avatar].src *)
  errorMessage : string;            (* [#error-message].textContent *)
  loginHidden : bool;               (* [#login] has class [hidden] *)
  logoutHidden : bool               (* [#logout] has class [hidden] *)
}.

(** A response, as far as the popup reads it: whether [authenticated] is
    truthy, [profile] and [error]. *)
Record Message : Type := mkMessage {
  authenticated : bool;
  profile : option Profile;
  error : option string
}.

Section Handlers.

Variable engine : Engine.

(** [showProfile(profile)]: the class is added before [profile.handle] is
    read. *)
Definition showProfile (p : option Profile) (v : View) : Completion unit * View :=
  match p with
  | Some data =>
      (Normal tt,
       {| profileVisible := true;
          userHandle := Some (profile_handle data);
          userDisplayName := profile_displayName data;
          avatarSrc := profile_avatar data;
          errorMessage := errorMessage v;
          loginHidden := true;
          logoutHidden := false |})
  | None =>
      (Throw (msgReadOfUndefined engine "handle"),
       {| profileVisible := true;
          userHandle := userHandle v;
          userDisplayName := userDisplayName v;
          avatarSrc := avatarSrc v;
          errorMessage := errorMessage v;
          loginHidden := loginHidden v;
          logoutHidden := logoutHidden v |})
  end.

(** [errorMessage || ''] *)
Definition orEmpty (e : option string) : string :=
  match e with
  | Some s => s
  | None => ""
  end.

(** [hideProfile(errorMessage)] *)
Definition hideProfile (e : option string) (v : View) : Completion unit * View :=
  (Normal tt,
   {| profileVisible := false;
      userHandle := userHandle v;
      userDisplayName := userDisplayName v;
      avatarSrc := avatarSrc v;
      errorMessage := orEmpty e;
      loginHidden := false;
      logoutHidden := true |}).

(** [processSessionStatusMessage(message)] *)
Definition processSessionStatusMessage (message : option Message) (v : View)
  : Completion unit * View :=
  match message with
  | None => (Throw "[Process Session Status] Undefined message!", v)
  | Some m =>
      if authenticated m then showProfile (profile m) v
      else hideProfile (error m) v
  end.

End Handlers.

End Popup.

(** * Properties *)

Unset Implicit Arguments.

(** ** Strings *)

Lemma prefix_app (p s : string) : String.prefix p (p ++ s) = true.
Proof.
  induction p as [|c p IH]; simpl.
  - destruct s; reflexivity.
  - destruct (ascii_dec c c) as [_|N]; [exact IH | congruence].
Qed.

Lemma startsWith_app (p s : string) : Js.startsWith (p ++ s) p = true.
Proof. apply prefix_app. Qed.

Lemma split_nonnil (sep : ascii) (s : string) : Js.split sep s <> [].
Proof.
  induction s as [|c s IH]; simpl; [discriminate|].
  destruct (Ascii.eqb c sep); [discriminate|].
  destruct (Js.split sep s); discriminate.
Qed.

Lemma split_without (sep : ascii) (s : string) :
  Js.occurs sep s = false -> Js.split sep s = [s].
Proof.
  induction s as [|c s IH]; simpl; intros H; [reflexivity|].
  apply orb_false_iff in H. destruct H as [Hc Hs].
  rewrite Hc, (IH Hs). reflexivity.
Qed.

Lemma split_app (sep : ascii) (a b : string) :
  Js.occurs sep a = false ->
  Js.split sep (a ++ String sep b) = a :: Js.split sep b.
Proof.
  induction a as [|c a IH]; simpl; intros H.
  - rewrite Ascii.eqb_refl. reflexivity.
  - apply orb_false_iff in H. destruct H as [Hc Ha].
    rewrite Hc, (IH Ha). reflexivity.
Qed.

Lemma nonEmpty_true (s : string) : s <> "" -> Js.nonEmpty s = true.
Proof. destruct s; [congruence|reflexivity]. Qed.

(** The segments of a path [/first/second/third]. *)
Lemma segments_three (a b c : string) :
  Js.occurs "/" a = false -> Js.occurs "/" b = false -> Js.occurs "/" c = false ->
  a <> "" -> b <> "" -> c <> "" ->
  Js.segmentsOf ("/" ++ a ++ "/" ++ b ++ "/" ++ c) = [a; b; c].
Proof.
  intros Ha Hb Hc Na Nb Nc. unfold Js.segmentsOf.
  change ("/" ++ a ++ "/" ++ b ++ "/" ++ c)%string
    with ("" ++ String "/" (a ++ String "/" (b ++ String "/" c)))%string.
  rewrite split_app by reflexivity.
  rewrite (split_app _ _ _ Ha), (split_app _ _ _ Hb), (split_without _ _ Hc).
  simpl. rewrite !nonEmpty_true by assumption. reflexivity.
Qed.

(** The segments of a path [/first/second]. *)
Lemma segments_two (a b : string) :
  Js.occurs "/" a = false -> Js.occurs "/" b = false ->
  a <> "" -> b <> "" ->
  Js.segmentsOf ("/" ++ a ++ "/" ++ b) = [a; b].
Proof.
  intros Ha Hb Na Nb. unfold Js.segmentsOf.
  change ("/" ++ a ++ "/" ++ b)%string
    with ("" ++ String "/" (a ++ String "/" b))%string.
  rewrite split_app by reflexivity.
  rewrite (split_app _ _ _ Ha), (split_without _ _ Hb).
  simpl. rewrite !nonEmpty_true by assumption. reflexivity.
Qed.

(** ** Deriving the resource identifier *)

(** [#getAtUri] on a path of three segments *)
Lemma getAtUri_three_segments :
  forall (env : Env) (x : UrlArg) (u : URL) (first handle key : string),
    new_URL env x = Normal u ->
    pathname u = ("/" ++ first ++ "/" ++ handle ++ "/" ++ key)%string ->
    Js.nonEmpty first = true -> Js.nonEmpty handle = true -> Js.nonEmpty key = true ->
    Js.occurs "/" first = false -> Js.occurs "/" handle = false ->
    Js.occurs "/" key = false ->
    getAtUri env x
    = Normal ("at://" ++ handle ++ "/app.bsky.graph.list/" ++ key)%string.
Proof.
  intros env x u first handle key Hparse Hpath Nf Nh Nk Sf Sh Sk.
  unfold getAtUri, cbind. rewrite Hparse, Hpath.
  rewrite segments_three; trivial.
  - destruct first; [discriminate Nf | discriminate].
  - destruct handle; [discriminate Nh | discriminate].
  - destruct key; [discriminate Nk | discriminate].
Qed.

(** C6: for a pack page [/starter-pack/{handle}/{key}] or
    [/start/{handle}/{key}], whatever the host, the identifier derived by
    [#getAtUri] is exactly [at://{handle}/app.bsky.graph.list/{key}]. *)
Theorem C6_canonical_url_derives_list_uri :
  forall (env : Env) (x : UrlArg) (u : URL) (first handle key : string),
    new_URL env x = Normal u ->
    first = "starter-pack" \/ first = "start" ->
    pathname u = ("/" ++ first ++ "/" ++ handle ++ "/" ++ key)%string ->
    Js.nonEmpty handle = true -> Js.nonEmpty key = true ->
    Js.occurs "/" handle = false -> Js.occurs "/" key = false ->
    getAtUri env x
    = Normal ("at://" ++ handle ++ "/app.bsky.graph.list/" ++ key)%string.
Proof.
  intros env x u first handle key Hparse Hfirst Hpath Nh Nk Sh Sk.
  apply (getAtUri_three_segments env x u first handle key); trivial;
    destruct Hfirst; subst first; reflexivity.
Qed.

Lemma C6_alice_abc123 :
  getAtUri friendsEnv (ArgString "https://bsky.app/starter-pack/alice/abc123")
  = Normal "at://alice/app.bsky.graph.list/abc123".
Proof.
  apply (C6_canonical_url_derives_list_uri
           friendsEnv _
           {| href := "https://bsky.app/starter-pack/alice/abc123";
              hostname := "bsky.app";
              pathname := "/starter-pack/alice/abc123" |}
           "starter-pack" "alice" "abc123");
    solve [reflexivity | left; reflexivity].
Defined.

(** A pack page given as a [URL] object that the platform parses back to
    itself is not a short link: its identifier is derived without any call. *)
Lemma getStarterPackUri_canonical :
  forall (env : Env) (this : ListConverter) (url : URL) (first handle key : string) (h : Trace),
    new_URL env (ArgURL url) = Normal url ->
    first = "starter-pack" \/ first = "start" ->
    pathname url = ("/" ++ first ++ "/" ++ handle ++ "/" ++ key)%string ->
    Js.nonEmpty handle = true -> Js.nonEmpty key = true ->
    Js.occurs "/" handle = false -> Js.occurs "/" key = false ->
    getStarterPackUri env this url h
    = (Resolved ("at://" ++ handle ++ "/app.bsky.graph.list/" ++ key)%string, []).
Proof.
  intros env this url first handle key h Hparse Hfirst Hpath Nh Nk Sh Sk.
  unfold getStarterPackUri.
  assert (Hshort : Js.startsWith (pathname url) "/starter-pack-short/" = false).
  { rewrite Hpath. destruct Hfirst; subst first; reflexivity. }
  rewrite Hshort.
  rewrite (getAtUri_three_segments env _ url first handle key); trivial;
    destruct Hfirst; subst first; reflexivity.
Qed.

(** ** Malformed paths *)

(** The short link path is checked: a path with fewer than two segments is
    refused by [#getShortCode]. *)
Lemma getShortCode_refuses_short_path :
  forall (url : URL),
    Js.nonEmpty (pathname url) = true ->
    length (Js.segmentsOf (pathname url)) < 2 ->
    getShortCode url = Throw "Invalid URL path structure".
Proof.
  intros url Hne Hlen. unfold getShortCode. rewrite Hne. simpl.
  apply Nat.ltb_lt in Hlen. rewrite Hlen. reflexivity.
Qed.

Lemma getShortCode_accepts :
  forall (url : URL) (code : string),
    pathname url = ("/starter-pack-short/" ++ code)%string ->
    Js.nonEmpty code = true -> Js.occurs "/" code = false ->
    getShortCode url = Normal code.
Proof.
  intros url code Hpath Nc Sc. unfold getShortCode. rewrite Hpath.
  change ("/starter-pack-short/" ++ code)%string
    with ("/" ++ "starter-pack-short" ++ "/" ++ code)%string.
  rewrite segments_two; trivial; try discriminate.
  destruct code; [discriminate Nc | discriminate].
Qed.

(** The path of a pack page is not checked: on an address that parses,
    [#getAtUri] never throws, whatever the number of segments. *)
Lemma getAtUri_never_refuses :
  forall (env : Env) (x : UrlArg) (u : URL),
    new_URL env x = Normal u ->
    getAtUri env x
    = Normal ("at://" ++ Js.interpolate (Js.index (Js.segmentsOf (pathname u)) 1)
                ++ "/app.bsky.graph.list/"
                ++ Js.interpolate (Js.index (Js.segmentsOf (pathname u)) 2))%string.
Proof.
  intros env x u H. unfold getAtUri, cbind. rewrite H. reflexivity.
Qed.

(** C7: the pack page path is not checked.  On the address
    [https://bsky.app/starter-pack/], which has one segment, [#getAtUri] does
    not throw: it derives an identifier from two [undefined] segments, and
    the run goes on to request that pack. *)
Theorem C7_bare_pack_address_derives_undefined :
  length (Js.segmentsOf (pathname barePage)) = 1
  /\ getAtUri friendsEnv (ArgURL barePage)
     = Normal "at://undefined/app.bsky.graph.list/undefined"
  /\ (exists rest,
        createListFromStarterPack friendsEnv new_ListConverter barePage []
        = (Resolved Mock.created,
           CallGetStarterPack "at://undefined/app.bsky.graph.list/undefined" :: rest)).
Proof.
  split; [reflexivity|]. split; [reflexivity|].
  eexists. reflexivity.
Qed.

(** ** Pages that are not pack pages *)

Lemma handleCreateList_not_applicable :
  forall (env : Env) (sender : Sender) (h : Trace),
    isStarterPackUrl env (senderTabUrl sender) = Normal false ->
    handleCreateList env sender h
    = (Resolved (createResponse false None (Some "Invalid URL")), []).
Proof.
  intros env sender h H. unfold handleCreateList, bind. rewrite H. reflexivity.
Qed.

Lemma listener_not_applicable :
  forall (env : Env) (details : NavigationDetails) (h : Trace),
    isStarterPackUrl env (ArgString (details_url details)) = Normal false ->
    Navigation.listener env details h = (Resolved tt, []).
Proof.
  intros env details h H. unfold Navigation.listener, bind. rewrite H. reflexivity.
Qed.

(** C5, as the code has it: for an address whose host is not [bsky.app] or
    whose path starts with none of the three prefixes, [isStarterPackUrl] is
    false and no call is issued.  The navigation listener does nothing;
    [handleCreateList] answers with the failure response
    [{ success: false, data: null, error: 'Invalid URL' }]. *)
Theorem C5_other_pages_are_answered_invalid_url_without_calls :
  forall (env : Env) (sender : Sender) (address : string) (u : URL) (h : Trace),
    senderTabUrl sender = ArgString address ->
    new_URL env (ArgString address) = Normal u ->
    String.eqb (hostname u) "bsky.app" = false
    \/ (Js.startsWith (pathname u) "/starter-pack/" = false
        /\ Js.startsWith (pathname u) "/starter-pack-short/" = false
        /\ Js.startsWith (pathname u) "/start/" = false) ->
    isStarterPackUrl env (ArgString address) = Normal false
    /\ Navigation.listener env {| details_url := address |} h = (Resolved tt, [])
    /\ handleCreateList env sender h
       = (Resolved {| success := false; data := None; error := Some "Invalid URL" |}, []).
Proof.
  intros env sender address u h Hsender Hparse Hother.
  assert (Hno : isStarterPackUrl env (ArgString address) = Normal false).
  { unfold isStarterPackUrl, cbind. rewrite Hparse. f_equal.
    destruct Hother as [Hhost | (H1 & H2 & H3)].
    - rewrite Hhost. reflexivity.
    - rewrite H1, H2, H3. apply andb_false_r. }
  split; [exact Hno|]. split.
  - apply listener_not_applicable. exact Hno.
  - apply handleCreateList_not_applicable. rewrite Hsender. exact Hno.
Qed.

Lemma C5_example_com_is_answered_without_calls :
  isStarterPackUrl friendsEnv (ArgString "https://example.com/starter-pack/bob/xyz")
  = Normal false
  /\ Navigation.listener
       friendsEnv {| details_url := "https://example.com/starter-pack/bob/xyz" |} []
     = (Resolved tt, [])
  /\ handleCreateList friendsEnv (Mock.pageOf "https://example.com/starter-pack/bob/xyz") []
     = (Resolved {| success := false; data := None; error := Some "Invalid URL" |}, []).
Proof.
  apply (C5_other_pages_are_answered_invalid_url_without_calls
           friendsEnv _ "https://example.com/starter-pack/bob/xyz"
           {| href := "https://example.com/starter-pack/bob/xyz";
              hostname := "example.com";
              pathname := "/starter-pack/bob/xyz" |} []).
  - reflexivity.
  - reflexivity.
  - left. reflexivity.
Defined.

(** C5 as stated fails on both counts.  [handleCreateList] does not pass over
    a page of another site in silence: it answers the caller with an error.
    And the code compares the host name, not the authority: for the address
    [https://bsky.app:8443/starter-pack/bob/xyz], whose authority
    [bsky.app:8443] is not the fixed host, [isStarterPackUrl] is true, the
    handler runs the whole conversion and the navigation listener sends its
    two reads. *)
Lemma C5_port_is_not_compared_and_other_page_is_an_error :
  (exists r : HandlerResponse,
      fst (handleCreateList friendsEnv (Mock.pageOf "https://example.com/") []) = Resolved r
      /\ success r = false
      /\ error r = Some "Invalid URL")
  /\ Mock.authority otherPortAddress = Some "bsky.app:8443"
  /\ isStarterPackUrl friendsEnv (ArgString otherPortAddress) = Normal true
  /\ handleCreateList friendsEnv (Mock.pageOf otherPortAddress) []
     = (Resolved {| success := true;
                    data := Some {| payload_list := Mock.created |};
                    error := None |},
        [ CallOAuthInit;
          CallGetStarterPack "at://bob/app.bsky.graph.list/xyz";
          CallGetList "at://bob/app.bsky.graph.list/xyz";
          CallCreateRecord
            (listRequest "did:plc:owner" (configOf friendsList) "k3x9q"
                         "2024-11-20T10:00:00.000Z");
          CallCreateRecord
            (listItemRequest "did:plc:owner" (Mock.member "did:1")
                             (uri Mock.created) "2024-11-20T10:00:00.000Z");
          CallCreateRecord
            (listItemRequest "did:plc:owner" (Mock.member "did:2")
                             (uri Mock.created) "2024-11-20T10:00:00.000Z") ])
  /\ Navigation.listener navigationEnv {| details_url := otherPortAddress |} []
     = (Resolved tt,
        [ CallFetch (packReadUrl "at://bob/app.bsky.graph.list/xyz")
                    [("Content-Type", "application/json")] (Some 5000%N);
          CallFetch ("https://public.api.bsky.app/xrpc/app.bsky.graph.getList?list="
                       ++ "at://bob/app.bsky.graph.list/xyz")
                    [("Content-Type", "application/json")] (Some 5000%N) ]).
Proof.
  split.
  - eexists. split; [reflexivity|]. split; reflexivity.
  - repeat split; reflexivity.
Qed.

(** ** The shape of the handler's answer *)

(** An address that cannot be parsed makes [isStarterPackUrl] throw, outside
    the [try] of [handleCreateList]. *)
Lemma handleCreateList_unparsable :
  forall (env : Env) (sender : Sender) (h : Trace) (e : string),
    new_URL env (senderTabUrl sender) = Throw e ->
    handleCreateList env sender h = (Rejected e, []).
Proof.
  intros env sender h e H.
  unfold handleCreateList, isStarterPackUrl, cbind, bind. rewrite H. reflexivity.
Qed.

(** C10: a message that does not come from a tab.  [isStarterPackUrl] is
    called outside the [try] and [new URL(undefined)] throws: the promise of
    [handleCreateList] is rejected instead of resolved with a response. *)
Theorem C10_message_without_tab_is_rejected :
  senderTabUrl noTab = ArgUndefined
  /\ handleCreateList friendsEnv noTab []
     = (Rejected "Failed to construct 'URL': Invalid URL", []).
Proof. split; reflexivity. Qed.

(** When the address of the tab can be parsed the handler never rejects: if
    its promise settles, it is with a response of one of the two shapes. *)
Lemma handleCreateList_shape :
  forall (env : Env) (sender : Sender) (u : URL) (h : Trace),
    new_URL env (senderTabUrl sender) = Normal u ->
    match fst (handleCreateList env sender h) with
    | Resolved r =>
        (success r = true /\ (exists l, data r = Some l) /\ error r = None)
        \/ (success r = false /\ data r = None /\ exists e, error r = Some e)
    | Rejected _ => False
    | Pending => True
    end.
Proof.
  intros env sender u h Hparse.
  unfold handleCreateList, isStarterPackUrl, cbind, bind. rewrite Hparse. simpl.
  match goal with |- context [negb ?b] => destruct b end; simpl.
  - unfold tryCatch, bind, auth_init.
    destruct (oauth_init env _) as [[s|]| |]; simpl; eauto 10.
    destruct (createListFromStarterPack env new_ListConverter u _) as [[nl|e|] tr];
      simpl; eauto 10.
  - right. eauto.
Qed.

(** ** Asynchronous computations *)

Lemma bind_assoc {A B C} (m : Async A) (f : A -> Async B) (g : B -> Async C) (h : Trace) :
  bind (bind m f) g h = bind m (fun a => bind (f a) g) h.
Proof.
  unfold bind. destruct (m h) as [[a|e|] s]; trivial.
  destruct (f a (h ++ s)) as [[b|e|] s']; trivial.
  rewrite <- app_assoc.
  destruct (g b (h ++ s ++ s')) as [o s'']. rewrite app_assoc. reflexivity.
Qed.

Lemma bind_ext {A B} (m : Async A) (f g : A -> Async B) (h : Trace) :
  (forall a h', f a h' = g a h') -> bind m f h = bind m g h.
Proof.
  intros E. unfold bind. destruct (m h) as [[a|e|] s]; trivial.
  rewrite E. reflexivity.
Qed.

Lemma tryCatch_ext {A} (m m' : Async A) (k : string -> Async A) (h : Trace) :
  m h = m' h -> tryCatch m k h = tryCatch m' k h.
Proof. intros E. unfold tryCatch. rewrite E. reflexivity. Qed.

(** The body of [createListFromStarterPack] is the resolver chain followed by
    the list replicator. *)
Lemma createList_chain (env : Env) (this : ListConverter) (url : URL) (h : Trace) :
  createListFromStarterPack env this url h
  = tryCatch (sourceList <- resolveSource env this url ;; replicate env sourceList)
             (fun error => throw ("Failed to create list: " ++ error)%string) h.
Proof.
  unfold createListFromStarterPack. apply tryCatch_ext.
  unfold resolveSource. rewrite bind_assoc. apply bind_ext. intros atUri h1.
  rewrite bind_assoc. apply bind_ext. intros starterPack h2.
  rewrite bind_assoc. reflexivity.
Qed.

(** The outcome of a run, stage by stage. *)
Lemma createList_cases (env : Env) (this : ListConverter) (url : URL) (h : Trace) :
  createListFromStarterPack env this url h
  = match resolveSource env this url h with
    | (Resolved sourceList, s1) =>
        match createBskyList env (configOf sourceList) (h ++ s1) with
        | (Resolved newList, s2) =>
            match addUsersToList env {| listUri := uri newList;
                                        users := items sourceList |}
                                 (h ++ s1 ++ s2) with
            | (Resolved _, s3) => (Resolved newList, s1 ++ s2 ++ s3)
            | (Rejected e, s3) =>
                (Rejected ("Failed to create list: " ++ e)%string, s1 ++ s2 ++ s3)
            | (Pending, s3) => (Pending, s1 ++ s2 ++ s3)
            end
        | (Rejected e, s2) => (Rejected ("Failed to create list: " ++ e)%string, s1 ++ s2)
        | (Pending, s2) => (Pending, s1 ++ s2)
        end
    | (Rejected e, s1) => (Rejected ("Failed to create list: " ++ e)%string, s1)
    | (Pending, s1) => (Pending, s1)
    end.
Proof.
  rewrite createList_chain. unfold tryCatch, bind at 1.
  destruct (resolveSource env this url h) as [[sourceList|e|] s1]; simpl;
    rewrite ?app_nil_r; trivial.
  unfold replicate, bind.
  destruct (createBskyList env (configOf sourceList) (h ++ s1)) as [[newList|e|] s2];
    simpl; rewrite ?app_nil_r; trivial.
  rewrite <- app_assoc.
  destruct (addUsersToList env _ (h ++ s1 ++ s2)) as [[[]|e|] s3];
    simpl; rewrite ?app_nil_r; trivial.
Qed.

(** ** Joining the member promises *)

Lemma firstRejection_none {A} (ps : list (Outcome A)) :
  rejections ps = 0 -> firstRejection ps = None.
Proof.
  unfold rejections. induction ps as [|[a|e|] ps IH]; simpl; intros H; auto.
  discriminate.
Qed.

Lemma firstRejection_some {A} (ps : list (Outcome A)) :
  0 < rejections ps -> exists e, firstRejection ps = Some e.
Proof.
  unfold rejections. induction ps as [|[a|e|] ps IH]; simpl; intros H; eauto.
  lia.
Qed.

Lemma allResolved_all {A} (ps : list (Outcome A)) :
  fulfilments ps = length ps -> exists vs, allResolved ps = Some vs.
Proof.
  unfold fulfilments. induction ps as [|[a|e|] ps IH]; simpl; intros H.
  - eauto.
  - injection H as H. destruct (IH H) as [vs E]. rewrite E. simpl. eauto.
  - pose proof (filter_length_le isResolved ps). lia.
  - pose proof (filter_length_le isResolved ps). lia.
Qed.

Lemma Promise_all_resolved {A} (ps : list (Outcome A)) :
  fulfilments ps = length ps -> exists vs, Promise_all ps = Resolved vs.
Proof.
  intros H. unfold Promise_all.
  assert (R : rejections ps = 0).
  { revert H. unfold fulfilments, rejections.
    induction ps as [|[a|e|] ps IH]; simpl; intros H; auto;
      pose proof (filter_length_le isResolved ps); lia. }
  rewrite (firstRejection_none _ R).
  destruct (allResolved_all _ H) as [vs E]. rewrite E. eauto.
Qed.

Lemma Promise_all_rejected {A} (ps : list (Outcome A)) :
  0 < rejections ps -> exists e, Promise_all ps = Rejected e.
Proof.
  intros H. unfold Promise_all.
  destruct (firstRejection_some _ H) as [e E]. rewrite E. eauto.
Qed.

(** [#addUsersToList] in terms of the join of its promises. *)
Lemma addUsersToList_join (env : Env) (params : AddUsersParams) (h : Trace) :
  addUsersToList env params h
  = (match Promise_all (memberPromises env (listUri params) (users params) h) with
     | Resolved _ => Resolved tt
     | Rejected _ => Rejected (msgNotDefined (engine env) "listUri")
     | Pending => Pending
     end,
     snd (mapPromises (addUser env (listUri params)) (users params) h)).
Proof.
  unfold addUsersToList, memberPromises.
  destruct (mapPromises (addUser env (listUri params)) (users params) h) as [ps s].
  unfold tryCatch, bind, await, ret, throw. simpl.
  destruct (Promise_all ps); simpl; rewrite ?app_nil_r; reflexivity.
Qed.

(** ** The calls of each step *)

Lemma HttpClient_fetch_calls (env : Env) (this : HttpClient) (url : string)
      (headers : Headers) (h : Trace) :
  snd (HttpClient_fetch env this url headers h)
  = [CallFetch url headers (Some (timeout this))].
Proof.
  unfold HttpClient_fetch, bind, tryCatch, fetch, await, throw, ret.
  destruct (network env h url headers) as [[ms|] [r|e]]; simpl;
    try destruct (ms <? timeout this)%N; simpl;
    try destruct (ok r); simpl; reflexivity.
Qed.

(** [#getStarterPackUri] issues the redirect request of a short link that has
    a code, and nothing else. *)
Lemma getStarterPackUri_calls (env : Env) (this : ListConverter) (url : URL) (h : Trace) :
  snd (getStarterPackUri env this url h)
  = if Js.startsWith (pathname url) "/starter-pack-short/" then
      match getShortCode url with
      | Normal code => [redirectCall this code]
      | Throw _ => []
      end
    else [].
Proof.
  unfold getStarterPackUri.
  destruct (Js.startsWith (pathname url) "/starter-pack-short/").
  - unfold bind at 1. destruct (getShortCode url) as [code|e]; simpl; trivial.
    unfold bind, fetchStarterPackRedirect.
    pose proof (HttpClient_fetch_calls env (httpClient this)
                  ("https://go.bsky.app/" ++ code) [("accept", CONTENT_TYPE_JSON this)]
                  (h ++ [])) as Hc.
    destruct (HttpClient_fetch env (httpClient this) _ _ (h ++ [])) as [[body|e|] s];
      simpl in Hc; subst s; trivial.
    destruct (getAtUri env (redirectTarget body)); reflexivity.
  - destruct (getAtUri env (ArgURL url)); reflexivity.
Qed.

(** After the identifier, the resolver chain only reads through the agent. *)
Lemma resolveSource_calls (env : Env) (this : ListConverter) (url : URL) (h : Trace) :
  exists reads,
    snd (resolveSource env this url h) = snd (getStarterPackUri env this url h) ++ reads
    /\ Forall (fun c => isRead c = true) reads.
Proof.
  unfold resolveSource, bind, getStarterPack, getList.
  destruct (getStarterPackUri env this url h) as [[atUri|e|] s0]; simpl.
  - destruct (agent_getStarterPack env (h ++ s0) atUri) as [starterPack|e|]; simpl.
    + destruct (starterPackListUri env starterPack) as [listAtUri|e]; simpl.
      * eexists; split; [reflexivity | repeat constructor].
      * eexists; split; [reflexivity | repeat constructor].
    + eexists; split; [reflexivity | repeat constructor].
    + eexists; split; [reflexivity | repeat constructor].
  - exists []. split; [symmetry; apply app_nil_r | constructor].
  - exists []. split; [symmetry; apply app_nil_r | constructor].
Qed.

(** [#createBskyList] issues at most the list-create call. *)
Lemma createBskyList_calls (env : Env) (config : ListConfig) (h : Trace) :
  match assertDid env with
  | Normal repo =>
      createBskyList env config h
      = (agent_createRecord env h
           (listRequest repo config (randomSuffix env h) (now env h)),
         [CallCreateRecord (listRequest repo config (randomSuffix env h) (now env h))])
  | Throw e => createBskyList env config h = (Rejected e, [])
  end.
Proof.
  unfold createBskyList, bind, Math_random_suffix, Date_now_iso, createRecord.
  destruct (assertDid env) as [repo|e]; simpl; trivial.
  rewrite !app_nil_r.
  destruct (agent_createRecord env h _); reflexivity.
Qed.

(** With an agent that knows its owner, the callback of [map] issues one
    member-create call for its user. *)
Lemma addUser_calls (env : Env) (repo listUri : string) (user : ListItemView) (h : Trace) :
  assertDid env = Normal repo ->
  snd (addUser env listUri user h)
  = [CallCreateRecord (listItemRequest repo user listUri (now env h))].
Proof.
  intros Hd. unfold addUser, cbind, createRecord. rewrite Hd. reflexivity.
Qed.

Lemma mapPromises_length {A B} (f : A -> Async B) (l : list A) (h : Trace) :
  length (fst (mapPromises f l h)) = length l.
Proof.
  revert h. induction l as [|x xs IH]; intros h; simpl; trivial.
  destruct (f x h) as [p s]. specialize (IH (h ++ s)).
  destruct (mapPromises f xs (h ++ s)) as [ps s']. simpl in *. congruence.
Qed.

(** [map] visits every user: one member-create call each, in the order of
    the source list, whatever the fate of the other calls. *)
Lemma mapPromises_addUser_calls (env : Env) (repo listUri : string)
      (users : list ListItemView) (h : Trace) :
  assertDid env = Normal repo ->
  let calls := snd (mapPromises (addUser env listUri) users h) in
  map subjectOfCall calls = map (fun u => Some (did (subject u))) users
  /\ Forall (fun c => isMemberCreate c = true) calls.
Proof.
  intros Hd. revert h. induction users as [|u us IH]; intros h; simpl.
  - split; constructor.
  - pose proof (addUser_calls env repo listUri u h Hd) as Hu.
    destruct (addUser env listUri u h) as [p s]. simpl in Hu. subst s.
    specialize (IH (h ++ [CallCreateRecord (listItemRequest repo u listUri (now env h))])).
    destruct (mapPromises (addUser env listUri) us _) as [ps s'].
    simpl in *. destruct IH as [IH1 IH2]. split.
    + f_equal. exact IH1.
    + constructor; [reflexivity | exact IH2].
Qed.

Lemma filter_all {A} (f : A -> bool) (l : list A) :
  Forall (fun x => f x = true) l -> filter f l = l.
Proof.
  induction 1 as [|x l Hx _ IH]; simpl; trivial. rewrite Hx, IH. reflexivity.
Qed.

Lemma filter_none {A} (f : A -> bool) (l : list A) :
  Forall (fun x => f x = false) l -> filter f l = [].
Proof.
  induction 1 as [|x l Hx _ IH]; simpl; trivial. rewrite Hx. exact IH.
Qed.

(** The resolver chain creates no record. *)
Lemma resolveSource_creates_nothing (env : Env) (this : ListConverter) (url : URL) (h : Trace) :
  Forall (fun c => match c with CallCreateRecord _ => False | _ => True end)
         (snd (resolveSource env this url h)).
Proof.
  destruct (resolveSource_calls env this url h) as (reads & E & Hreads).
  rewrite E, getStarterPackUri_calls. apply Forall_app. split.
  - destruct (Js.startsWith (pathname url) "/starter-pack-short/"); [|constructor].
    destruct (getShortCode url); repeat constructor.
  - eapply Forall_impl; [|exact Hreads]. intros [] He; simpl in *; trivial; discriminate.
Qed.

Lemma no_create_no_member (tr : Trace) :
  Forall (fun c => match c with CallCreateRecord _ => False | _ => True end) tr ->
  memberCreateCalls tr = [] /\ listCreateCalls tr = [].
Proof.
  intros H. split; apply filter_none; (eapply Forall_impl; [|exact H]);
    intros [] Hc; simpl in *; trivial; contradiction.
Qed.

(** ** Replication *)

Lemma createBskyList_creates_no_member (env : Env) (config : ListConfig) (h : Trace) :
  memberCreateCalls (snd (createBskyList env config h)) = [].
Proof.
  pose proof (createBskyList_calls env config h) as H.
  destruct (assertDid env); rewrite H; reflexivity.
Qed.

Lemma createBskyList_resolved_owner (env : Env) (config : ListConfig) (h : Trace)
      (newList : RecordRef) (s : Trace) :
  createBskyList env config h = (Resolved newList, s) ->
  exists repo,
    assertDid env = Normal repo
    /\ s = [CallCreateRecord (listRequest repo config (randomSuffix env h) (now env h))].
Proof.
  intros H. pose proof (createBskyList_calls env config h) as Hc.
  destruct (assertDid env) as [repo|e]; rewrite Hc in H.
  - exists repo. split; trivial. injection H as _ H. auto.
  - discriminate.
Qed.

(** C2: when the list-create step fails the run fails with its error and no
    member-create call has been issued. *)
Theorem C2_list_create_failure_issues_no_member_call :
  forall (env : Env) (this : ListConverter) (url : URL) (h : Trace)
         (sourceList : ListData) (s1 : Trace) (e : string) (s2 : Trace),
    resolveSource env this url h = (Resolved sourceList, s1) ->
    createBskyList env (configOf sourceList) (h ++ s1) = (Rejected e, s2) ->
    createListFromStarterPack env this url h
    = (Rejected ("Failed to create list: " ++ e)%string, s1 ++ s2)
    /\ memberCreateCalls (s1 ++ s2) = [].
Proof.
  intros env this url h sourceList s1 e s2 Hres Hcreate.
  split.
  - rewrite createList_cases, Hres, Hcreate. reflexivity.
  - unfold memberCreateCalls. rewrite filter_app.
    pose proof (resolveSource_creates_nothing env this url h) as H1.
    rewrite Hres in H1. simpl in H1. apply no_create_no_member in H1. destruct H1 as [H1 _].
    pose proof (createBskyList_creates_no_member env (configOf sourceList) (h ++ s1)) as H2.
    rewrite Hcreate in H2. unfold memberCreateCalls in *. simpl in H2.
    rewrite H1, H2. reflexivity.
Qed.

Lemma C2_read_only_account :
  createListFromStarterPack readOnlyEnv new_ListConverter bobPage []
  = (Rejected "Failed to create list: Unauthorized",
     [ CallGetStarterPack "at://bob/app.bsky.graph.list/xyz";
       CallGetList "at://bob/app.bsky.graph.list/xyz" ]
     ++ [ CallCreateRecord
            (listRequest "did:plc:owner" (configOf friendsList) "k3x9q"
                         "2024-11-20T10:00:00.000Z") ])
  /\ memberCreateCalls
       ([ CallGetStarterPack "at://bob/app.bsky.graph.list/xyz";
          CallGetList "at://bob/app.bsky.graph.list/xyz" ]
        ++ [ CallCreateRecord
               (listRequest "did:plc:owner" (configOf friendsList) "k3x9q"
                            "2024-11-20T10:00:00.000Z") ]) = [].
Proof.
  apply (C2_list_create_failure_issues_no_member_call
           readOnlyEnv new_ListConverter bobPage [] friendsList);
    reflexivity.
Defined.

(** C9, as the code has it: for a source list without members the list is
    still created, with one list-create call, no member-create call is
    issued, and the run succeeds: it returns the record of the created list,
    as the service has answered it. *)
Theorem C9_empty_source_list :
  forall (env : Env) (this : ListConverter) (url : URL) (h : Trace)
         (sourceList : ListData) (s1 : Trace) (repo : string) (newList : RecordRef),
    resolveSource env this url h = (Resolved sourceList, s1) ->
    items sourceList = [] ->
    assertDid env = Normal repo ->
    let request :=
      listRequest repo (configOf sourceList)
                  (randomSuffix env (h ++ s1)) (now env (h ++ s1)) in
    agent_createRecord env (h ++ s1) request = Resolved newList ->
    let run := createListFromStarterPack env this url h in
    run = (Resolved newList, s1 ++ [CallCreateRecord request])
    /\ listCreateCalls (snd run) = [CallCreateRecord request]
    /\ memberCreateCalls (snd run) = [].
Proof.
  intros env this url h sourceList s1 repo newList Hres Hitems Hd request Hnew run.
  assert (Hrun : run = (Resolved newList, s1 ++ [CallCreateRecord request])).
  { unfold run. rewrite createList_cases, Hres.
    pose proof (createBskyList_calls env (configOf sourceList) (h ++ s1)) as Hc.
    rewrite Hd in Hc. rewrite Hc. fold request. rewrite Hnew.
    rewrite addUsersToList_join. unfold memberPromises. simpl.
    rewrite Hitems. reflexivity. }
  pose proof (resolveSource_creates_nothing env this url h) as H1.
  rewrite Hres in H1. simpl in H1. apply no_create_no_member in H1. destruct H1 as [Hm Hl].
  unfold memberCreateCalls, listCreateCalls in *.
  rewrite Hrun. simpl. rewrite !filter_app, Hm, Hl.
  repeat split; reflexivity.
Qed.

Lemma C9_pack_without_members :
  createListFromStarterPack emptyEnv new_ListConverter bobPage []
  = (Resolved Mock.created,
     [ CallGetStarterPack "at://bob/app.bsky.graph.list/xyz";
       CallGetList "at://bob/app.bsky.graph.list/xyz";
       CallCreateRecord
         (listRequest "did:plc:owner" (configOf emptyList) "k3x9q"
                      "2024-11-20T10:00:00.000Z") ])
  /\ listCreateCalls (snd (createListFromStarterPack emptyEnv new_ListConverter bobPage []))
     = [ CallCreateRecord
           (listRequest "did:plc:owner" (configOf emptyList) "k3x9q"
                        "2024-11-20T10:00:00.000Z") ]
  /\ memberCreateCalls (snd (createListFromStarterPack emptyEnv new_ListConverter bobPage []))
     = [].
Proof.
  apply (C9_empty_source_list
           emptyEnv new_ListConverter bobPage [] emptyList
           [ CallGetStarterPack "at://bob/app.bsky.graph.list/xyz";
             CallGetList "at://bob/app.bsky.graph.list/xyz" ]
           "did:plc:owner" Mock.created);
    reflexivity.
Defined.

(** C9 as stated fails on the result: for the pack without members the run
    resolves with the record of the created list, the [response.data] of the
    list-create call, which has no [succeededMembers] and no [failedMembers]:
    both read as [undefined], not as an empty array. *)
Lemma C9_result_is_the_list_record :
  exists r : RecordRef,
    fst (createListFromStarterPack emptyEnv new_ListConverter bobPage []) = Resolved r
    /\ agent_createRecord
         emptyEnv
         [ CallGetStarterPack "at://bob/app.bsky.graph.list/xyz";
           CallGetList "at://bob/app.bsky.graph.list/xyz" ]
         (listRequest "did:plc:owner" (configOf emptyList) "k3x9q"
                      "2024-11-20T10:00:00.000Z")
       = Resolved r
    /\ RecordRef_read r "uri" = Some "at://did:plc:owner/app.bsky.graph.list/new1"
    /\ RecordRef_read r "succeededMembers" = None
    /\ RecordRef_read r "failedMembers" = None.
Proof.
  exists Mock.created. repeat split; reflexivity.
Qed.

(** The calls of a run that has created its list: those of the resolver
    chain, the list-create call, and one member-create call per user. *)
Lemma createList_calls_after_list_create
      (env : Env) (this : ListConverter) (url : URL) (h : Trace)
      (sourceList : ListData) (s1 : Trace) (newList : RecordRef) (s2 : Trace) :
  resolveSource env this url h = (Resolved sourceList, s1) ->
  createBskyList env (configOf sourceList) (h ++ s1) = (Resolved newList, s2) ->
  snd (createListFromStarterPack env this url h)
  = s1 ++ s2 ++ snd (mapPromises (addUser env (uri newList)) (items sourceList)
                                 (h ++ s1 ++ s2)).
Proof.
  intros Hres Hcreate. rewrite createList_cases, Hres, Hcreate, addUsersToList_join.
  simpl. destruct (Promise_all _) as [vs|e|]; reflexivity.
Qed.

Lemma createList_outcome_after_list_create
      (env : Env) (this : ListConverter) (url : URL) (h : Trace)
      (sourceList : ListData) (s1 : Trace) (newList : RecordRef) (s2 : Trace) :
  resolveSource env this url h = (Resolved sourceList, s1) ->
  createBskyList env (configOf sourceList) (h ++ s1) = (Resolved newList, s2) ->
  fst (createListFromStarterPack env this url h)
  = match Promise_all (memberPromises env (uri newList) (items sourceList)
                                      (h ++ s1 ++ s2)) with
    | Resolved _ => Resolved newList
    | Rejected _ =>
        Rejected ("Failed to create list: " ++ msgNotDefined (engine env) "listUri")%string
    | Pending => Pending
    end.
Proof.
  intros Hres Hcreate. rewrite createList_cases, Hres, Hcreate, addUsersToList_join.
  simpl. destruct (Promise_all _) as [vs|e|]; reflexivity.
Qed.

(** C1, as the code has it: once the list is created, one member-create call
    is issued for every member of the source list, in its order and whatever
    the fate of the others ([N] calls, none repeated); the run succeeds with
    the new list when all [N] calls succeed, and fails when at least one of
    them fails. *)
Theorem C1_member_failures_fail_the_run :
  forall (env : Env) (this : ListConverter) (url : URL) (h : Trace)
         (sourceList : ListData) (s1 : Trace) (newList : RecordRef) (s2 : Trace),
    resolveSource env this url h = (Resolved sourceList, s1) ->
    createBskyList env (configOf sourceList) (h ++ s1) = (Resolved newList, s2) ->
    let run := createListFromStarterPack env this url h in
    let promises :=
      memberPromises env (uri newList) (items sourceList) (h ++ s1 ++ s2) in
    map subjectOfCall (memberCreateCalls (snd run))
    = map (fun u => Some (did (subject u))) (items sourceList)
    /\ length promises = length (items sourceList)
    /\ (fulfilments promises = length promises -> fst run = Resolved newList)
    /\ (0 < rejections promises ->
        exists e, fst run = Rejected ("Failed to create list: " ++ e)%string).
Proof.
  intros env this url h sourceList s1 newList s2 Hres Hcreate run promises.
  pose proof (createList_outcome_after_list_create _ _ _ _ _ _ _ _ Hres Hcreate) as Hout.
  fold run promises in Hout.
  repeat split.
  - unfold run. rewrite (createList_calls_after_list_create _ _ _ _ _ _ _ _ Hres Hcreate).
    destruct (createBskyList_resolved_owner _ _ _ _ _ Hcreate) as (repo & Hd & Hs2).
    pose proof (resolveSource_creates_nothing env this url h) as H1.
    rewrite Hres in H1. simpl in H1. apply no_create_no_member in H1.
    destruct H1 as [H1 _].
    pose proof (mapPromises_addUser_calls env repo (uri newList) (items sourceList)
                  (h ++ s1 ++ s2) Hd) as [Hsubjects Hall].
    unfold memberCreateCalls in *. rewrite !filter_app, H1.
    rewrite (filter_all _ _ Hall). subst s2. simpl. exact Hsubjects.
  - apply mapPromises_length.
  - intros Hall. rewrite Hout.
    destruct (Promise_all_resolved _ Hall) as [vs E]. rewrite E. reflexivity.
  - intros Hsome. rewrite Hout.
    destruct (Promise_all_rejected _ Hsome) as [e E]. rewrite E. eauto.
Qed.

Lemma C1_refused_member_fails_friends_run :
  exists e,
    fst (createListFromStarterPack flakyEnv new_ListConverter bobPage [])
    = Rejected ("Failed to create list: " ++ e)%string.
Proof.
  apply (C1_member_failures_fail_the_run
           flakyEnv new_ListConverter bobPage [] friendsList
           [ CallGetStarterPack "at://bob/app.bsky.graph.list/xyz";
             CallGetList "at://bob/app.bsky.graph.list/xyz" ]
           Mock.created
           [ CallCreateRecord
               (listRequest "did:plc:owner" (configOf friendsList) "k3x9q"
                            "2024-11-20T10:00:00.000Z") ]).
  - reflexivity.
  - reflexivity.
  - vm_compute. lia.
Defined.

(** C1 as stated fails: the list is created, two member-create calls are
    issued and one of them is refused; the run does not return the list, it
    raises. *)
Lemma C1_one_refused_member_of_two :
  createBskyList flakyEnv (configOf friendsList)
                 [ CallGetStarterPack "at://bob/app.bsky.graph.list/xyz";
                   CallGetList "at://bob/app.bsky.graph.list/xyz" ]
  = (Resolved Mock.created,
     [ CallCreateRecord
         (listRequest "did:plc:owner" (configOf friendsList) "k3x9q"
                      "2024-11-20T10:00:00.000Z") ])
  /\ length (memberCreateCalls
               (snd (createListFromStarterPack flakyEnv new_ListConverter bobPage []))) = 2
  /\ memberPromises flakyEnv (uri Mock.created) (items friendsList)
       [ CallGetStarterPack "at://bob/app.bsky.graph.list/xyz";
         CallGetList "at://bob/app.bsky.graph.list/xyz";
         CallCreateRecord
           (listRequest "did:plc:owner" (configOf friendsList) "k3x9q"
                        "2024-11-20T10:00:00.000Z") ]
     = [Resolved Mock.created; Rejected "Rate Limit Exceeded"]
  /\ fst (createListFromStarterPack flakyEnv new_ListConverter bobPage [])
     = Rejected "Failed to create list: listUri is not defined".
Proof. repeat split; reflexivity. Qed.

(** ** Failures of the resolver chain *)

Lemma lift_outcome {A} (c : Completion A) (h : Trace) : lift c h = (outcomeOf c, []).
Proof. destruct c; reflexivity. Qed.

Lemma failingFetch_rejects (env : Env) (atUri : string) (h : Trace) (stage : Stage) :
  failingFetch env atUri h = Some stage ->
  exists cause s,
    (starterPack <- getStarterPack env atUri ;;
     listAtUri <- lift (starterPackListUri env starterPack) ;;
     getList env listAtUri) h = (Rejected cause, s).
Proof.
  unfold failingFetch, bind.
  destruct (getStarterPack env atUri h) as [[starterPack|e|] s]; try discriminate; eauto.
  destruct (starterPackListUri env starterPack) as [listAtUri|e]; simpl; eauto.
  rewrite app_nil_r.
  destruct (agent_getList env (h ++ s) listAtUri) as [d|e|]; try discriminate; eauto.
Qed.

Lemma resolveSource_rejects_at_stage
      (env : Env) (this : ListConverter) (url : URL) (h : Trace) (stage : Stage) :
  failingStage env this url h = Some stage ->
  exists cause s, resolveSource env this url h = (Rejected cause, s).
Proof.
  unfold failingStage, resolveSource, getStarterPackUri.
  destruct (Js.startsWith (pathname url) "/starter-pack-short/").
  - destruct (getShortCode url) as [code|e]; [|discriminate].
    rewrite !bind_assoc. unfold bind at 1. simpl. rewrite app_nil_r.
    rewrite bind_assoc. unfold bind at 1.
    destruct (fetchStarterPackRedirect env this code h) as [[body|e|] s];
      try discriminate; eauto.
    destruct (getAtUri env (redirectTarget body)) as [atUri|e].
    + intros H. unfold bind at 1. simpl. rewrite app_nil_r.
      destruct (failingFetch_rejects env atUri (h ++ s) stage H) as (cause & s' & E).
      rewrite E. eauto.
    + intros _. unfold bind at 1. simpl. eauto.
  - destruct (getAtUri env (ArgURL url)) as [atUri|e].
    + intros H. unfold bind at 1. simpl. rewrite app_nil_r.
      destruct (failingFetch_rejects env atUri h stage H) as (cause & s' & E).
      rewrite E. eauto.
    + intros _. unfold bind at 1. simpl. eauto.
Qed.

(** C3, as the code has it: when the resolver chain fails at a stage, the
    run raises a plain error whose message is [Failed to create list: ]
    followed by the message of the cause; the error carries no stage. *)
Theorem C3_resolver_failure_is_reported_by_message :
  forall (env : Env) (this : ListConverter) (url : URL) (h : Trace) (stage : Stage),
    failingStage env this url h = Some stage ->
    exists cause s,
      resolveSource env this url h = (Rejected cause, s)
      /\ createListFromStarterPack env this url h
         = (Rejected ("Failed to create list: " ++ cause)%string, s).
Proof.
  intros env this url h stage H.
  destruct (resolveSource_rejects_at_stage env this url h stage H) as (cause & s & E).
  exists cause, s. split; [exact E|].
  rewrite createList_cases, E. reflexivity.
Qed.

Lemma C3_pack_service_down :
  exists cause s,
    resolveSource packDownEnv new_ListConverter bobPage [] = (Rejected cause, s)
    /\ createListFromStarterPack packDownEnv new_ListConverter bobPage []
       = (Rejected ("Failed to create list: " ++ cause)%string, s).
Proof.
  apply (C3_resolver_failure_is_reported_by_message
           packDownEnv new_ListConverter bobPage [] packFetch).
  reflexivity.
Defined.

(** C3 as stated fails: a failure of the pack fetch and a failure of the
    list fetch with the same cause raise the same error, so the stage cannot
    be told from what is raised. *)
Lemma C3_stage_cannot_be_told_from_the_error :
  failingStage packDownEnv new_ListConverter bobPage [] = Some packFetch
  /\ failingStage listDownEnv new_ListConverter bobPage [] = Some listFetch
  /\ fst (createListFromStarterPack packDownEnv new_ListConverter bobPage [])
     = Rejected "Failed to create list: Upstream Failure"
  /\ fst (createListFromStarterPack listDownEnv new_ListConverter bobPage [])
     = Rejected "Failed to create list: Upstream Failure".
Proof. repeat split; reflexivity. Qed.

(** ** Short links *)

Lemma mapPromises_agent_calls (env : Env) (listUri : string)
      (users : list ListItemView) (h : Trace) :
  Forall (fun c => isAgentCall c = true)
         (snd (mapPromises (addUser env listUri) users h)).
Proof.
  revert h. induction users as [|u us IH]; intros h; simpl; [constructor|].
  assert (Hu : Forall (fun c => isAgentCall c = true) (snd (addUser env listUri u h))).
  { unfold addUser, cbind, createRecord. destruct (assertDid env); repeat constructor. }
  destruct (addUser env listUri u h) as [p s]. specialize (IH (h ++ s)).
  destruct (mapPromises (addUser env listUri) us (h ++ s)) as [ps s'].
  simpl in *. apply Forall_app. split; assumption.
Qed.

Lemma createBskyList_agent_calls (env : Env) (config : ListConfig) (h : Trace) :
  Forall (fun c => isAgentCall c = true) (snd (createBskyList env config h)).
Proof.
  pose proof (createBskyList_calls env config h) as H.
  destruct (assertDid env); rewrite H; repeat constructor.
Qed.

(** The calls of a run: those of [#getStarterPackUri], then calls made
    through the agent. *)
Lemma createList_calls (env : Env) (this : ListConverter) (url : URL) (h : Trace) :
  exists rest,
    snd (createListFromStarterPack env this url h)
    = snd (getStarterPackUri env this url h) ++ rest
    /\ Forall (fun c => isAgentCall c = true) rest.
Proof.
  destruct (resolveSource_calls env this url h) as (reads & E & Hreads).
  assert (Hreads' : Forall (fun c => isAgentCall c = true) reads).
  { eapply Forall_impl; [|exact Hreads]. intros [] Hc; simpl in *; trivial; discriminate. }
  rewrite createList_cases.
  destruct (resolveSource env this url h) as [[sourceList|e|] s1]; simpl in E; subst s1;
    try (exists reads; split; [reflexivity | assumption]).
  pose proof (createBskyList_agent_calls env (configOf sourceList)
                (h ++ snd (getStarterPackUri env this url h) ++ reads)) as H2.
  destruct (createBskyList env (configOf sourceList) _) as [[newList|e|] s2];
    simpl in H2;
    try (exists (reads ++ s2); split;
         [ rewrite app_assoc; reflexivity | apply Forall_app; split; assumption ]).
  rewrite addUsersToList_join.
  pose proof (mapPromises_agent_calls env (uri newList) (items sourceList)
                (h ++ (snd (getStarterPackUri env this url h) ++ reads) ++ s2)) as H3.
  simpl in *.
  exists (reads ++ s2 ++ snd (mapPromises (addUser env (uri newList)) (items sourceList)
                                (h ++ (snd (getStarterPackUri env this url h) ++ reads) ++ s2))).
  split.
  - destruct (Promise_all _); simpl; rewrite <- !app_assoc; reflexivity.
  - repeat (apply Forall_app; split); assumption.
Qed.

Lemma isRedirect_redirectCall (this : ListConverter) (code : string) :
  isRedirect (redirectCall this code) = true.
Proof. apply startsWith_app. Qed.

Lemma redirectCalls_agent (tr : Trace) :
  Forall (fun c => isAgentCall c = true) tr -> redirectCalls tr = [].
Proof.
  intros H. apply filter_none. eapply Forall_impl; [|exact H].
  intros [] Hc; simpl in *; trivial; discriminate.
Qed.

(** Once the identifier is derived, the pack read for it is the next call. *)
Lemma resolveSource_reads_the_identifier
      (env : Env) (this : ListConverter) (url : URL) (h : Trace)
      (atUri : string) (s0 : Trace) :
  getStarterPackUri env this url h = (Resolved atUri, s0) ->
  exists rest,
    snd (resolveSource env this url h) = s0 ++ CallGetStarterPack atUri :: rest.
Proof.
  intros H. unfold resolveSource, bind at 1. rewrite H.
  unfold bind at 1, getStarterPack at 1.
  destruct (agent_getStarterPack env (h ++ s0) atUri) as [starterPack|e|];
    try (exists []; reflexivity).
  destruct ((listAtUri <- lift (starterPackListUri env starterPack) ;;
             getList env listAtUri) ((h ++ s0) ++ [CallGetStarterPack atUri])) as [o s'].
  exists s'. reflexivity.
Qed.

Lemma createList_calls_extend (env : Env) (this : ListConverter) (url : URL) (h : Trace) :
  exists rest,
    snd (createListFromStarterPack env this url h)
    = snd (resolveSource env this url h) ++ rest.
Proof.
  rewrite createList_cases.
  destruct (resolveSource env this url h) as [[sourceList|e|] s1];
    try (exists []; simpl; rewrite app_nil_r; reflexivity).
  destruct (createBskyList env (configOf sourceList) (h ++ s1)) as [[newList|e|] s2];
    try (exists s2; reflexivity).
  destruct (addUsersToList env _ (h ++ s1 ++ s2)) as [[[]|e|] s3];
    exists (s2 ++ s3); reflexivity.
Qed.

(** C8: for a short link [/starter-pack-short/{code}], [#getStarterPackUri]
    issues exactly one request, the redirect request for the code, whatever
    becomes of it, and the whole run issues no other redirect request.  When
    the redirector answers with the address of a pack page
    [/starter-pack/{handle}/{key}] (or [/start/{handle}/{key}]), the
    identifier derived is [at://{handle}/app.bsky.graph.list/{key}], and that
    is the pack the run reads next. *)
Theorem C8_short_link_one_redirect_call :
  forall (env : Env) (this : ListConverter) (url : URL) (h : Trace) (code : string),
    pathname url = ("/starter-pack-short/" ++ code)%string ->
    Js.nonEmpty code = true -> Js.occurs "/" code = false ->
    snd (getStarterPackUri env this url h) = [redirectCall this code]
    /\ redirectCalls (snd (createListFromStarterPack env this url h))
       = [redirectCall this code]
    /\ (forall (body : Json) (address : string) (target : URL) (first handle key : string),
          fst (fetchStarterPackRedirect env this code h) = Resolved body ->
          json_url body = Some address ->
          new_URL env (ArgString address) = Normal target ->
          first = "starter-pack" \/ first = "start" ->
          pathname target = ("/" ++ first ++ "/" ++ handle ++ "/" ++ key)%string ->
          Js.nonEmpty handle = true -> Js.nonEmpty key = true ->
          Js.occurs "/" handle = false -> Js.occurs "/" key = false ->
          let atUri := ("at://" ++ handle ++ "/app.bsky.graph.list/" ++ key)%string in
          getStarterPackUri env this url h = (Resolved atUri, [redirectCall this code])
          /\ exists rest,
              snd (createListFromStarterPack env this url h)
              = redirectCall this code :: CallGetStarterPack atUri :: rest).
Proof.
  intros env this url h code Hpath Nc Sc.
  assert (Hshort : Js.startsWith (pathname url) "/starter-pack-short/" = true).
  { rewrite Hpath. apply startsWith_app. }
  pose proof (getShortCode_accepts url code Hpath Nc Sc) as Hcode.
  assert (Hcalls : snd (getStarterPackUri env this url h) = [redirectCall this code]).
  { rewrite getStarterPackUri_calls, Hshort, Hcode. reflexivity. }
  split; [exact Hcalls|]. split.
  - destruct (createList_calls env this url h) as (rest & E & Hrest).
    rewrite E, Hcalls. unfold redirectCalls. rewrite filter_app.
    fold (redirectCalls rest). rewrite (redirectCalls_agent _ Hrest).
    change (filter isRedirect [redirectCall this code])
      with (if isRedirect (redirectCall this code) then [redirectCall this code] else []).
    rewrite isRedirect_redirectCall. reflexivity.
  - intros body address target first handle key Hbody Haddress Htarget Hfirst Hp Nh Nk Sh Sk atUri.
    assert (Hat : getAtUri env (redirectTarget body) = Normal atUri).
    { unfold redirectTarget. rewrite Haddress.
      apply (getAtUri_three_segments env _ target first handle key); trivial;
        destruct Hfirst; subst first; reflexivity. }
    assert (Huri : getStarterPackUri env this url h
                   = (Resolved atUri, [redirectCall this code])).
    { rewrite (surjective_pairing (getStarterPackUri env this url h)), Hcalls. f_equal.
      unfold getStarterPackUri. rewrite Hshort, Hcode.
      unfold bind at 1. simpl. rewrite app_nil_r. unfold bind.
      destruct (fetchStarterPackRedirect env this code h) as [o s].
      simpl in Hbody. subst o. rewrite lift_outcome, Hat. reflexivity. }
    split; [exact Huri|].
    destruct (resolveSource_reads_the_identifier env this url h atUri _ Huri) as (r1 & E1).
    destruct (createList_calls_extend env this url h) as (r2 & E2).
    exists (r1 ++ r2). rewrite E2, E1. simpl. reflexivity.
Qed.

Lemma C8_code_xyz789_leads_to_carol :
  getStarterPackUri carolEnv new_ListConverter shortPage []
  = (Resolved "at://carol/app.bsky.graph.list/k1", [redirectCall new_ListConverter "xyz789"])
  /\ redirectCalls (snd (createListFromStarterPack carolEnv new_ListConverter shortPage []))
     = [redirectCall new_ListConverter "xyz789"].
Proof.
  destruct (C8_short_link_one_redirect_call
              carolEnv new_ListConverter shortPage [] "xyz789" eq_refl eq_refl eq_refl)
    as (_ & Hone & Hderive).
  split; [|exact Hone].
  apply (Hderive (Mock.redirectsTo "https://bsky.app/starter-pack/carol/k1")
                 "https://bsky.app/starter-pack/carol/k1"
                 {| href := "https://bsky.app/starter-pack/carol/k1";
                    hostname := "bsky.app";
                    pathname := "/starter-pack/carol/k1" |}
                 "starter-pack" "carol" "k1");
    solve [reflexivity | left; reflexivity].
Defined.

(** The scenario of the design document for short links. *)
Example carol_short_link :
  getStarterPackUri carolEnv new_ListConverter shortPage []
  = (Resolved "at://carol/app.bsky.graph.list/k1",
     [CallFetch "https://go.bsky.app/xyz789" [("accept", "application/json")]
                (Some 5000%N)]).
Proof. reflexivity. Qed.

(** ** Time budgets *)

(** A request of [HttpClient] that the network does not settle within the
    budget is aborted and reported as a failed network request. *)
Lemma HttpClient_fetch_expired (env : Env) (this : HttpClient) (url : string)
      (headers : Headers) (h : Trace) :
  expires (timeout this) (network env h url headers) = true ->
  HttpClient_fetch env this url headers h
  = (Rejected ("Network request failed: " ++ msgAborted (engine env))%string,
     [CallFetch url headers (Some (timeout this))]).
Proof.
  unfold expires, HttpClient_fetch, bind, tryCatch, fetch. intros H.
  destruct (latency (network env h url headers)) as [ms|]; simpl.
  - apply negb_true_iff in H. rewrite H. reflexivity.
  - reflexivity.
Qed.

Lemma createList_redirect_expired
      (env : Env) (this : ListConverter) (url : URL) (h : Trace) (code : string) :
  pathname url = ("/starter-pack-short/" ++ code)%string ->
  Js.nonEmpty code = true -> Js.occurs "/" code = false ->
  expires (timeout (httpClient this))
          (network env h ("https://go.bsky.app/" ++ code)
                   [("accept", CONTENT_TYPE_JSON this)]) = true ->
  createListFromStarterPack env this url h
  = (Rejected ("Failed to create list: Network request failed: "
                 ++ msgAborted (engine env))%string,
     [redirectCall this code]).
Proof.
  intros Hpath Nc Sc Hexp.
  assert (Hshort : Js.startsWith (pathname url) "/starter-pack-short/" = true).
  { rewrite Hpath. apply startsWith_app. }
  rewrite createList_cases. unfold resolveSource, getStarterPackUri.
  rewrite Hshort, (getShortCode_accepts url code Hpath Nc Sc).
  rewrite !bind_assoc. unfold bind at 1. simpl. rewrite app_nil_r.
  rewrite bind_assoc. unfold bind at 1. unfold fetchStarterPackRedirect.
  rewrite (HttpClient_fetch_expired env _ _ _ h Hexp). reflexivity.
Qed.

(** C4, as the code has it: the only call of a run that is wrapped in a
    cancellation scope is the redirect request, with a budget of 5000
    milliseconds; when the redirector does not answer within the budget the
    request is aborted and the run fails with a network error.  The other
    calls are made through the agent, without a budget of their own. *)
Theorem C4_only_the_redirect_request_is_bounded :
  forall (env : Env) (url : URL) (h : Trace),
    let run := createListFromStarterPack env new_ListConverter url h in
    Forall (fun c => (isRedirect c = true /\ callBudget c = Some 5000%N)
                     \/ (isAgentCall c = true /\ callBudget c = None))
           (snd run)
    /\ (forall code,
          pathname url = ("/starter-pack-short/" ++ code)%string ->
          Js.nonEmpty code = true -> Js.occurs "/" code = false ->
          expires 5000 (network env h ("https://go.bsky.app/" ++ code)
                                [("accept", "application/json")])
          = true ->
          run = (Rejected ("Failed to create list: Network request failed: "
                             ++ msgAborted (engine env))%string,
                 [CallFetch ("https://go.bsky.app/" ++ code)
                            [("accept", "application/json")] (Some 5000%N)])).
Proof.
  intros env url h run. split.
  - unfold run.
    destruct (createList_calls env new_ListConverter url h) as (rest & E & Hrest).
    rewrite E, getStarterPackUri_calls. apply Forall_app. split.
    + destruct (Js.startsWith (pathname url) "/starter-pack-short/"); [|constructor].
      destruct (getShortCode url) as [code|e]; constructor; [|constructor].
      left. split; [apply isRedirect_redirectCall | reflexivity].
    + eapply Forall_impl; [|exact Hrest].
      intros [] Hc; simpl in *; try discriminate; auto.
  - intros code Hpath Nc Sc Hexp.
    exact (createList_redirect_expired env new_ListConverter url h code Hpath Nc Sc Hexp).
Qed.

Lemma C4_slow_redirector_is_cut_off :
  createListFromStarterPack slowRedirectEnv new_ListConverter shortPage []
  = (Rejected "Failed to create list: Network request failed: signal is aborted without reason",
     [CallFetch "https://go.bsky.app/xyz789" [("accept", "application/json")]
                (Some 5000%N)]).
Proof.
  apply (proj2 (C4_only_the_redirect_request_is_bounded slowRedirectEnv shortPage [])
               "xyz789");
    reflexivity.
Defined.

(** C4 as stated fails: the pack fetch has no budget, and a pack service that
    never answers leaves the run pending for ever. *)
Lemma C4_stalled_pack_service_blocks_the_run :
  createListFromStarterPack stalledEnv new_ListConverter bobPage []
  = (Pending, [CallGetStarterPack "at://bob/app.bsky.graph.list/xyz"])
  /\ callBudget (CallGetStarterPack "at://bob/app.bsky.graph.list/xyz") = None.
Proof. split; reflexivity. Qed.

(** ** Scenarios of the design document *)

Example parse_bobPage :
  Mock.parseHttp "https://bsky.app/starter-pack/bob/xyz" = Some bobPage.
Proof. reflexivity. Qed.

Example parse_with_query :
  Mock.parseHttp "https://bsky.app/start/bob/xyz?ref=share#top"
  = Some {| href := "https://bsky.app/start/bob/xyz?ref=share#top";
            hostname := "bsky.app";
            pathname := "/start/bob/xyz" |}.
Proof. reflexivity. Qed.

Example parse_undefined : Mock.parseHttp "undefined" = None.
Proof. reflexivity. Qed.

Example parse_with_port :
  Mock.parseHttp otherPortAddress
  = Some {| href := "https://bsky.app:8443/starter-pack/bob/xyz";
            hostname := "bsky.app";
            pathname := "/starter-pack/bob/xyz" |}
  /\ Mock.parseHttp "HTTPS://alice@BSKY.APP:443/start/bob/xyz"
     = Some {| href := "https://alice@bsky.app/start/bob/xyz";
               hostname := "bsky.app";
               pathname := "/start/bob/xyz" |}
  /\ Mock.parseHttp "http://bsky.app" 
     = Some {| href := "http://bsky.app/"; hostname := "bsky.app"; pathname := "/" |}
  /\ Mock.parseHttp "https://bsky.app:99999/" = None.
Proof. repeat split; reflexivity. Qed.

Example split_examples :
  Js.split "/" "" = [""]
  /\ Js.split "/" "/starter-pack/bob/xyz" = [""; "starter-pack"; "bob"; "xyz"]
  /\ Js.segmentsOf "/starter-pack//xyz/" = ["starter-pack"; "xyz"].
Proof. repeat split; reflexivity. Qed.

(** One list-create call with a name that starts with [Friends - ], then the
    two member-create calls. *)
Example friends_scenario :
  createListFromStarterPack friendsEnv new_ListConverter bobPage []
  = (Resolved Mock.created,
     [ CallGetStarterPack "at://bob/app.bsky.graph.list/xyz";
       CallGetList "at://bob/app.bsky.graph.list/xyz";
       CallCreateRecord
         {| repo := "did:plc:owner"; collection := "app.bsky.graph.list";
            record := ListRecord "app.bsky.graph.defs#curatelist" "Friends - k3x9q"
                                 (Some "d") "2024-11-20T10:00:00.000Z" |};
       CallCreateRecord
         {| repo := "did:plc:owner"; collection := "app.bsky.graph.listitem";
            record := ListItemRecord "did:1" "at://did:plc:owner/app.bsky.graph.list/new1"
                                     "2024-11-20T10:00:00.000Z" |};
       CallCreateRecord
         {| repo := "did:plc:owner"; collection := "app.bsky.graph.listitem";
            record := ListItemRecord "did:2" "at://did:plc:owner/app.bsky.graph.list/new1"
                                     "2024-11-20T10:00:00.000Z" |} ]).
Proof. reflexivity. Qed.

Example friends_answer :
  fst (handleCreateList friendsEnv (Mock.pageOf "https://bsky.app/starter-pack/bob/xyz") [])
  = Resolved {| success := true;
                data := Some {| payload_list := Mock.created |};
                error := None |}.
Proof. reflexivity. Qed.

(** The navigation script on the same page: two reads, each with a budget. *)
Example navigation_scenario :
  Navigation.listener navigationEnv
                      {| details_url := "https://bsky.app/starter-pack/bob/xyz" |} []
  = (Resolved tt,
     [ CallFetch
         "https://public.api.bsky.app/xrpc/app.bsky.graph.getStarterPack?starterPack=at://bob/app.bsky.graph.list/xyz"
         [("Content-Type", "application/json")] (Some 5000%N);
       CallFetch
         "https://public.api.bsky.app/xrpc/app.bsky.graph.getList?list=at://bob/app.bsky.graph.list/xyz"
         [("Content-Type", "application/json")] (Some 5000%N) ]).
Proof. reflexivity. Qed.

(** A short link without a code is refused before any request. *)
Example short_link_without_code :
  createListFromStarterPack
    friendsEnv new_ListConverter
    {| href := "https://bsky.app/starter-pack-short/";
       hostname := "bsky.app";
       pathname := "/starter-pack-short/" |} []
  = (Rejected "Failed to create list: Invalid URL path structure", []).
Proof. reflexivity. Qed.

(** An answer of the redirector that is not a success. *)
Example redirector_not_found :
  createListFromStarterPack
    (Mock.scenario
       (fun _ => {| latency := Some 50%N;
                    arrival := Normal {| ok := false; status := 404;
                                         json := Rejected "Unexpected end of JSON input" |} |})
       (fun _ => Pending) (fun _ => Pending) (fun _ => Pending))
    new_ListConverter shortPage []
  = (Rejected "Failed to create list: Network request failed: HTTP error! status: 404",
     [CallFetch "https://go.bsky.app/xyz789" [("accept", "application/json")]
                (Some 5000%N)]).
Proof. reflexivity. Qed.

(** * Further properties of the code *)

(** ** [HttpClient.fetch] *)

(** [HttpClient.fetch] issues exactly one request, with a signal of its
    budget.  Whatever goes wrong before the body is read (the budget expires,
    the network fails, the status is not a success) is reported with the
    prefix [Network request failed: ]; the fate of [response.json()] is passed
    on as it is, without the prefix. *)
Theorem HttpClient_fetch_outcomes :
  forall (env : Env) (this : HttpClient) (url : string) (headers : Headers) (h : Trace),
    HttpClient_fetch env this url headers h
    = (if expires (timeout this) (network env h url headers)
       then Rejected ("Network request failed: " ++ msgAborted (engine env))%string
       else
         match arrival (network env h url headers) with
         | Throw e => Rejected ("Network request failed: " ++ e)%string
         | Normal response =>
             if ok response then json response
             else Rejected ("Network request failed: HTTP error! status: "
                              ++ Js.showNat (status response))%string
         end,
       [CallFetch url headers (Some (timeout this))]).
Proof.
  intros env this url headers h.
  unfold HttpClient_fetch, expires, bind, tryCatch, fetch, await, throw, ret.
  destruct (network env h url headers) as [[ms|] [r|e]]; simpl;
    try destruct (ms <? timeout this)%N; simpl;
    try destruct (ok r); simpl; rewrite ?app_nil_r; try reflexivity;
    destruct (json r); reflexivity.
Qed.

(** ** [#getShortCode] *)

(** [#getShortCode] returns a code exactly when the path has a second
    non-empty segment, and the code is that segment. *)
Theorem getShortCode_second_segment :
  forall (url : URL) (code : string),
    getShortCode url = Normal code
    <-> Js.index (Js.segmentsOf (pathname url)) 1 = Some code.
Proof.
  intros url code. unfold getShortCode, Js.index.
  destruct (pathname url) as [|c p] eqn:Hp; simpl.
  - split; discriminate.
  - fold (Js.segmentsOf (String c p)).
    destruct (Js.segmentsOf (String c p)) as [|a [|b rest]]; simpl;
      split; intros H; try discriminate; congruence.
Qed.

(** ** Runs of [createListFromStarterPack] *)

(** Every call of [map] is a member-create request of the agent's owner for a
    user of the array and the list it was given. *)
Lemma mapPromises_addUser_requests (env : Env) (listUri : string)
      (users : list ListItemView) (h : Trace) (c : Call) :
  In c (snd (mapPromises (addUser env listUri) users h)) ->
  exists repo user createdAt,
    assertDid env = Normal repo
    /\ In user users
    /\ c = CallCreateRecord (listItemRequest repo user listUri createdAt).
Proof.
  revert h. induction users as [|u us IH]; intros h; simpl; [contradiction|].
  unfold addUser at 1. unfold cbind, createRecord.
  destruct (assertDid env) as [repo|e] eqn:Hd.
  - specialize (IH (h ++ [CallCreateRecord (listItemRequest repo u listUri (now env h))])).
    destruct (mapPromises (addUser env listUri) us _) as [ps s']. simpl in *.
    intros [Hc | Hc].
    + exists repo, u, (now env h). auto.
    + destruct (IH Hc) as (repo' & user & t & H1 & H2 & H3).
      exists repo', user, t. auto.
  - specialize (IH (h ++ [])).
    destruct (mapPromises (addUser env listUri) us _) as [ps s']. simpl in *.
    intros Hc. destruct (IH Hc) as (repo' & user & t & H1 & H2 & H3).
    exists repo', user, t. auto.
Qed.

(** A member is only ever added to the list the run has just created: when a
    run issues a member-create call, both reads have succeeded, the
    list-create call has been issued before it and has succeeded, and the
    call links a member of the source list to the new list. *)
Theorem member_create_follows_list_create :
  forall (env : Env) (this : ListConverter) (url : URL) (h : Trace) (c : Call),
    In c (memberCreateCalls (snd (createListFromStarterPack env this url h))) ->
    exists sourceList s1 repo newList members user createdAt,
      resolveSource env this url h = (Resolved sourceList, s1)
      /\ assertDid env = Normal repo
      /\ agent_createRecord
           env (h ++ s1)
           (listRequest repo (configOf sourceList)
                        (randomSuffix env (h ++ s1)) (now env (h ++ s1)))
         = Resolved newList
      /\ snd (createListFromStarterPack env this url h)
         = s1 ++ [CallCreateRecord
                    (listRequest repo (configOf sourceList)
                                 (randomSuffix env (h ++ s1)) (now env (h ++ s1)))]
              ++ members
      /\ In c members
      /\ In user (items sourceList)
      /\ c = CallCreateRecord (listItemRequest repo user (uri newList) createdAt).
Proof.
  intros env this url h c Hc.
  pose proof (resolveSource_creates_nothing env this url h) as Hres.
  rewrite createList_cases in Hc. rewrite createList_cases.
  unfold memberCreateCalls in Hc.
  destruct (resolveSource env this url h) as [[sourceList|e|] s1] eqn:Hsrc;
    cbn [snd] in Hres; apply no_create_no_member in Hres; destruct Hres as [Hres _];
    unfold memberCreateCalls in Hres;
    try (cbn [snd] in Hc; rewrite Hres in Hc; contradiction).
  pose proof (createBskyList_calls env (configOf sourceList) (h ++ s1)) as Hlist.
  destruct (assertDid env) as [repo|e] eqn:Hd.
  - rewrite Hlist in *.
    destruct (agent_createRecord env (h ++ s1) _) as [newList|e|] eqn:Hnew;
      try (cbn [snd] in Hc; rewrite filter_app, Hres in Hc; simpl in Hc; contradiction).
    rewrite addUsersToList_join in *. cbn [listUri users] in *.
    set (request := listRequest repo (configOf sourceList)
                                (randomSuffix env (h ++ s1)) (now env (h ++ s1))) in *.
    set (members := snd (mapPromises (addUser env (uri newList)) (items sourceList)
                                     (h ++ s1 ++ [CallCreateRecord request]))) in *.
    assert (Hin : In c members).
    { destruct (Promise_all _); cbn [snd] in Hc;
        rewrite !filter_app, Hres in Hc; simpl in Hc;
        apply filter_In in Hc; tauto. }
    destruct (mapPromises_addUser_requests env (uri newList) (items sourceList) _ c Hin)
      as (repo' & user & t & H1 & H2 & H3).
    assert (repo' = repo) by congruence. subst repo'.
    exists sourceList, s1, repo, newList, members, user, t.
    repeat split; trivial.
    destruct (Promise_all _); reflexivity.
  - rewrite Hlist in Hc. cbn [snd] in Hc.
    rewrite filter_app, Hres in Hc. simpl in Hc. contradiction.
Qed.

Lemma member_create_follows_list_create_friends :
  exists sourceList s1 repo newList members user createdAt,
    resolveSource friendsEnv new_ListConverter bobPage [] = (Resolved sourceList, s1)
    /\ assertDid friendsEnv = Normal repo
    /\ agent_createRecord
         friendsEnv ([] ++ s1)
         (listRequest repo (configOf sourceList)
                      (randomSuffix friendsEnv ([] ++ s1)) (now friendsEnv ([] ++ s1)))
       = Resolved newList
    /\ snd (createListFromStarterPack friendsEnv new_ListConverter bobPage [])
       = s1 ++ [CallCreateRecord
                  (listRequest repo (configOf sourceList)
                               (randomSuffix friendsEnv ([] ++ s1))
                               (now friendsEnv ([] ++ s1)))]
            ++ members
    /\ In (CallCreateRecord
             (listItemRequest "did:plc:owner" (Mock.member "did:2")
                              "at://did:plc:owner/app.bsky.graph.list/new1"
                              "2024-11-20T10:00:00.000Z")) members
    /\ In user (items sourceList)
    /\ CallCreateRecord
         (listItemRequest "did:plc:owner" (Mock.member "did:2")
                          "at://did:plc:owner/app.bsky.graph.list/new1"
                          "2024-11-20T10:00:00.000Z")
       = CallCreateRecord (listItemRequest repo user (uri newList) createdAt).
Proof.
  apply (member_create_follows_list_create friendsEnv new_ListConverter bobPage []).
  vm_compute. right. left. reflexivity.
Defined.

(** A page that is not a short link is resolved through the agent alone: the
    run sends nothing with [fetch], in particular nothing to the redirector. *)
Theorem pack_page_run_uses_the_agent_only :
  forall (env : Env) (this : ListConverter) (url : URL) (h : Trace),
    Js.startsWith (pathname url) "/starter-pack-short/" = false ->
    Forall (fun c => isAgentCall c = true)
           (snd (createListFromStarterPack env this url h))
    /\ redirectCalls (snd (createListFromStarterPack env this url h)) = [].
Proof.
  intros env this url h Hshort.
  destruct (createList_calls env this url h) as (rest & E & Hrest).
  rewrite getStarterPackUri_calls, Hshort in E. simpl in E. rewrite E.
  split; [exact Hrest | apply redirectCalls_agent; exact Hrest].
Qed.

Lemma pack_page_run_uses_the_agent_only_friends :
  Forall (fun c => isAgentCall c = true)
         (snd (createListFromStarterPack friendsEnv new_ListConverter bobPage []))
  /\ redirectCalls (snd (createListFromStarterPack friendsEnv new_ListConverter bobPage []))
     = [].
Proof.
  apply (pack_page_run_uses_the_agent_only friendsEnv new_ListConverter bobPage []).
  reflexivity.
Defined.

(** Whatever makes a run fail, the error it raises has a message that starts
    with [Failed to create list: ]. *)
Theorem run_failures_are_prefixed :
  forall (env : Env) (this : ListConverter) (url : URL) (h : Trace) (e : string),
    fst (createListFromStarterPack env this url h) = Rejected e ->
    exists cause, e = ("Failed to create list: " ++ cause)%string.
Proof.
  intros env this url h e. rewrite createList_cases.
  destruct (resolveSource env this url h) as [[sourceList|e1|] s1]; simpl;
    try (intros H; inversion H; eauto; fail); try discriminate.
  destruct (createBskyList env (configOf sourceList) (h ++ s1)) as [[newList|e2|] s2];
    simpl; try (intros H; inversion H; eauto; fail); try discriminate.
  destruct (addUsersToList env _ (h ++ s1 ++ s2)) as [[[]|e3|] s3];
    simpl; try (intros H; inversion H; eauto; fail); discriminate.
Qed.

Lemma run_failures_are_prefixed_read_only :
  fst (createListFromStarterPack readOnlyEnv new_ListConverter bobPage [])
  = Rejected "Failed to create list: Unauthorized"
  /\ exists cause,
      "Failed to create list: Unauthorized" = ("Failed to create list: " ++ cause)%string.
Proof.
  split; [reflexivity|].
  apply (run_failures_are_prefixed readOnlyEnv new_ListConverter bobPage []).
  reflexivity.
Defined.

(** A short link without a code is refused before anything is sent. *)
Theorem short_link_without_code_is_refused :
  forall (env : Env) (this : ListConverter) (url : URL) (h : Trace),
    Js.startsWith (pathname url) "/starter-pack-short/" = true ->
    length (Js.segmentsOf (pathname url)) < 2 ->
    createListFromStarterPack env this url h
    = (Rejected "Failed to create list: Invalid URL path structure", []).
Proof.
  intros env this url h Hshort Hlen.
  assert (Hne : Js.nonEmpty (pathname url) = true).
  { destruct (pathname url); [discriminate Hshort | reflexivity]. }
  rewrite createList_cases. unfold resolveSource, getStarterPackUri.
  rewrite Hshort, (getShortCode_refuses_short_path url Hne Hlen). reflexivity.
Qed.

Lemma short_link_without_code_is_refused_example :
  createListFromStarterPack
    friendsEnv new_ListConverter
    {| href := "https://bsky.app/starter-pack-short/";
       hostname := "bsky.app";
       pathname := "/starter-pack-short/" |} []
  = (Rejected "Failed to create list: Invalid URL path structure", []).
Proof.
  apply short_link_without_code_is_refused.
  - reflexivity.
  - simpl. lia.
Defined.

(** When the answer of the redirector has no [url], the run fails on
    [new URL(undefined)] after its one request: nothing is read or created. *)
Theorem redirect_answer_without_url_fails_the_run :
  forall (env : Env) (this : ListConverter) (url : URL) (h : Trace)
         (code : string) (body : Json),
    pathname url = ("/starter-pack-short/" ++ code)%string ->
    Js.nonEmpty code = true -> Js.occurs "/" code = false ->
    fst (fetchStarterPackRedirect env this code h) = Resolved body ->
    json_url body = None ->
    parseURL env "undefined" = None ->
    createListFromStarterPack env this url h
    = (Rejected ("Failed to create list: " ++ msgInvalidURL (engine env))%string,
       [redirectCall this code]).
Proof.
  intros env this url h code body Hpath Nc Sc Hbody Hurl Hparse.
  assert (Hshort : Js.startsWith (pathname url) "/starter-pack-short/" = true).
  { rewrite Hpath. apply startsWith_app. }
  pose proof (HttpClient_fetch_calls env (httpClient this)
                ("https://go.bsky.app/" ++ code) [("accept", CONTENT_TYPE_JSON this)] h)
    as Hcalls.
  rewrite createList_cases. unfold resolveSource, getStarterPackUri.
  rewrite Hshort, (getShortCode_accepts url code Hpath Nc Sc).
  rewrite !bind_assoc. unfold bind at 1. simpl. rewrite app_nil_r.
  rewrite bind_assoc. unfold bind at 1.
  unfold fetchStarterPackRedirect in *.
  destruct (HttpClient_fetch env (httpClient this) _ _ h) as [o s].
  simpl in Hbody, Hcalls. subst o s.
  unfold bind at 1, getAtUri, redirectTarget, new_URL, cbind.
  rewrite Hurl, Hparse. reflexivity.
Qed.

Lemma redirect_answer_without_url_fails_the_run_example :
  createListFromStarterPack silentRedirectEnv new_ListConverter shortPage []
  = (Rejected "Failed to create list: Failed to construct 'URL': Invalid URL",
     [redirectCall new_ListConverter "xyz789"]).
Proof.
  apply (redirect_answer_without_url_fails_the_run
           silentRedirectEnv new_ListConverter shortPage [] "xyz789" emptyJson);
    reflexivity.
Defined.

(** ** [handleCreateList] *)

(** On a pack page with a stored session, [handleCreateList] first asks the
    OAuth client for the session and then runs the conversion on the address
    of the tab; it answers with the created list when the run succeeds and
    with the message of its error when it fails. *)
Theorem handleCreateList_runs_the_conversion :
  forall (env : Env) (sender : Sender) (u : URL) (session : Session) (h : Trace),
    new_URL env (senderTabUrl sender) = Normal u ->
    isStarterPackUrl env (senderTabUrl sender) = Normal true ->
    oauth_init env h = Resolved (Some session) ->
    handleCreateList env sender h
    = (match fst (createListFromStarterPack env new_ListConverter u (h ++ [CallOAuthInit])) with
       | Resolved newList =>
           Resolved {| success := true;
                       data := Some {| payload_list := newList |};
                       error := None |}
       | Rejected e =>
           Resolved {| success := false; data := None; error := Some e |}
       | Pending => Pending
       end,
       CallOAuthInit
         :: snd (createListFromStarterPack env new_ListConverter u (h ++ [CallOAuthInit]))).
Proof.
  intros env sender u session h Hparse Hpack Hinit.
  unfold handleCreateList, bind at 1. rewrite Hpack. simpl. rewrite app_nil_r.
  unfold tryCatch, bind, auth_init. rewrite Hinit. simpl.
  rewrite Hparse. simpl. rewrite !app_nil_r.
  destruct (createListFromStarterPack env new_ListConverter u (h ++ [CallOAuthInit]))
    as [[newList|e|] s]; simpl; rewrite ?app_nil_r; reflexivity.
Qed.

Lemma handleCreateList_runs_the_conversion_friends :
  handleCreateList friendsEnv (Mock.pageOf "https://bsky.app/starter-pack/bob/xyz") []
  = (match fst (createListFromStarterPack friendsEnv new_ListConverter bobPage
                                          ([] ++ [CallOAuthInit])) with
     | Resolved newList =>
         Resolved {| success := true;
                     data := Some {| payload_list := newList |};
                     error := None |}
     | Rejected e =>
         Resolved {| success := false; data := None; error := Some e |}
     | Pending => Pending
     end,
     CallOAuthInit
       :: snd (createListFromStarterPack friendsEnv new_ListConverter bobPage
                                         ([] ++ [CallOAuthInit]))).
Proof.
  apply (handleCreateList_runs_the_conversion
           friendsEnv _ bobPage {| sub := "did:plc:owner" |} []);
    reflexivity.
Defined.

(** Without a session nothing is read or created: when the OAuth client
    resolves with [undefined] or rejects, the only call of [handleCreateList]
    on a pack page is the one to the OAuth client, and the answer is a
    failure with the message of the error. *)
Theorem handleCreateList_without_session :
  forall (env : Env) (sender : Sender) (h : Trace),
    isStarterPackUrl env (senderTabUrl sender) = Normal true ->
    (oauth_init env h = Resolved None ->
     handleCreateList env sender h
     = (Resolved {| success := false; data := None;
                    error := Some (msgDestructureUndefined (engine env) "session") |},
        [CallOAuthInit]))
    /\ (forall e, oauth_init env h = Rejected e ->
         handleCreateList env sender h
         = (Resolved {| success := false; data := None; error := Some e |},
            [CallOAuthInit])).
Proof.
  intros env sender h Hpack.
  split; [intros Hinit | intros e Hinit];
    unfold handleCreateList, bind at 1; rewrite Hpack; simpl;
    unfold tryCatch, bind, auth_init; rewrite app_nil_r, Hinit; reflexivity.
Qed.

Lemma handleCreateList_without_session_logged_out :
  handleCreateList loggedOutEnv (Mock.pageOf "https://bsky.app/starter-pack/bob/xyz") []
  = (Resolved {| success := false; data := None;
                 error := Some "Cannot destructure property 'session' of '(intermediate value)' as it is undefined." |},
     [CallOAuthInit]).
Proof.
  apply (proj1 (handleCreateList_without_session
                  loggedOutEnv (Mock.pageOf "https://bsky.app/starter-pack/bob/xyz") []
                  eq_refl)).
  reflexivity.
Defined.

(** ** The navigation listener *)

Lemma Navigation_fetchStarterPackRedirect_calls (env : Env) (code : string) (h : Trace) :
  snd (Navigation.fetchStarterPackRedirect env code h)
  = [CallFetch ("https://go.bsky.app/" ++ code) [("accept", "application/json")] None].
Proof.
  unfold Navigation.fetchStarterPackRedirect, tryCatch, bind, fetch, await, throw.
  destruct (network env h _ _) as [[ms|] [r|e]]; simpl;
    try destruct (ok r); simpl; try destruct (json r); reflexivity.
Qed.

Lemma Navigation_getStarterPack_calls (env : Env) (atUri : string) (h : Trace) :
  snd (Navigation.getStarterPack env atUri h)
  = [CallFetch (packReadUrl atUri) [("Content-Type", "application/json")] (Some 5000%N)].
Proof.
  unfold Navigation.getStarterPack, packReadUrl, bind, fetch, await, ret.
  destruct (network env h _ _) as [[ms|] [r|e]]; simpl;
    try destruct (ms <? 5000)%N; simpl; try destruct (json r); reflexivity.
Qed.

Lemma Navigation_getList_calls (env : Env) (atUri : string) (h : Trace) :
  snd (Navigation.getList env atUri h)
  = [CallFetch ("https://public.api.bsky.app/xrpc/app.bsky.graph.getList?list=" ++ atUri)
               [("Content-Type", "application/json")] (Some 5000%N)].
Proof.
  unfold Navigation.getList, bind, fetch, await, ret.
  destruct (network env h _ _) as [[ms|] [r|e]]; simpl;
    try destruct (ms <? 5000)%N; simpl; try destruct (json r); reflexivity.
Qed.

Lemma bind_calls {A B} (m : Async A) (k : A -> Async B) (h : Trace) (P : Call -> Prop) :
  Forall P (snd (m h)) ->
  (forall a h', Forall P (snd (k a h'))) ->
  Forall P (snd (bind m k h)).
Proof.
  intros Hm Hk. unfold bind. destruct (m h) as [[a|e|] s]; simpl in *; trivial.
  specialize (Hk a (h ++ s)). destruct (k a (h ++ s)) as [o s']. simpl in *.
  apply Forall_app. split; assumption.
Qed.

Lemma lift_calls {A} (c : Completion A) (h : Trace) (P : Call -> Prop) :
  Forall P (snd (lift c h)).
Proof. destruct c; constructor. Qed.

Lemma isNavigationRequest_redirect (code : string) (headers : Headers) (signal : option N) :
  isNavigationRequest (CallFetch ("https://go.bsky.app/" ++ code) headers signal) = true.
Proof. unfold isNavigationRequest. rewrite startsWith_app. reflexivity. Qed.

Lemma isNavigationRequest_pack (atUri : string) (headers : Headers) (signal : option N) :
  isNavigationRequest (CallFetch (packReadUrl atUri) headers signal) = true.
Proof.
  unfold isNavigationRequest, packReadUrl. rewrite (startsWith_app _ atUri).
  apply orb_true_iff. left. apply orb_true_r.
Qed.

Lemma isNavigationRequest_list (atUri : string) (headers : Headers) (signal : option N) :
  isNavigationRequest
    (CallFetch ("https://public.api.bsky.app/xrpc/app.bsky.graph.getList?list=" ++ atUri)
               headers signal) = true.
Proof.
  unfold isNavigationRequest. rewrite (startsWith_app _ atUri). apply orb_true_r.
Qed.

(** Whatever the page and the answers, the navigation listener issues at most
    three calls, and each of them is a [fetch] addressed to the short link
    redirector or to the [getStarterPack] or [getList] query of the public
    API: it never calls the agent or the OAuth client, and sends nothing to
    another address. *)
Theorem navigation_listener_only_fetches :
  forall (env : Env) (details : NavigationDetails) (h : Trace),
    Forall (fun c => isNavigationRequest c = true) (snd (Navigation.listener env details h))
    /\ length (snd (Navigation.listener env details h)) <= 3.
Proof.
  intros env details h. split.
  - unfold Navigation.listener.
    apply bind_calls; [apply lift_calls|]. intros [] h1; [|constructor].
    apply bind_calls; [apply lift_calls|]. intros url h2.
    apply bind_calls.
    + destruct (Js.startsWith (pathname url) "/starter-pack-short/"); [|apply lift_calls].
      apply bind_calls; [apply lift_calls|]. intros code h3.
      apply bind_calls; [|intros; apply lift_calls].
      rewrite Navigation_fetchStarterPackRedirect_calls.
      constructor; [apply isNavigationRequest_redirect | constructor].
    + intros atUri h3. apply bind_calls.
      * rewrite Navigation_getStarterPack_calls.
        constructor; [apply isNavigationRequest_pack | constructor].
      * intros sp h4. apply bind_calls; [apply lift_calls|]. intros l h5.
        apply bind_calls; [|intros; constructor].
        rewrite Navigation_getList_calls.
        constructor; [apply isNavigationRequest_list | constructor].
  - unfold Navigation.listener, bind at 1.
    destruct (lift (isStarterPackUrl env _) h) as [[[]|e|] s0] eqn:E0;
      rewrite lift_outcome in E0; inversion E0; subst; simpl; try lia.
    unfold bind at 1.
    destruct (lift (new_URL env _) _) as [[url|e|] s1] eqn:E1;
      rewrite lift_outcome in E1; inversion E1; subst; simpl; try lia.
    unfold bind at 1.
    match goal with |- context [(if ?b then ?x else ?y) ?hh] =>
      assert (Hfirst : length (snd ((if b then x else y) hh)) <= 1) end.
    { destruct (Js.startsWith (pathname url) "/starter-pack-short/").
      - unfold bind at 1.
        destruct (lift (getShortCode url) _) as [[code|e|] s2] eqn:E2;
          rewrite lift_outcome in E2; inversion E2; subst; simpl; try lia.
        unfold bind.
        pose proof (Navigation_fetchStarterPackRedirect_calls env code (h ++ [] ++ [] ++ [])) as Hc.
        rewrite ?app_nil_r in *.
        destruct (Navigation.fetchStarterPackRedirect env code _) as [[body|e|] s3];
          simpl in Hc; subst s3; simpl; try lia.
        rewrite lift_outcome. simpl. lia.
      - rewrite lift_outcome. simpl. lia. }
    match goal with |- context [(if ?b then ?x else ?y) ?hh] =>
      destruct ((if b then x else y) hh) as [[atUri|e|] s2] end;
      simpl in Hfirst |- *; try lia.
    unfold bind at 1.
    match goal with |- context [Navigation.getStarterPack env atUri ?hh] =>
      pose proof (Navigation_getStarterPack_calls env atUri hh) as Hp;
      destruct (Navigation.getStarterPack env atUri hh) as [[sp|e|] s3] end;
      simpl in Hp; subst s3; simpl; rewrite ?length_app; simpl; try lia.
    unfold bind at 1.
    match goal with |- context [lift ?c ?hh] =>
      destruct (lift c hh) as [[l|e|] s4] eqn:E4;
      rewrite lift_outcome in E4; inversion E4; subst end;
      simpl; rewrite ?length_app; simpl; try lia.
    unfold bind.
    match goal with |- context [Navigation.getList env l ?hh] =>
      pose proof (Navigation_getList_calls env l hh) as Hl;
      destruct (Navigation.getList env l hh) as [[d|e|] s5] end;
      simpl in Hl; subst s5; simpl; rewrite ?length_app; simpl; lia.
Qed.

(** In the navigation script the reads have a budget of 5000 milliseconds: on
    a pack page, a pack read that is not answered in time is aborted and the
    listener rejects with the abort error, unwrapped, after that one
    request. *)
Theorem navigation_pack_read_is_bounded :
  forall (env : Env) (details : NavigationDetails) (u : URL) (atUri : string) (h : Trace),
    isStarterPackUrl env (ArgString (details_url details)) = Normal true ->
    new_URL env (ArgString (details_url details)) = Normal u ->
    Js.startsWith (pathname u) "/starter-pack-short/" = false ->
    getAtUri env (ArgURL u) = Normal atUri ->
    expires 5000 (network env h (packReadUrl atUri) [("Content-Type", "application/json")])
    = true ->
    Navigation.listener env details h
    = (Rejected (msgAborted (engine env)),
       [CallFetch (packReadUrl atUri) [("Content-Type", "application/json")]
                  (Some 5000%N)]).
Proof.
  intros env details u atUri h Hpack Hparse Hshort Hat Hexp.
  unfold Navigation.listener, bind at 1. rewrite Hpack. simpl. rewrite app_nil_r.
  unfold bind at 1. rewrite Hparse. simpl. rewrite app_nil_r.
  rewrite Hshort. unfold bind at 1. rewrite Hat. simpl. rewrite app_nil_r.
  unfold bind at 1, Navigation.getStarterPack, bind at 1, fetch.
  fold (packReadUrl atUri). unfold expires in Hexp.
  destruct (latency (network env h (packReadUrl atUri) _)) as [ms|]; simpl.
  - apply negb_true_iff in Hexp. rewrite Hexp. reflexivity.
  - reflexivity.
Qed.

Lemma navigation_pack_read_is_bounded_slow_api :
  Navigation.listener slowApiEnv
                      {| details_url := "https://bsky.app/starter-pack/bob/xyz" |} []
  = (Rejected "signal is aborted without reason",
     [CallFetch (packReadUrl "at://bob/app.bsky.graph.list/xyz")
                [("Content-Type", "application/json")] (Some 5000%N)]).
Proof.
  apply (navigation_pack_read_is_bounded
           slowApiEnv {| details_url := "https://bsky.app/starter-pack/bob/xyz" |}
           bobPage "at://bob/app.bsky.graph.list/xyz" []);
    reflexivity.
Defined.

(** The redirect request of the navigation script has no budget: on a short
    link, a redirector that never answers leaves the listener pending for
    ever. *)
Theorem navigation_redirect_is_unbounded :
  forall (env : Env) (details : NavigationDetails) (u : URL) (code : string) (h : Trace),
    isStarterPackUrl env (ArgString (details_url details)) = Normal true ->
    new_URL env (ArgString (details_url details)) = Normal u ->
    pathname u = ("/starter-pack-short/" ++ code)%string ->
    Js.nonEmpty code = true -> Js.occurs "/" code = false ->
    latency (network env h ("https://go.bsky.app/" ++ code)
                     [("accept", "application/json")]) = None ->
    Navigation.listener env details h
    = (Pending,
       [CallFetch ("https://go.bsky.app/" ++ code) [("accept", "application/json")] None]).
Proof.
  intros env details u code h Hpack Hparse Hpath Nc Sc Hlat.
  assert (Hshort : Js.startsWith (pathname u) "/starter-pack-short/" = true).
  { rewrite Hpath. apply startsWith_app. }
  unfold Navigation.listener, bind at 1. rewrite Hpack. simpl. rewrite app_nil_r.
  unfold bind at 1. rewrite Hparse. simpl. rewrite app_nil_r.
  rewrite Hshort, (getShortCode_accepts u code Hpath Nc Sc).
  unfold bind at 1. unfold bind at 1. simpl. rewrite app_nil_r.
  unfold bind at 1, Navigation.fetchStarterPackRedirect, tryCatch, bind at 1, fetch.
  rewrite Hlat. reflexivity.
Qed.

Lemma navigation_redirect_is_unbounded_dead_redirector :
  Navigation.listener deadRedirectorEnv
                      {| details_url := "https://bsky.app/starter-pack-short/xyz789" |} []
  = (Pending,
     [CallFetch "https://go.bsky.app/xyz789" [("accept", "application/json")] None]).
Proof.
  apply (navigation_redirect_is_unbounded
           deadRedirectorEnv
           {| details_url := "https://bsky.app/starter-pack-short/xyz789" |}
           shortPage "xyz789" []);
    reflexivity.
Defined.

(** ** The storage area *)

Lemma local_get_set_same (key : string) (value : StoredValue) (a : LocalStorage) :
  local_get key (local_set key value a) = Some value.
Proof. unfold local_set. simpl. rewrite String.eqb_refl. reflexivity. Qed.

Lemma local_get_remove_other (key key' : string) (a : LocalStorage) :
  String.eqb key key' = false ->
  local_get key' (local_remove key a) = local_get key' a.
Proof.
  intros Hk. induction a as [|[k v] a IH]; simpl; trivial.
  destruct (String.eqb k key) eqn:E; simpl.
  - apply String.eqb_eq in E. subst k. rewrite Hk. exact IH.
  - destruct (String.eqb k key'); [reflexivity | exact IH].
Qed.

Lemma local_get_set_other (key key' : string) (value : StoredValue) (a : LocalStorage) :
  String.eqb key key' = false ->
  local_get key' (local_set key value a) = local_get key' a.
Proof.
  intros Hk. unfold local_set. simpl. rewrite Hk.
  apply local_get_remove_other. exact Hk.
Qed.

Lemma local_get_remove_same (key : string) (a : LocalStorage) :
  local_get key (local_remove key a) = None.
Proof.
  induction a as [|[k v] a IH]; simpl; trivial.
  destruct (String.eqb k key) eqn:E; simpl; [exact IH|].
  rewrite E. exact IH.
Qed.

Lemma append_cancel_l (p a b : string) : (p ++ a = p ++ b)%string -> a = b.
Proof. induction p as [|c p IH]; simpl; intros H; [exact H|]. injection H as H. auto. Qed.

Lemma append_cancel_char_r (a b : string) (c : ascii) :
  (a ++ String c "" = b ++ String c "")%string -> a = b.
Proof.
  revert b. induction a as [|x a IH]; intros [|y b]; simpl; intros H; trivial.
  - injection H as _ H. destruct b; discriminate.
  - injection H as _ H. destruct a; discriminate.
  - injection H as -> H. f_equal. auto.
Qed.

(** Within one name space, different keys are kept under different names. *)
Lemma storageKey_injective (this : ChromeExtensionStorage) (key key' : string) :
  storageKey this key = storageKey this key' -> key = key'.
Proof.
  unfold storageKey. intros H. apply append_cancel_l in H. simpl in H.
  injection H as H. apply append_cancel_char_r in H. exact H.
Qed.

Lemma storageKey_differs (this : ChromeExtensionStorage) (key key' : string) :
  String.eqb key key' = false ->
  String.eqb (storageKey this key) (storageKey this key') = false.
Proof.
  intros H. apply String.eqb_neq. intros E. apply storageKey_injective in E.
  apply String.eqb_neq in H. contradiction.
Qed.

(** The name spaces of the message handler and of the OAuth client share no
    name. *)
Lemma namespaces_apart (key key' : string) :
  String.eqb (storageKey {| namespace := HANDLER_NAMESPACE |} key)
             (storageKey OAuthClient.storage key') = false.
Proof. apply String.eqb_neq. unfold storageKey. simpl. discriminate. Qed.

Lemma namespaces_apart_sym (key key' : string) :
  String.eqb (storageKey OAuthClient.storage key')
             (storageKey {| namespace := HANDLER_NAMESPACE |} key) = false.
Proof. apply String.eqb_neq. unfold storageKey. simpl. discriminate. Qed.

(** [ChromeExtensionStorage] behaves as a map of its keys: a value that was
    set is the value read, until it is removed; setting or removing a key
    leaves the other keys of the name space as they were. *)
Theorem storage_reads_what_was_written :
  forall (this : ChromeExtensionStorage) (key key' : string) (value : StoredValue) (w : World),
    String.eqb key key' = false ->
    fst ((_ <~ setValue this key value ;; getValue this key) w) = Resolved (Some value)
    /\ fst ((_ <~ removeValue this key ;; getValue this key) w) = Resolved None
    /\ fst ((_ <~ setValue this key value ;; getValue this key') w)
       = fst (getValue this key' w)
    /\ fst ((_ <~ removeValue this key ;; getValue this key') w)
       = fst (getValue this key' w).
Proof.
  intros this key key' value w Hk.
  pose proof (storageKey_differs this key key' Hk) as Hs.
  unfold jbind, setValue, removeValue, getValue.
  cbn -[local_get local_set local_remove storageKey].
  rewrite local_get_set_same, local_get_remove_same.
  rewrite (local_get_set_other _ _ _ _ Hs), (local_get_remove_other _ _ _ Hs).
  repeat split; reflexivity.
Qed.

Lemma storage_reads_what_was_written_example :
  fst ((_ <~ setValue {| namespace := HANDLER_NAMESPACE |} "profile" (StoredString "p") ;;
        getValue {| namespace := HANDLER_NAMESPACE |} "profile")
         {| area := []; history := [] |})
  = Resolved (Some (StoredString "p")).
Proof.
  apply (storage_reads_what_was_written
           {| namespace := HANDLER_NAMESPACE |} "profile" "sub" (StoredString "p")
           {| area := []; history := [] |}).
  reflexivity.
Defined.

(** The profile kept by the message handler and the subject kept by the OAuth
    client do not interfere, whatever their keys: writing or removing an
    entry of one name space changes no entry of the other. *)
Theorem handler_and_client_storage_are_apart :
  forall (key key' : string) (value : StoredValue) (w : World),
    let handler := {| namespace := HANDLER_NAMESPACE |} in
    fst ((_ <~ setValue handler key value ;; getValue OAuthClient.storage key') w)
    = fst (getValue OAuthClient.storage key' w)
    /\ fst ((_ <~ removeValue handler key ;; getValue OAuthClient.storage key') w)
       = fst (getValue OAuthClient.storage key' w)
    /\ fst ((_ <~ setValue OAuthClient.storage key' value ;; getValue handler key) w)
       = fst (getValue handler key w)
    /\ fst ((_ <~ removeValue OAuthClient.storage key' ;; getValue handler key) w)
       = fst (getValue handler key w).
Proof.
  intros key key' value w handler.
  pose proof (namespaces_apart key key') as H1.
  pose proof (namespaces_apart_sym key key') as H2.
  unfold jbind, setValue, removeValue, getValue.
  cbn -[local_get local_set local_remove storageKey].
  fold handler in H1, H2.
  rewrite (local_get_set_other _ _ _ _ H1), (local_get_remove_other _ _ _ H1).
  rewrite (local_get_set_other _ _ _ _ H2), (local_get_remove_other _ _ _ H2).
  repeat split; reflexivity.
Qed.

(** ** [BskyAuth.validateConfig] *)

Lemma falsy_missing (config : BskyAuth.Config) (name : string) :
  In name (BskyAuth.missingFields config)
  <-> In name BskyAuth.requiredFields
      /\ BskyAuth.falsy (BskyAuth.field config name) = true.
Proof. unfold BskyAuth.missingFields. apply filter_In. Qed.

(** A configuration is accepted exactly when its four fields are non-empty
    strings; otherwise the error names the fields that are missing, and only
    those. *)
Theorem validateConfig_accepts_complete_configurations :
  forall (config : BskyAuth.Config),
    (BskyAuth.validateConfig config = Normal tt
     <-> BskyAuth.falsy (BskyAuth.serverUrl config) = false
         /\ BskyAuth.falsy (BskyAuth.redirectUri config) = false
         /\ BskyAuth.falsy (BskyAuth.clientId config) = false
         /\ BskyAuth.falsy (BskyAuth.handleResolver config) = false)
    /\ (forall message,
          BskyAuth.validateConfig config = Throw message ->
          exists missing,
            message = ("Missing required configuration: " ++ BskyAuth.join ", " missing)%string
            /\ missing <> []
            /\ forall name,
                In name missing
                <-> In name BskyAuth.requiredFields
                    /\ BskyAuth.falsy (BskyAuth.field config name) = true).
Proof.
  intros config. split.
  - unfold BskyAuth.validateConfig, BskyAuth.missingFields, BskyAuth.requiredFields.
    cbn [filter BskyAuth.field String.eqb Ascii.eqb Bool.eqb].
    destruct (BskyAuth.falsy (BskyAuth.serverUrl config));
      destruct (BskyAuth.falsy (BskyAuth.redirectUri config));
      destruct (BskyAuth.falsy (BskyAuth.clientId config));
      destruct (BskyAuth.falsy (BskyAuth.handleResolver config));
      simpl; split; intros H; try discriminate; try tauto;
      destruct H as (H1 & H2 & H3 & H4); discriminate.
  - intros message H. unfold BskyAuth.validateConfig in H.
    destruct (BskyAuth.missingFields config) as [|m ms] eqn:E; simpl in H; [discriminate|].
    injection H as H. exists (m :: ms). split; [auto|]. split; [discriminate|].
    intros name. rewrite <- E. apply falsy_missing.
Qed.

Example validateConfig_names_the_missing_fields :
  BskyAuth.validateConfig
    {| BskyAuth.serverUrl := Some "https://example.org";
       BskyAuth.redirectUri := None;
       BskyAuth.clientId := Some "";
       BskyAuth.handleResolver := Some "https://bsky.social" |}
  = Throw "Missing required configuration: redirectUri, clientId".
Proof. reflexivity. Qed.

Lemma validateConfig_names_the_missing_fields_witness :
  exists missing,
    "Missing required configuration: redirectUri, clientId"
    = ("Missing required configuration: " ++ BskyAuth.join ", " missing)%string
    /\ missing <> []
    /\ forall name,
        In name missing
        <-> In name BskyAuth.requiredFields
            /\ BskyAuth.falsy
                 (BskyAuth.field
                    {| BskyAuth.serverUrl := Some "https://example.org";
                       BskyAuth.redirectUri := None;
                       BskyAuth.clientId := Some "";
                       BskyAuth.handleResolver := Some "https://bsky.social" |} name) = true.
Proof.
  apply (proj2 (validateConfig_accepts_complete_configurations
                  {| BskyAuth.serverUrl := Some "https://example.org";
                     BskyAuth.redirectUri := None;
                     BskyAuth.clientId := Some "";
                     BskyAuth.handleResolver := Some "https://bsky.social" |})).
  reflexivity.
Defined.

(** ** The OAuth client *)

(** Without a stored subject [init] resolves with [undefined]: it calls
    nothing and leaves the storage area as it is. *)
Lemma init_no_subject (env : AuthEnv) (refresh : option bool) (w : World) :
  truthy (local_get subKey (area w)) = false ->
  OAuthClient.init env refresh w = (Resolved None, w).
Proof.
  intros H. unfold OAuthClient.init, jbind, getValue. simpl.
  fold subKey. destruct (local_get subKey (area w)) as [v|]; [|reflexivity].
  rewrite H. reflexivity.
Qed.

(** When the session of the stored subject cannot be restored, [init]
    rejects with the error of the library and forgets the subject: the next
    [init] resolves with [undefined] without calling the library again. *)
Theorem init_forgets_a_subject_that_cannot_be_restored :
  forall (env : AuthEnv) (refresh refresh' : option bool) (w : World)
         (stored : StoredValue) (e : string),
    local_get subKey (area w) = Some stored ->
    truthy (Some stored) = true ->
    super_restore env (history w) stored refresh = Rejected e ->
    let w' := {| area := local_remove subKey (area w);
                 history := history w ++ [CallRestore stored refresh] |} in
    OAuthClient.init env refresh w = (Rejected e, w')
    /\ OAuthClient.init env refresh' w' = (Resolved None, w').
Proof.
  intros env refresh refresh' w stored e Hget Htruthy Hrestore w'.
  split.
  - unfold OAuthClient.init, jbind at 1, getValue. cbn [fst snd area].
    fold subKey. rewrite Hget, Htruthy.
    unfold jtry, jbind at 1, OAuthClient.restore, jbind at 1, ask.
    rewrite Hrestore. reflexivity.
  - apply init_no_subject. subst w'. cbn [area].
    rewrite local_get_remove_same. reflexivity.
Qed.

Lemma init_forgets_a_subject_that_cannot_be_restored_example :
  OAuthClient.init revokedAuthEnv None aliceWorld
  = (Rejected "The session was deleted by another process",
     {| area := local_remove subKey (area aliceWorld);
        history := history aliceWorld
                     ++ [CallRestore (StoredString "did:plc:alice") None] |})
  /\ OAuthClient.init revokedAuthEnv (Some true)
       {| area := local_remove subKey (area aliceWorld);
          history := history aliceWorld
                       ++ [CallRestore (StoredString "did:plc:alice") None] |}
     = (Resolved None,
        {| area := local_remove subKey (area aliceWorld);
           history := history aliceWorld
                        ++ [CallRestore (StoredString "did:plc:alice") None] |}).
Proof.
  apply (init_forgets_a_subject_that_cannot_be_restored
           revokedAuthEnv None (Some true) aliceWorld (StoredString "did:plc:alice"));
    reflexivity.
Defined.

(** When the session is restored, [init] resolves with it after one call to
    the library, and the subject kept in the storage area is the subject of
    the restored session. *)
Theorem init_restores_the_stored_subject :
  forall (env : AuthEnv) (refresh : option bool) (w : World)
         (stored : StoredValue) (session : Session),
    local_get subKey (area w) = Some stored ->
    truthy (Some stored) = true ->
    super_restore env (history w) stored refresh = Resolved session ->
    exists w',
      OAuthClient.init env refresh w = (Resolved (Some session), w')
      /\ history w' = history w ++ [CallRestore stored refresh]
      /\ local_get subKey (area w') = Some (StoredString (sub session)).
Proof.
  intros env refresh w stored session Hget Htruthy Hrestore.
  eexists. split; [|split].
  - unfold OAuthClient.init, jbind at 1, getValue. cbn [fst snd area].
    fold subKey. rewrite Hget, Htruthy.
    unfold jtry, jbind at 1, OAuthClient.restore, jbind at 1, ask.
    rewrite Hrestore. unfold jbind, setValue, jret. reflexivity.
  - reflexivity.
  - cbn [area]. fold subKey. apply local_get_set_same.
Qed.

Lemma init_restores_the_stored_subject_alice :
  exists w',
    OAuthClient.init aliceAuthEnv None aliceWorld = (Resolved (Some aliceSession), w')
    /\ history w' = history aliceWorld ++ [CallRestore (StoredString "did:plc:alice") None]
    /\ local_get subKey (area w') = Some (StoredString (sub aliceSession)).
Proof.
  apply (init_restores_the_stored_subject
           aliceAuthEnv None aliceWorld (StoredString "did:plc:alice") aliceSession);
    reflexivity.
Defined.

(** [revoke] forgets the subject before it asks the library to revoke the
    session: whatever the library answers, no subject is stored afterwards,
    and the other entries are untouched. *)
Theorem revoke_forgets_the_subject :
  forall (env : AuthEnv) (stored : string) (w : World),
    OAuthClient.revoke env stored w
    = (super_revoke env (history w) stored,
       {| area := local_remove subKey (area w);
          history := history w ++ [CallRevoke stored] |})
    /\ local_get subKey (area (snd (OAuthClient.revoke env stored w))) = None
    /\ forall key, String.eqb subKey key = false ->
                   local_get key (area (snd (OAuthClient.revoke env stored w)))
                   = local_get key (area w).
Proof.
  intros env stored w.
  assert (E : OAuthClient.revoke env stored w
              = (super_revoke env (history w) stored,
                 {| area := local_remove subKey (area w);
                    history := history w ++ [CallRevoke stored] |})) by reflexivity.
  rewrite E. cbn [snd area]. split; [reflexivity|]. split.
  - apply local_get_remove_same.
  - intros key Hk. apply local_get_remove_other. exact Hk.
Qed.

Lemma revoke_forgets_the_subject_example :
  local_get (storageKey {| namespace := HANDLER_NAMESPACE |} "profile")
            (area (snd (OAuthClient.revoke revokedAuthEnv "did:plc:alice" aliceWorld)))
  = local_get (storageKey {| namespace := HANDLER_NAMESPACE |} "profile") (area aliceWorld).
Proof.
  apply (proj2 (proj2 (revoke_forgets_the_subject revokedAuthEnv "did:plc:alice" aliceWorld))).
  reflexivity.
Defined.

(** After a [callback] that succeeds, the subject of the new session is the
    one stored, so that the next [init] restores that session. *)
Theorem callback_stores_the_subject :
  forall (env : AuthEnv) (params : string) (w : World) (result : CallbackResult),
    super_callback env (history w) params = Resolved result ->
    Js.nonEmpty (sub (cb_session result)) = true ->
    exists w',
      OAuthClient.callback env params w = (Resolved result, w')
      /\ local_get subKey (area w') = Some (StoredString (sub (cb_session result)))
      /\ forall refresh,
          history (snd (OAuthClient.init env refresh w'))
          = history w ++ [CallCallback params;
                          CallRestore (StoredString (sub (cb_session result))) refresh].
Proof.
  intros env params w result Hcb Hsub.
  eexists. split; [|split].
  - unfold OAuthClient.callback, jbind at 1, ask. rewrite Hcb.
    unfold jbind, setValue, jret. reflexivity.
  - cbn [area]. fold subKey. apply local_get_set_same.
  - intros refresh. unfold OAuthClient.init, jbind at 1, getValue.
    cbn [fst snd area history]. fold subKey. rewrite local_get_set_same.
    cbn [truthy]. rewrite Hsub.
    unfold jtry, jbind at 1, OAuthClient.restore, jbind at 1, ask.
    cbn [history area].
    destruct (super_restore env _ _ refresh) as [session|e|];
      cbn; rewrite <- app_assoc; reflexivity.
Qed.

Lemma callback_stores_the_subject_alice :
  exists w',
    OAuthClient.callback aliceAuthEnv "code=c1&state=s1" emptyWorld
    = (Resolved {| cb_session := aliceSession; cb_state := None |}, w')
    /\ local_get subKey (area w')
       = Some (StoredString (sub (cb_session {| cb_session := aliceSession;
                                                cb_state := None |})))
    /\ forall refresh,
        history (snd (OAuthClient.init aliceAuthEnv refresh w'))
        = history emptyWorld
            ++ [CallCallback "code=c1&state=s1";
                CallRestore (StoredString (sub (cb_session {| cb_session := aliceSession;
                                                              cb_state := None |})))
                            refresh].
Proof.
  apply (callback_stores_the_subject aliceAuthEnv "code=c1&state=s1" emptyWorld);
    reflexivity.
Defined.

(** ** The session handlers *)

(** A cached profile is served from the storage area: [fetchProfile()] calls
    nothing and changes nothing. *)
Lemma fetchProfile_cached (env : AuthEnv) (this : MessageHandler) (w : World) :
  truthy (local_get (storageKey (storage this) "profile") (area w)) = true ->
  fetchProfile env this false w
  = (Resolved (local_get (storageKey (storage this) "profile") (area w)), w).
Proof.
  intros H. unfold fetchProfile, jbind, getValue. cbn [fst snd area].
  rewrite H. reflexivity.
Qed.

(** A profile that had to be fetched is written to the storage area: after a
    lookup that went to the agent, the next [fetchProfile()] returns the same
    profile without any call. *)
Theorem fetchProfile_caches_what_it_fetches :
  forall (env : AuthEnv) (this : MessageHandler) (forceRefresh : bool) (w w1 : World)
         (session : Session) (actor : string) (data : Profile),
    negb (truthy (local_get (storageKey (storage this) "profile") (area w)))
    || forceRefresh = true ->
    BskyAuth.init env (auth this) w = (Resolved (Some session), w1) ->
    agent_assertDid env session = Normal actor ->
    agent_getProfile env (history w1) actor = Resolved data ->
    exists w2,
      fetchProfile env this forceRefresh w = (Resolved (Some (StoredProfile data)), w2)
      /\ history w2 = history w1 ++ [CallGetProfile actor]
      /\ fetchProfile env this false w2 = (Resolved (Some (StoredProfile data)), w2).
Proof.
  intros env this forceRefresh w w1 session actor data Hmiss Hinit Hdid Hprofile.
  eexists. split; [|split].
  - unfold fetchProfile, jbind at 1, getValue. cbn [fst snd area].
    rewrite Hmiss. unfold jbind at 1. rewrite Hinit.
    unfold jbind at 1. rewrite Hdid. cbn [jlift jret].
    unfold jbind at 1, ask. rewrite Hprofile.
    unfold jbind, setValue, jret. reflexivity.
  - reflexivity.
  - rewrite fetchProfile_cached; cbn [area];
      rewrite local_get_set_same; reflexivity.
Qed.

Lemma fetchProfile_caches_what_it_fetches_alice :
  exists w2,
    fetchProfile aliceAuthEnv theHandler false aliceLoggedInWorld
    = (Resolved (Some (StoredProfile aliceProfile)), w2)
    /\ history w2
       = history (snd (BskyAuth.init aliceAuthEnv (auth theHandler) aliceLoggedInWorld))
           ++ [CallGetProfile "did:plc:alice"]
    /\ fetchProfile aliceAuthEnv theHandler false w2
       = (Resolved (Some (StoredProfile aliceProfile)), w2).
Proof.
  apply (fetchProfile_caches_what_it_fetches
           aliceAuthEnv theHandler false aliceLoggedInWorld
           (snd (BskyAuth.init aliceAuthEnv (auth theHandler) aliceLoggedInWorld))
           aliceSession "did:plc:alice" aliceProfile);
    reflexivity.
Defined.

(** When nobody is logged in (no subject and no profile are stored), the
    status is still reported as a success, with a [null] profile; nothing is
    called. *)
Theorem handleSessionStatus_logged_out :
  forall (env : AuthEnv) (this : MessageHandler) (w : World),
    truthy (local_get (storageKey (storage this) "profile") (area w)) = false ->
    truthy (local_get subKey (area w)) = false ->
    handleSessionStatus env this w
    = (Resolved {| session_success := true;
                   session_data := Some {| payload_profile := None |};
                   session_error := None |},
       w).
Proof.
  intros env this w Hprofile Hsub.
  unfold handleSessionStatus, jtry, jbind at 1, fetchProfile, jbind at 1, getValue.
  cbn [fst snd area]. rewrite Hprofile. cbn [negb orb].
  unfold jbind at 1, BskyAuth.init. rewrite (init_no_subject env None w Hsub).
  reflexivity.
Qed.

Lemma handleSessionStatus_logged_out_empty :
  handleSessionStatus revokedAuthEnv theHandler emptyWorld
  = (Resolved {| session_success := true;
                 session_data := Some {| payload_profile := None |};
                 session_error := None |},
     emptyWorld).
Proof. apply handleSessionStatus_logged_out; reflexivity. Defined.

(** A logout that goes through answers with a success and removes the cached
    profile.  It does not itself forget the subject of the OAuth client: the
    stored subject is the one [init] has left. *)
Theorem handleLogout_clears_the_profile :
  forall (env : AuthEnv) (processEnv : BskyAuth.Config) (this : MessageHandler)
         (w w' : World) (r : SessionResponse),
    new_MessageHandler processEnv = Normal this ->
    handleLogout env this w = (Resolved r, w') ->
    r = {| session_success := true; session_data := None; session_error := None |}
    /\ local_get profileKey (area w') = None
    /\ local_get subKey (area w')
       = local_get subKey (area (snd (BskyAuth.init env (auth this) w))).
Proof.
  intros env processEnv this w w' r Hnew Hout.
  assert (Hstorage : storage this = {| namespace := HANDLER_NAMESPACE |}).
  { unfold new_MessageHandler, cbind in Hnew.
    destruct (BskyAuth.new processEnv); inversion Hnew. reflexivity. }
  unfold handleLogout, jbind at 1 in Hout.
  destruct (BskyAuth.init env (auth this) w) as [[result|e|] w1]; try discriminate.
  unfold jbind at 1 in Hout.
  assert (Hstep : forall w2,
             (_ <~ clearProfile this ;;
              jret (createSessionResponse true None None)) w2 = (Resolved r, w') ->
             r = {| session_success := true; session_data := None; session_error := None |}
             /\ local_get profileKey (area w') = None
             /\ local_get subKey (area w') = local_get subKey (area w2)).
  { intros w2 H. unfold jbind, clearProfile, removeValue, jret in H.
    rewrite Hstorage in H. inversion H. subst. cbn [area]. fold profileKey.
    split; [reflexivity|]. split.
    - apply local_get_remove_same.
    - apply local_get_remove_other. apply namespaces_apart. }
  destruct result as [session|]; cbn [snd].
  - unfold ask in Hout.
    destruct (session_signOut env (history w1) session) as [[]|e|]; try discriminate.
    apply Hstep in Hout. exact Hout.
  - unfold jret in Hout at 1. apply Hstep in Hout. exact Hout.
Qed.

Lemma handleLogout_clears_the_profile_alice :
  {| session_success := true; session_data := None; session_error := None |}
  = {| session_success := true; session_data := None; session_error := None |}
  /\ local_get profileKey (area (snd (handleLogout aliceAuthEnv theHandler aliceWorld))) = None
  /\ local_get subKey (area (snd (handleLogout aliceAuthEnv theHandler aliceWorld)))
     = local_get subKey
                 (area (snd (BskyAuth.init aliceAuthEnv (auth theHandler) aliceWorld))).
Proof.
  apply (handleLogout_clears_the_profile
           aliceAuthEnv completeConfig theHandler aliceWorld);
    reflexivity.
Defined.

(** [handleLogout] has no [try]: when signing out fails it rejects with that
    error, and the cached profile is not removed. *)
Theorem handleLogout_failed_sign_out_keeps_the_profile :
  forall (env : AuthEnv) (this : MessageHandler) (w w1 : World)
         (session : Session) (e : string),
    BskyAuth.init env (auth this) w = (Resolved (Some session), w1) ->
    session_signOut env (history w1) session = Rejected e ->
    handleLogout env this w
    = (Rejected e, {| area := area w1; history := history w1 ++ [CallSignOut session] |}).
Proof.
  intros env this w w1 session e Hinit Hout.
  unfold handleLogout, jbind at 1. rewrite Hinit.
  unfold jbind at 1, ask. rewrite Hout. reflexivity.
Qed.

(** A server that restores the session of [alice] and refuses to end it. *)
Lemma handleLogout_failed_sign_out_keeps_the_profile_example :
  handleLogout
    {| auth_engine := auth_engine aliceAuthEnv;
       super_restore := super_restore aliceAuthEnv;
       super_callback := super_callback aliceAuthEnv;
       super_revoke := super_revoke aliceAuthEnv;
       session_signOut := session_signOut revokedAuthEnv;
       agent_assertDid := agent_assertDid aliceAuthEnv;
       agent_getProfile := agent_getProfile aliceAuthEnv;
       super_authorize := super_authorize aliceAuthEnv;
       launchWebAuthFlow := launchWebAuthFlow aliceAuthEnv;
       urlHash := urlHash aliceAuthEnv |}
    theHandler aliceWorld
  = (Rejected "Failed to fetch",
     {| area := local_set subKey (StoredString "did:plc:alice") (area aliceWorld);
        history := [CallRestore (StoredString "did:plc:alice") None]
                     ++ [CallSignOut aliceSession] |}).
Proof.
  apply (handleLogout_failed_sign_out_keeps_the_profile
           _ theHandler aliceWorld
           {| area := local_set subKey (StoredString "did:plc:alice") (area aliceWorld);
              history := [CallRestore (StoredString "did:plc:alice") None] |}
           aliceSession "Failed to fetch");
    reflexivity.
Defined.

(** [handleSessionStatus] and [handleAuthenticate] never reject, whatever
    the storage area holds and whatever the OAuth library, the browser and the
    agent answer: if they settle, they answer with a success carrying
    [{ profile }] and no error, or with a failure carrying the message of the
    error and no data. *)
Theorem session_handlers_never_reject :
  forall (env : AuthEnv) (this : MessageHandler) (w : World),
    wellFormedAnswer (fst (handleSessionStatus env this w))
    /\ wellFormedAnswer (fst (handleAuthenticate env this w)).
Proof.
  intros env this w. unfold wellFormedAnswer. split.
  - unfold handleSessionStatus, jtry, jbind.
    destruct (fetchProfile env this false w) as [[p|e|] w']; cbn; eauto 10.
  - unfold handleAuthenticate, jtry, jbind.
    destruct (BskyAuth.startOAuthFlow env (auth this) w) as [[result|e|] w1];
      [destruct (fetchProfile env this true w1) as [[p|e|] w2] | |];
      cbn;
      first [ exact I
            | left; repeat split; eauto; fail
            | right; repeat split; eauto ].
Qed.

(** When the user closes the authorization window, so that the browser
    returns no redirect address, the answer is the failure
    [no redirect url present]; nothing is stored and the OAuth library is not
    called back. *)
Theorem handleAuthenticate_closed_window :
  forall (env : AuthEnv) (this : MessageHandler) (w : World) (authUrl : string),
    super_authorize env (history w) (BskyAuth.handleResolver (BskyAuth.config (auth this)))
    = Resolved authUrl ->
    launchWebAuthFlow
      env (history w ++ [CallAuthorize (BskyAuth.handleResolver (BskyAuth.config (auth this)))])
      authUrl
    = Resolved None ->
    handleAuthenticate env this w
    = (Resolved {| session_success := false; session_data := None;
                   session_error := Some "no redirect url present" |},
       {| area := area w;
          history := history w
                       ++ [CallAuthorize (BskyAuth.handleResolver (BskyAuth.config (auth this)));
                           CallLaunchWebAuthFlow authUrl] |}).
Proof.
  intros env this w authUrl Hauth Hlaunch.
  unfold handleAuthenticate, jtry at 1, jbind at 1, BskyAuth.startOAuthFlow, jtry.
  unfold jbind at 1, ask at 1. rewrite Hauth.
  unfold jbind at 1, ask at 1. cbn [area history]. rewrite Hlaunch.
  cbn [BskyAuth.handleOAuthCallback jthrow jret area history].
  rewrite <- app_assoc. reflexivity.
Qed.

Lemma handleAuthenticate_closed_window_example :
  handleAuthenticate revokedAuthEnv theHandler aliceWorld
  = (Resolved {| session_success := false; session_data := None;
                 session_error := Some "no redirect url present" |},
     {| area := area aliceWorld;
        history := history aliceWorld
                     ++ [CallAuthorize
                           (BskyAuth.handleResolver (BskyAuth.config (auth theHandler)));
                         CallLaunchWebAuthFlow
                           "https://bsky.social/oauth/authorize?request_uri=r1"] |}).
Proof.
  apply (handleAuthenticate_closed_window
           revokedAuthEnv theHandler aliceWorld
           "https://bsky.social/oauth/authorize?request_uri=r1");
    reflexivity.
Defined.

(** A login that goes through answers with the profile just fetched from the
    agent, whatever profile was cached before, and caches it. *)
Theorem handleAuthenticate_refreshes_the_profile :
  forall (env : AuthEnv) (this : MessageHandler) (w w1 w2 : World)
         (result : CallbackResult) (session : Session) (actor : string) (data : Profile),
    BskyAuth.startOAuthFlow env (auth this) w = (Resolved result, w1) ->
    BskyAuth.init env (auth this) w1 = (Resolved (Some session), w2) ->
    agent_assertDid env session = Normal actor ->
    agent_getProfile env (history w2) actor = Resolved data ->
    exists w3,
      handleAuthenticate env this w
      = (Resolved {| session_success := true;
                     session_data := Some {| payload_profile := Some (StoredProfile data) |};
                     session_error := None |},
         w3)
      /\ local_get (storageKey (storage this) "profile") (area w3)
         = Some (StoredProfile data).
Proof.
  intros env this w w1 w2 result session actor data Hflow Hinit Hdid Hprofile.
  eexists. split.
  - unfold handleAuthenticate, jtry, jbind at 1. rewrite Hflow.
    unfold jbind at 1, fetchProfile, jbind at 1, getValue. cbn [fst snd].
    rewrite orb_true_r. unfold jbind at 1. rewrite Hinit.
    unfold jbind at 1. rewrite Hdid. cbn [jlift jret].
    unfold jbind at 1, ask. rewrite Hprofile.
    unfold jbind, setValue, jret. reflexivity.
  - cbn [area]. apply local_get_set_same.
Qed.

Lemma handleAuthenticate_refreshes_the_profile_alice :
  exists w3,
    handleAuthenticate aliceAuthEnv theHandler emptyWorld
    = (Resolved {| session_success := true;
                   session_data := Some {| payload_profile :=
                                             Some (StoredProfile aliceProfile) |};
                   session_error := None |},
       w3)
    /\ local_get (storageKey (storage theHandler) "profile") (area w3)
       = Some (StoredProfile aliceProfile).
Proof.
  apply (handleAuthenticate_refreshes_the_profile
           aliceAuthEnv theHandler emptyWorld
           (snd (BskyAuth.startOAuthFlow aliceAuthEnv (auth theHandler) emptyWorld))
           (snd (BskyAuth.init
                   aliceAuthEnv (auth theHandler)
                   (snd (BskyAuth.startOAuthFlow aliceAuthEnv (auth theHandler) emptyWorld))))
           {| cb_session := aliceSession; cb_state := None |}
           aliceSession "did:plc:alice" aliceProfile);
    reflexivity.
Defined.

(** ** The stores of the OAuth database *)

Lemma lookup_put_same {E} (key : string) (item : OAuthDatabase.Item E)
      (s : OAuthDatabase.ObjectStore E) :
  OAuthDatabase.lookup key (OAuthDatabase.put key item s) = Some item.
Proof. unfold OAuthDatabase.put. simpl. rewrite String.eqb_refl. reflexivity. Qed.

Lemma lookup_delete_same {E} (key : string) (s : OAuthDatabase.ObjectStore E) :
  OAuthDatabase.lookup key (OAuthDatabase.delete key s) = None.
Proof.
  induction s as [|[k item] s IH]; simpl; trivial.
  destruct (String.eqb k key) eqn:Hk; simpl; [exact IH|]. rewrite Hk. exact IH.
Qed.

(** An entry of a cache is read back as it was written until its time to
    live has passed, the last millisecond included.  The first read after
    that finds nothing and deletes the entry, so that no later read finds it,
    whatever the clock says then. *)
Theorem cache_entry_lives_for_its_time :
  forall (V : Type) (ttl : N) (s : OAuthDatabase.ObjectStore V) (key : string) (v : V)
         (t0 t1 : N),
    let c := @OAuthDatabase.cache V ttl in
    let s1 := snd (OAuthDatabase.set c t0 key (Some v) s) in
    fst (OAuthDatabase.set c t0 key (Some v) s) = Resolved tt
    /\ ((t1 <= t0 + ttl)%N ->
        OAuthDatabase.get c t1 key s1 = (Resolved (Some v), s1))
    /\ ((t0 + ttl < t1)%N ->
        OAuthDatabase.get c t1 key s1 = (Resolved None, OAuthDatabase.delete key s1)
        /\ forall t2,
            OAuthDatabase.get c t2 key (OAuthDatabase.delete key s1)
            = (Resolved None, OAuthDatabase.delete key s1)).
Proof.
  intros V ttl s key v t0 t1 c s1.
  split; [reflexivity|].
  assert (Hlook : OAuthDatabase.lookup key s1
                  = Some {| OAuthDatabase.value := Some v;
                            OAuthDatabase.expiresAt := Some (t0 + ttl)%N |}).
  { subst s1 c. cbn [OAuthDatabase.cache OAuthDatabase.createStore OAuthDatabase.set snd].
    apply lookup_put_same. }
  split.
  - intros Hle. subst c.
    cbn [OAuthDatabase.cache OAuthDatabase.createStore OAuthDatabase.get].
    rewrite Hlook. unfold OAuthDatabase.expired. cbn [OAuthDatabase.expiresAt OAuthDatabase.value].
    apply N.ltb_ge in Hle. rewrite Hle. reflexivity.
  - intros Hlt. subst c.
    cbn [OAuthDatabase.cache OAuthDatabase.createStore OAuthDatabase.get].
    rewrite Hlook. unfold OAuthDatabase.expired. cbn [OAuthDatabase.expiresAt].
    apply N.ltb_lt in Hlt. rewrite Hlt. split; [reflexivity|].
    intros t2. rewrite lookup_delete_same. reflexivity.
Qed.

Lemma cache_entry_lives_for_its_time_did :
  OAuthDatabase.get (@OAuthDatabase.getDidCache string) 1060000 "did:plc:alice"
                    (snd (OAuthDatabase.set (@OAuthDatabase.getDidCache string)
                                            1000000 "did:plc:alice" (Some "document") []))
  = (Resolved (Some "document"),
     snd (OAuthDatabase.set (@OAuthDatabase.getDidCache string)
                            1000000 "did:plc:alice" (Some "document") [])).
Proof.
  apply (proj1 (proj2 (cache_entry_lives_for_its_time
                         string 60000 [] "did:plc:alice" "document" 1000000 1060000))).
  vm_compute. discriminate.
Defined.

(** A session is read back as it was written, DPoP key included, provided
    the key can be imported again.  With a refresh token, or without an
    expiry, it never expires.  Without a refresh token and with an expiry
    that is a date, it is dropped by the first read after that date; with an
    expiry that is out of the range of [Date], it is refused with the
    [RangeError] of [toISOString] and nothing is written. *)
Theorem session_store_round_trip :
  forall (destructureMessage rangeMessage : string)
         (fromKeypair : OAuthDatabase.KeyPair -> string -> Outcome OAuthDatabase.Key)
         (s : OAuthDatabase.ObjectStore (OAuthDatabase.EncodedKeyed OAuthDatabase.TokenSet))
         (key : string) (data : OAuthDatabase.Keyed OAuthDatabase.TokenSet)
         (k : OAuthDatabase.Key) (id : string) (t0 : N),
    OAuthDatabase.dpopKey data = Some k ->
    OAuthDatabase.kid k = Some id ->
    Js.nonEmpty id = true ->
    fromKeypair (OAuthDatabase.cryptoKeyPair k) id = Resolved k ->
    let store := OAuthDatabase.getSessionStore destructureMessage rangeMessage fromKeypair in
    let written := OAuthDatabase.set store t0 key (Some data) s in
    (OAuthDatabase.absent (OAuthDatabase.refresh_token (OAuthDatabase.rest data)) = false
     \/ OAuthDatabase.expires_at (OAuthDatabase.rest data) = None ->
     fst written = Resolved tt
     /\ forall t1,
         OAuthDatabase.get store t1 key (snd written) = (Resolved (Some data), snd written))
    /\ (forall limit,
          OAuthDatabase.absent (OAuthDatabase.refresh_token (OAuthDatabase.rest data)) = true ->
          OAuthDatabase.expires_at (OAuthDatabase.rest data) = Some limit ->
          (limit <= OAuthDatabase.MAX_TIME)%N ->
          fst written = Resolved tt
          /\ forall t1,
              OAuthDatabase.get store t1 key (snd written)
              = if (limit <? t1)%N
                then (Resolved None, OAuthDatabase.delete key (snd written))
                else (Resolved (Some data), snd written))
    /\ (forall limit,
          OAuthDatabase.absent (OAuthDatabase.refresh_token (OAuthDatabase.rest data)) = true ->
          OAuthDatabase.expires_at (OAuthDatabase.rest data) = Some limit ->
          (OAuthDatabase.MAX_TIME < limit)%N ->
          written = (Rejected rangeMessage, s)).
Proof.
  intros dm rm fromKeypair s key data k id t0 Hkey Hkid Hid Himport store written.
  assert (Henc : OAuthDatabase.encodeKeyed (Some data)
                 = Normal (Some {| OAuthDatabase.encoded_dpopKey :=
                                     Some {| OAuthDatabase.keyId := Some id;
                                             OAuthDatabase.keyPair :=
                                               Some (OAuthDatabase.cryptoKeyPair k) |};
                                   OAuthDatabase.encoded_rest := OAuthDatabase.rest data |})).
  { unfold OAuthDatabase.encodeKeyed, OAuthDatabase.encodeKey, OAuthDatabase.absent, cbind.
    rewrite Hkey, Hkid, Hid. reflexivity. }
  assert (Hdec : OAuthDatabase.decodeKeyed
                   fromKeypair
                   (Some {| OAuthDatabase.encoded_dpopKey :=
                              Some {| OAuthDatabase.keyId := Some id;
                                      OAuthDatabase.keyPair :=
                                        Some (OAuthDatabase.cryptoKeyPair k) |};
                            OAuthDatabase.encoded_rest := OAuthDatabase.rest data |})
                 = Resolved (Some data)).
  { unfold OAuthDatabase.decodeKeyed, OAuthDatabase.decodeKey.
    cbn [OAuthDatabase.encoded_dpopKey OAuthDatabase.encoded_rest].
    rewrite Hid, Himport. destruct data as [dk r]. simpl in Hkey. subst dk. reflexivity. }
  assert (Hnever :
            OAuthDatabase.sessionExpiry dm rm (Some data) t0 = Normal None ->
            fst written = Resolved tt
            /\ forall t1,
                OAuthDatabase.get store t1 key (snd written)
                = (Resolved (Some data), snd written)).
  { intros Hexp. subst written store.
    cbn [OAuthDatabase.getSessionStore OAuthDatabase.createStore
         OAuthDatabase.set OAuthDatabase.get].
    rewrite Henc, Hexp. cbn [fst snd]. split; [reflexivity|]. intros t1.
    rewrite lookup_put_same. unfold OAuthDatabase.expired.
    cbn [OAuthDatabase.expiresAt OAuthDatabase.value]. rewrite Hdec. reflexivity. }
  split; [|split].
  - intros Hcase. apply Hnever. unfold OAuthDatabase.sessionExpiry.
    destruct Hcase as [Hrefresh | Hnone].
    + rewrite Hrefresh. reflexivity.
    + rewrite Hnone.
      destruct (OAuthDatabase.absent (OAuthDatabase.refresh_token (OAuthDatabase.rest data)));
        reflexivity.
  - intros limit Hrefresh Hlimit Hrange. subst written store.
    cbn [OAuthDatabase.getSessionStore OAuthDatabase.createStore
         OAuthDatabase.set OAuthDatabase.get].
    rewrite Henc. unfold OAuthDatabase.sessionExpiry, OAuthDatabase.toISOString, cbind.
    rewrite Hrefresh, Hlimit. apply N.leb_le in Hrange. rewrite Hrange.
    cbn [negb fst snd]. split; [reflexivity|]. intros t1.
    rewrite lookup_put_same. unfold OAuthDatabase.expired.
    cbn [OAuthDatabase.expiresAt OAuthDatabase.value].
    destruct (limit <? t1)%N; [reflexivity|]. rewrite Hdec. reflexivity.
  - intros limit Hrefresh Hlimit Hrange. subst written store.
    cbn [OAuthDatabase.getSessionStore OAuthDatabase.createStore OAuthDatabase.set].
    rewrite Henc. unfold OAuthDatabase.sessionExpiry, OAuthDatabase.toISOString, cbind.
    rewrite Hrefresh, Hlimit. apply N.leb_gt in Hrange. rewrite Hrange. reflexivity.
Qed.

Lemma session_store_round_trip_alice :
  (forall t1,
      OAuthDatabase.get (OAuthDatabase.getSessionStore "TypeError" "Invalid time value" importKey)
                        t1 "did:plc:alice"
                        (snd (OAuthDatabase.set
                                (OAuthDatabase.getSessionStore
                                   "TypeError" "Invalid time value" importKey)
                                1600000000000 "did:plc:alice" (Some aliceSessionData) []))
      = (Resolved (Some aliceSessionData),
         snd (OAuthDatabase.set
                (OAuthDatabase.getSessionStore "TypeError" "Invalid time value" importKey)
                1600000000000 "did:plc:alice" (Some aliceSessionData) [])))
  /\ OAuthDatabase.set (OAuthDatabase.getSessionStore "TypeError" "Invalid time value" importKey)
                       1600000000000 "did:plc:alice"
                       (Some (expiringSessionData 8640000000000001)) []
     = (Rejected "Invalid time value", []).
Proof.
  split.
  - apply (proj1 (session_store_round_trip
                    "TypeError" "Invalid time value" importKey [] "did:plc:alice"
                    aliceSessionData aliceKey "dpop-1" 1600000000000
                    eq_refl eq_refl eq_refl eq_refl)).
    left. reflexivity.
  - apply (proj2 (proj2 (session_store_round_trip
                           "TypeError" "Invalid time value" importKey [] "did:plc:alice"
                           (expiringSessionData 8640000000000001) aliceKey "dpop-1"
                           1600000000000 eq_refl eq_refl eq_refl eq_refl))
                 8640000000000001%N); reflexivity.
Defined.

(** A session or a state whose DPoP key has no id is refused with
    [Invalid key object] and nothing is written; a stored key that cannot be
    imported again makes the read fail with [Failed to decode key: ...], and
    the entry stays. *)
Theorem keys_that_cannot_be_coded :
  forall (R : Type)
         (fromKeypair : OAuthDatabase.KeyPair -> string -> Outcome OAuthDatabase.Key)
         (s : OAuthDatabase.ObjectStore (OAuthDatabase.EncodedKeyed R))
         (key : string) (now : N),
    let store := @OAuthDatabase.getStateStore R fromKeypair in
    (forall (data : OAuthDatabase.Keyed R) (k : OAuthDatabase.Key),
        OAuthDatabase.dpopKey data = Some k ->
        OAuthDatabase.absent (OAuthDatabase.kid k) = true ->
        OAuthDatabase.set store now key (Some data) s
        = (Rejected "Invalid key object", s))
    /\ (forall (item : OAuthDatabase.Item (OAuthDatabase.EncodedKeyed R))
               (encoded : OAuthDatabase.EncodedKeyed R) (id : string)
               (kp : OAuthDatabase.KeyPair) (e : string),
          OAuthDatabase.lookup key s = Some item ->
          OAuthDatabase.expired item now = false ->
          OAuthDatabase.value item = Some encoded ->
          OAuthDatabase.encoded_dpopKey encoded
          = Some {| OAuthDatabase.keyId := Some id; OAuthDatabase.keyPair := Some kp |} ->
          Js.nonEmpty id = true ->
          fromKeypair kp id = Rejected e ->
          OAuthDatabase.get store now key s
          = (Rejected ("Failed to decode key: " ++ e)%string, s)).
Proof.
  intros R fromKeypair s key now store. subst store. split.
  - intros data k Hkey Hkid.
    cbn [OAuthDatabase.getStateStore OAuthDatabase.createStore OAuthDatabase.set].
    unfold OAuthDatabase.encodeKeyed, OAuthDatabase.encodeKey, cbind.
    rewrite Hkey, Hkid. reflexivity.
  - intros item encoded id kp e Hlook Hexp Hval Hkey Hid Himport.
    cbn [OAuthDatabase.getStateStore OAuthDatabase.createStore OAuthDatabase.get].
    rewrite Hlook, Hexp, Hval.
    unfold OAuthDatabase.decodeKeyed, OAuthDatabase.decodeKey.
    rewrite Hkey, Hid, Himport. reflexivity.
Qed.

Lemma keys_that_cannot_be_coded_example :
  OAuthDatabase.set (@OAuthDatabase.getStateStore string importKey) 1000 "state-1"
                    (Some {| OAuthDatabase.dpopKey :=
                               Some {| OAuthDatabase.kid := None;
                                       OAuthDatabase.cryptoKeyPair := "pair-2" |};
                             OAuthDatabase.rest := "verifier" |})
                    []
  = (Rejected "Invalid key object", []).
Proof.
  apply (proj1 (keys_that_cannot_be_coded string importKey [] "state-1" 1000)
               _ {| OAuthDatabase.kid := None; OAuthDatabase.cryptoKeyPair := "pair-2" |});
    reflexivity.
Defined.

(** ** The popup *)

(** Whenever a status message is processed without an exception, the popup
    is in one of two states: the profile is visible, the login button hidden
    and the logout button shown, exactly when the message says
    [authenticated]; otherwise the profile is hidden, the login button shown
    and the logout button hidden, and the error text is that of the message
    or empty. *)
Theorem popup_buttons_follow_the_profile :
  forall (engine : Engine) (m : Popup.Message) (v v' : Popup.View),
    Popup.processSessionStatusMessage engine (Some m) v = (Normal tt, v') ->
    Popup.profileVisible v' = Popup.authenticated m
    /\ Popup.loginHidden v' = Popup.authenticated m
    /\ Popup.logoutHidden v' = negb (Popup.authenticated m)
    /\ (Popup.authenticated m = false ->
        Popup.errorMessage v' = Popup.orEmpty (Popup.error m)).
Proof.
  intros engine m v v' H. unfold Popup.processSessionStatusMessage in H.
  destruct (Popup.authenticated m).
  - unfold Popup.showProfile in H. destruct (Popup.profile m); inversion H; subst.
    repeat split; try reflexivity. discriminate.
  - unfold Popup.hideProfile in H. inversion H; subst. repeat split; reflexivity.
Qed.

Lemma popup_buttons_follow_the_profile_alice :
  Popup.profileVisible
    (snd (Popup.processSessionStatusMessage
            Mock.v8
            (Some {| Popup.authenticated := true; Popup.profile := Some aliceProfile;
                     Popup.error := None |})
            {| Popup.profileVisible := false; Popup.userHandle := None;
               Popup.userDisplayName := None; Popup.avatarSrc := None;
               Popup.errorMessage := ""; Popup.loginHidden := false;
               Popup.logoutHidden := true |}))
  = true.
Proof.
  apply (proj1 (popup_buttons_follow_the_profile
                  Mock.v8
                  {| Popup.authenticated := true; Popup.profile := Some aliceProfile;
                     Popup.error := None |}
                  {| Popup.profileVisible := false; Popup.userHandle := None;
                     Popup.userDisplayName := None; Popup.avatarSrc := None;
                     Popup.errorMessage := ""; Popup.loginHidden := false;
                     Popup.logoutHidden := true |}
                  _ eq_refl)).
Defined.

